(** * AI Serendipity backend (main.py): parsers, daily seed and gateway

    A shallow embedding of [src/main.py].  Python values are modelled as the
    interpreter has them: a [str] is a sequence of Unicode code points, a
    [bytes] a sequence of octets, a [float] an IEEE binary64.  The handlers
    are functions in a state-and-exception monad over a [world] that holds
    what the module shares with its environment: the completion service,
    the clock, the random generator, the log of calls made and the text
    printed. *)

From Stdlib Require Import NArith ZArith List String Ascii Bool Lia Floats.
Import ListNotations.

Set Warnings "-inexact-float".

(* ================================================================== *)
(** ** Python's [str] and the methods main.py calls on it *)
(* ================================================================== *)

Module Py.

Local Open Scope N_scope.

(** A character is its code point; a [str] is the sequence of them. *)
Definition char : Type := N.
Definition str : Type := list char.

(** Source literals: the UTF-8 bytes of a literal, decoded to code points.
    [need] counts the continuation bytes still expected, [acc] holds the
    bits read so far. *)
Fixpoint utf8_go (need : nat) (acc : N) (bs : list N) : str :=
  match bs with
  | [] => []
  | b :: bs' =>
      match need with
      | O =>
          if b <? 0x80 then b :: utf8_go 0 0 bs'
          else if b <? 0xE0 then utf8_go 1 (b - 0xC0) bs'
          else if b <? 0xF0 then utf8_go 2 (b - 0xE0) bs'
          else utf8_go 3 (b - 0xF0) bs'
      | S O => (acc * 64 + (b - 0x80)) :: utf8_go 0 0 bs'
      | S n => utf8_go n (acc * 64 + (b - 0x80)) bs'
      end
  end.

Definition lit (s : string) : str :=
  utf8_go 0 0 (map Byte.to_N (list_byte_of_string s)).

Definition nl : char := 10.
Definition colon : char := 58.
Definition comma : char := 44.
Definition dquote : char := 34.

(** [eqb] on strings, for the executable checks. *)
Fixpoint str_eqb (a b : str) : bool :=
  match a, b with
  | [], [] => true
  | x :: a', y :: b' => (x =? y) && str_eqb a' b'
  | _, _ => false
  end.

(** [c.isspace()]: the characters [str.strip()] and [str.split()] treat as
    blanks (CPython's [_Py_ascii_whitespace] and [_PyUnicode_IsWhitespace]). *)
Definition isspace (c : char) : bool :=
  ((0x09 <=? c) && (c <=? 0x0D)) || ((0x1C <=? c) && (c <=? 0x20))
  || (c =? 0x85) || (c =? 0xA0) || (c =? 0x1680)
  || ((0x2000 <=? c) && (c <=? 0x200A))
  || (c =? 0x2028) || (c =? 0x2029) || (c =? 0x202F) || (c =? 0x205F)
  || (c =? 0x3000).

Fixpoint lstrip (s : str) : str :=
  match s with
  | [] => []
  | c :: s' => if isspace c then lstrip s' else s
  end.

Definition rstrip (s : str) : str := rev (lstrip (rev s)).

(** [s.strip()] *)
Definition strip (s : str) : str := rstrip (lstrip s).

(** [s.split()]: the maximal runs of non-blank characters.  [cur] is the
    run being read, reversed. *)
Fixpoint split_ws_go (cur : str) (s : str) : list str :=
  match s with
  | [] => match cur with [] => [] | _ => [rev cur] end
  | c :: s' =>
      if isspace c
      then match cur with
           | [] => split_ws_go [] s'
           | _ => rev cur :: split_ws_go [] s'
           end
      else split_ws_go (c :: cur) s'
  end.

Definition split_ws (s : str) : list str := split_ws_go [] s.

(** [s.split(sep)] for a one-character separator: never empty. *)
Fixpoint split (sep : char) (s : str) : list str :=
  match s with
  | [] => [[]]
  | c :: s' =>
      if c =? sep then [] :: split sep s'
      else match split sep s' with
           | [] => [[c]]
           | w :: ws => (c :: w) :: ws
           end
  end.

(** The text before and after the first [sep], when there is one. *)
Fixpoint partition (sep : char) (s : str) : option (str * str) :=
  match s with
  | [] => None
  | c :: s' =>
      if c =? sep then Some ([], s')
      else match partition sep s' with
           | Some (a, b) => Some (c :: a, b)
           | None => None
           end
  end.

(** [s.split(sep, 1)] *)
Definition split1 (sep : char) (s : str) : list str :=
  match partition sep s with
  | Some (a, b) => [a; b]
  | None => [s]
  end.

(** [s.startswith(p)] *)
Fixpoint startswith (s p : str) {struct p} : bool :=
  match p, s with
  | [], _ => true
  | _ :: _, [] => false
  | y :: p', x :: s' => (x =? y) && startswith s' p'
  end.

(** [s.replace(old, new)]: every occurrence, left to right, not
    overlapping.  [skip] counts the characters of a matched [old] still to
    be dropped. *)
Fixpoint replace_go (old new : str) (skip : nat) (s : str) : str :=
  match s with
  | [] => []
  | c :: s' =>
      match skip with
      | S k => replace_go old new k s'
      | O =>
          if startswith s old
          then new ++ replace_go old new (List.length old - 1) s'
          else c :: replace_go old new 0 s'
      end
  end.

Definition replace (s old new : str) : str :=
  match old with
  | [] => new ++ flat_map (fun c => c :: new) s
  | _ => replace_go old new 0 s
  end.

(** [sep.join(parts)] *)
Fixpoint join (sep : str) (parts : list str) : str :=
  match parts with
  | [] => []
  | [p] => p
  | p :: ps => p ++ sep ++ join sep ps
  end.

(** [s.upper()].  CPython maps each character on its own through the
    Unicode case tables (Unicode 14.0, as CPython 3.11 ships them):
    [upper_ranges] lists the characters with a one-character upper case as
    [(lo, hi, step, to)], meaning that [lo], [lo + step], ..., [hi] map to
    [to], [to + step], ...; [upper_special] lists the characters whose
    upper case is several characters.  Every other character is kept. *)
Definition upper_ranges : list (N * N * N * N) :=
  [
    (0x61, 0x7A, 1, 0x41); (0xB5, 0xB5, 1, 0x39C); (0xE0, 0xF6, 1, 0xC0);
    (0xF8, 0xFE, 1, 0xD8); (0xFF, 0xFF, 1, 0x178); (0x101, 0x12F, 2, 0x100);
    (0x131, 0x131, 1, 0x49); (0x133, 0x137, 2, 0x132); (0x13A, 0x148, 2, 0x139);
    (0x14B, 0x177, 2, 0x14A); (0x17A, 0x17E, 2, 0x179); (0x17F, 0x17F, 1, 0x53);
    (0x180, 0x180, 1, 0x243); (0x183, 0x185, 2, 0x182); (0x188, 0x188, 1, 0x187);
    (0x18C, 0x18C, 1, 0x18B); (0x192, 0x192, 1, 0x191); (0x195, 0x195, 1, 0x1F6);
    (0x199, 0x199, 1, 0x198); (0x19A, 0x19A, 1, 0x23D); (0x19E, 0x19E, 1, 0x220);
    (0x1A1, 0x1A5, 2, 0x1A0); (0x1A8, 0x1A8, 1, 0x1A7); (0x1AD, 0x1AD, 1, 0x1AC);
    (0x1B0, 0x1B0, 1, 0x1AF); (0x1B4, 0x1B6, 2, 0x1B3); (0x1B9, 0x1B9, 1, 0x1B8);
    (0x1BD, 0x1BD, 1, 0x1BC); (0x1BF, 0x1BF, 1, 0x1F7); (0x1C5, 0x1C5, 1, 0x1C4);
    (0x1C6, 0x1C6, 1, 0x1C4); (0x1C8, 0x1C8, 1, 0x1C7); (0x1C9, 0x1C9, 1, 0x1C7);
    (0x1CB, 0x1CB, 1, 0x1CA); (0x1CC, 0x1CC, 1, 0x1CA); (0x1CE, 0x1DC, 2, 0x1CD);
    (0x1DD, 0x1DD, 1, 0x18E); (0x1DF, 0x1EF, 2, 0x1DE); (0x1F2, 0x1F2, 1, 0x1F1);
    (0x1F3, 0x1F3, 1, 0x1F1); (0x1F5, 0x1F5, 1, 0x1F4); (0x1F9, 0x21F, 2, 0x1F8);
    (0x223, 0x233, 2, 0x222); (0x23C, 0x23C, 1, 0x23B); (0x23F, 0x240, 1, 0x2C7E);
    (0x242, 0x242, 1, 0x241); (0x247, 0x24F, 2, 0x246); (0x250, 0x250, 1, 0x2C6F);
    (0x251, 0x251, 1, 0x2C6D); (0x252, 0x252, 1, 0x2C70); (0x253, 0x253, 1, 0x181);
    (0x254, 0x254, 1, 0x186); (0x256, 0x257, 1, 0x189); (0x259, 0x259, 1, 0x18F);
    (0x25B, 0x25B, 1, 0x190); (0x25C, 0x25C, 1, 0xA7AB); (0x260, 0x260, 1, 0x193);
    (0x261, 0x261, 1, 0xA7AC); (0x263, 0x263, 1, 0x194); (0x265, 0x265, 1, 0xA78D);
    (0x266, 0x266, 1, 0xA7AA); (0x268, 0x268, 1, 0x197); (0x269, 0x269, 1, 0x196);
    (0x26A, 0x26A, 1, 0xA7AE); (0x26B, 0x26B, 1, 0x2C62); (0x26C, 0x26C, 1, 0xA7AD);
    (0x26F, 0x26F, 1, 0x19C); (0x271, 0x271, 1, 0x2C6E); (0x272, 0x272, 1, 0x19D);
    (0x275, 0x275, 1, 0x19F); (0x27D, 0x27D, 1, 0x2C64); (0x280, 0x280, 1, 0x1A6);
    (0x282, 0x282, 1, 0xA7C5); (0x283, 0x283, 1, 0x1A9); (0x287, 0x287, 1, 0xA7B1);
    (0x288, 0x288, 1, 0x1AE); (0x289, 0x289, 1, 0x244); (0x28A, 0x28B, 1, 0x1B1);
    (0x28C, 0x28C, 1, 0x245); (0x292, 0x292, 1, 0x1B7); (0x29D, 0x29D, 1, 0xA7B2);
    (0x29E, 0x29E, 1, 0xA7B0); (0x345, 0x345, 1, 0x399); (0x371, 0x373, 2, 0x370);
    (0x377, 0x377, 1, 0x376); (0x37B, 0x37D, 1, 0x3FD); (0x3AC, 0x3AC, 1, 0x386);
    (0x3AD, 0x3AF, 1, 0x388); (0x3B1, 0x3C1, 1, 0x391); (0x3C2, 0x3C2, 1, 0x3A3);
    (0x3C3, 0x3CB, 1, 0x3A3); (0x3CC, 0x3CC, 1, 0x38C); (0x3CD, 0x3CE, 1, 0x38E);
    (0x3D0, 0x3D0, 1, 0x392); (0x3D1, 0x3D1, 1, 0x398); (0x3D5, 0x3D5, 1, 0x3A6);
    (0x3D6, 0x3D6, 1, 0x3A0); (0x3D7, 0x3D7, 1, 0x3CF); (0x3D9, 0x3EF, 2, 0x3D8);
    (0x3F0, 0x3F0, 1, 0x39A); (0x3F1, 0x3F1, 1, 0x3A1); (0x3F2, 0x3F2, 1, 0x3F9);
    (0x3F3, 0x3F3, 1, 0x37F); (0x3F5, 0x3F5, 1, 0x395); (0x3F8, 0x3F8, 1, 0x3F7);
    (0x3FB, 0x3FB, 1, 0x3FA); (0x430, 0x44F, 1, 0x410); (0x450, 0x45F, 1, 0x400);
    (0x461, 0x481, 2, 0x460); (0x48B, 0x4BF, 2, 0x48A); (0x4C2, 0x4CE, 2, 0x4C1);
    (0x4CF, 0x4CF, 1, 0x4C0); (0x4D1, 0x52F, 2, 0x4D0); (0x561, 0x586, 1, 0x531);
    (0x10D0, 0x10FA, 1, 0x1C90); (0x10FD, 0x10FF, 1, 0x1CBD); (0x13F8, 0x13FD, 1, 0x13F0);
    (0x1C80, 0x1C80, 1, 0x412); (0x1C81, 0x1C81, 1, 0x414); (0x1C82, 0x1C82, 1, 0x41E);
    (0x1C83, 0x1C84, 1, 0x421); (0x1C85, 0x1C85, 1, 0x422); (0x1C86, 0x1C86, 1, 0x42A);
    (0x1C87, 0x1C87, 1, 0x462); (0x1C88, 0x1C88, 1, 0xA64A); (0x1D79, 0x1D79, 1, 0xA77D);
    (0x1D7D, 0x1D7D, 1, 0x2C63); (0x1D8E, 0x1D8E, 1, 0xA7C6); (0x1E01, 0x1E95, 2, 0x1E00);
    (0x1E9B, 0x1E9B, 1, 0x1E60); (0x1EA1, 0x1EFF, 2, 0x1EA0); (0x1F00, 0x1F07, 1, 0x1F08);
    (0x1F10, 0x1F15, 1, 0x1F18); (0x1F20, 0x1F27, 1, 0x1F28); (0x1F30, 0x1F37, 1, 0x1F38);
    (0x1F40, 0x1F45, 1, 0x1F48); (0x1F51, 0x1F57, 2, 0x1F59); (0x1F60, 0x1F67, 1, 0x1F68);
    (0x1F70, 0x1F71, 1, 0x1FBA); (0x1F72, 0x1F75, 1, 0x1FC8); (0x1F76, 0x1F77, 1, 0x1FDA);
    (0x1F78, 0x1F79, 1, 0x1FF8); (0x1F7A, 0x1F7B, 1, 0x1FEA); (0x1F7C, 0x1F7D, 1, 0x1FFA);
    (0x1FB0, 0x1FB1, 1, 0x1FB8); (0x1FBE, 0x1FBE, 1, 0x399); (0x1FD0, 0x1FD1, 1, 0x1FD8);
    (0x1FE0, 0x1FE1, 1, 0x1FE8); (0x1FE5, 0x1FE5, 1, 0x1FEC); (0x214E, 0x214E, 1, 0x2132);
    (0x2170, 0x217F, 1, 0x2160); (0x2184, 0x2184, 1, 0x2183); (0x24D0, 0x24E9, 1, 0x24B6);
    (0x2C30, 0x2C5F, 1, 0x2C00); (0x2C61, 0x2C61, 1, 0x2C60); (0x2C65, 0x2C65, 1, 0x23A);
    (0x2C66, 0x2C66, 1, 0x23E); (0x2C68, 0x2C6C, 2, 0x2C67); (0x2C73, 0x2C73, 1, 0x2C72);
    (0x2C76, 0x2C76, 1, 0x2C75); (0x2C81, 0x2CE3, 2, 0x2C80); (0x2CEC, 0x2CEE, 2, 0x2CEB);
    (0x2CF3, 0x2CF3, 1, 0x2CF2); (0x2D00, 0x2D25, 1, 0x10A0); (0x2D27, 0x2D27, 1, 0x10C7);
    (0x2D2D, 0x2D2D, 1, 0x10CD); (0xA641, 0xA66D, 2, 0xA640); (0xA681, 0xA69B, 2, 0xA680);
    (0xA723, 0xA72F, 2, 0xA722); (0xA733, 0xA76F, 2, 0xA732); (0xA77A, 0xA77C, 2, 0xA779);
    (0xA77F, 0xA787, 2, 0xA77E); (0xA78C, 0xA78C, 1, 0xA78B); (0xA791, 0xA793, 2, 0xA790);
    (0xA794, 0xA794, 1, 0xA7C4); (0xA797, 0xA7A9, 2, 0xA796); (0xA7B5, 0xA7C3, 2, 0xA7B4);
    (0xA7C8, 0xA7CA, 2, 0xA7C7); (0xA7D1, 0xA7D1, 1, 0xA7D0); (0xA7D7, 0xA7D9, 2, 0xA7D6);
    (0xA7F6, 0xA7F6, 1, 0xA7F5); (0xAB53, 0xAB53, 1, 0xA7B3); (0xAB70, 0xABBF, 1, 0x13A0);
    (0xFF41, 0xFF5A, 1, 0xFF21); (0x10428, 0x1044F, 1, 0x10400); (0x104D8, 0x104FB, 1, 0x104B0);
    (0x10597, 0x105A1, 1, 0x10570); (0x105A3, 0x105B1, 1, 0x1057C); (0x105B3, 0x105B9, 1, 0x1058C);
    (0x105BB, 0x105BC, 1, 0x10594); (0x10CC0, 0x10CF2, 1, 0x10C80); (0x118C0, 0x118DF, 1, 0x118A0);
    (0x16E60, 0x16E7F, 1, 0x16E40); (0x1E922, 0x1E943, 1, 0x1E900)
  ].

Definition upper_special : list (N * list N) :=
  [
    (0xDF, [0x53; 0x53]); (0x149, [0x2BC; 0x4E]);
    (0x1F0, [0x4A; 0x30C]); (0x390, [0x399; 0x308; 0x301]);
    (0x3B0, [0x3A5; 0x308; 0x301]); (0x587, [0x535; 0x552]);
    (0x1E96, [0x48; 0x331]); (0x1E97, [0x54; 0x308]);
    (0x1E98, [0x57; 0x30A]); (0x1E99, [0x59; 0x30A]);
    (0x1E9A, [0x41; 0x2BE]); (0x1F50, [0x3A5; 0x313]);
    (0x1F52, [0x3A5; 0x313; 0x300]); (0x1F54, [0x3A5; 0x313; 0x301]);
    (0x1F56, [0x3A5; 0x313; 0x342]); (0x1F80, [0x1F08; 0x399]);
    (0x1F81, [0x1F09; 0x399]); (0x1F82, [0x1F0A; 0x399]);
    (0x1F83, [0x1F0B; 0x399]); (0x1F84, [0x1F0C; 0x399]);
    (0x1F85, [0x1F0D; 0x399]); (0x1F86, [0x1F0E; 0x399]);
    (0x1F87, [0x1F0F; 0x399]); (0x1F88, [0x1F08; 0x399]);
    (0x1F89, [0x1F09; 0x399]); (0x1F8A, [0x1F0A; 0x399]);
    (0x1F8B, [0x1F0B; 0x399]); (0x1F8C, [0x1F0C; 0x399]);
    (0x1F8D, [0x1F0D; 0x399]); (0x1F8E, [0x1F0E; 0x399]);
    (0x1F8F, [0x1F0F; 0x399]); (0x1F90, [0x1F28; 0x399]);
    (0x1F91, [0x1F29; 0x399]); (0x1F92, [0x1F2A; 0x399]);
    (0x1F93, [0x1F2B; 0x399]); (0x1F94, [0x1F2C; 0x399]);
    (0x1F95, [0x1F2D; 0x399]); (0x1F96, [0x1F2E; 0x399]);
    (0x1F97, [0x1F2F; 0x399]); (0x1F98, [0x1F28; 0x399]);
    (0x1F99, [0x1F29; 0x399]); (0x1F9A, [0x1F2A; 0x399]);
    (0x1F9B, [0x1F2B; 0x399]); (0x1F9C, [0x1F2C; 0x399]);
    (0x1F9D, [0x1F2D; 0x399]); (0x1F9E, [0x1F2E; 0x399]);
    (0x1F9F, [0x1F2F; 0x399]); (0x1FA0, [0x1F68; 0x399]);
    (0x1FA1, [0x1F69; 0x399]); (0x1FA2, [0x1F6A; 0x399]);
    (0x1FA3, [0x1F6B; 0x399]); (0x1FA4, [0x1F6C; 0x399]);
    (0x1FA5, [0x1F6D; 0x399]); (0x1FA6, [0x1F6E; 0x399]);
    (0x1FA7, [0x1F6F; 0x399]); (0x1FA8, [0x1F68; 0x399]);
    (0x1FA9, [0x1F69; 0x399]); (0x1FAA, [0x1F6A; 0x399]);
    (0x1FAB, [0x1F6B; 0x399]); (0x1FAC, [0x1F6C; 0x399]);
    (0x1FAD, [0x1F6D; 0x399]); (0x1FAE, [0x1F6E; 0x399]);
    (0x1FAF, [0x1F6F; 0x399]); (0x1FB2, [0x1FBA; 0x399]);
    (0x1FB3, [0x391; 0x399]); (0x1FB4, [0x386; 0x399]);
    (0x1FB6, [0x391; 0x342]); (0x1FB7, [0x391; 0x342; 0x399]);
    (0x1FBC, [0x391; 0x399]); (0x1FC2, [0x1FCA; 0x399]);
    (0x1FC3, [0x397; 0x399]); (0x1FC4, [0x389; 0x399]);
    (0x1FC6, [0x397; 0x342]); (0x1FC7, [0x397; 0x342; 0x399]);
    (0x1FCC, [0x397; 0x399]); (0x1FD2, [0x399; 0x308; 0x300]);
    (0x1FD3, [0x399; 0x308; 0x301]); (0x1FD6, [0x399; 0x342]);
    (0x1FD7, [0x399; 0x308; 0x342]); (0x1FE2, [0x3A5; 0x308; 0x300]);
    (0x1FE3, [0x3A5; 0x308; 0x301]); (0x1FE4, [0x3A1; 0x313]);
    (0x1FE6, [0x3A5; 0x342]); (0x1FE7, [0x3A5; 0x308; 0x342]);
    (0x1FF2, [0x1FFA; 0x399]); (0x1FF3, [0x3A9; 0x399]);
    (0x1FF4, [0x38F; 0x399]); (0x1FF6, [0x3A9; 0x342]);
    (0x1FF7, [0x3A9; 0x342; 0x399]); (0x1FFC, [0x3A9; 0x399]);
    (0xFB00, [0x46; 0x46]); (0xFB01, [0x46; 0x49]);
    (0xFB02, [0x46; 0x4C]); (0xFB03, [0x46; 0x46; 0x49]);
    (0xFB04, [0x46; 0x46; 0x4C]); (0xFB05, [0x53; 0x54]);
    (0xFB06, [0x53; 0x54]); (0xFB13, [0x544; 0x546]);
    (0xFB14, [0x544; 0x535]); (0xFB15, [0x544; 0x53B]);
    (0xFB16, [0x54E; 0x546]); (0xFB17, [0x544; 0x53D])
  ].

Fixpoint lookup_range (c : char) (t : list (N * N * N * N)) : option char :=
  match t with
  | [] => None
  | (lo, hi, step, to) :: t' =>
      if (lo <=? c) && (c <=? hi) && ((c - lo) mod step =? 0)
      then Some (to + (c - lo))
      else lookup_range c t'
  end.

Fixpoint lookup_special (c : char) (t : list (N * list N)) : option str :=
  match t with
  | [] => None
  | (k, v) :: t' => if k =? c then Some v else lookup_special c t'
  end.

Definition upper_char (c : char) : str :=
  match lookup_range c upper_ranges with
  | Some u => [u]
  | None =>
      match lookup_special c upper_special with
      | Some v => v
      | None => [c]
      end
  end.

Definition upper (s : str) : str := flat_map upper_char s.

(** [s.encode()]: UTF-8, strict.  A lone surrogate has no encoding
    ([UnicodeEncodeError], here [None]). *)
Definition encode_char (c : char) : option (list N) :=
  if c <? 0x80 then Some [c]
  else if c <? 0x800 then Some [0xC0 + c / 64; 0x80 + c mod 64]
  else if c <? 0x10000 then
    if (0xD800 <=? c) && (c <=? 0xDFFF) then None
    else Some [0xE0 + c / 4096; 0x80 + (c / 64) mod 64; 0x80 + c mod 64]
  else if c <? 0x110000 then
    Some [0xF0 + c / 262144; 0x80 + (c / 4096) mod 64;
          0x80 + (c / 64) mod 64; 0x80 + c mod 64]
  else None.

Fixpoint encode (s : str) : option (list N) :=
  match s with
  | [] => Some []
  | c :: s' =>
      match encode_char c, encode s' with
      | Some b, Some bs => Some (b ++ bs)
      | _, _ => None
      end
  end.

(** The value of a hexadecimal digit, in either case. *)
Definition hex_value (c : char) : option N :=
  if (48 <=? c) && (c <=? 57) then Some (c - 48)
  else if (97 <=? c) && (c <=? 102) then Some (c - 87)
  else if (65 <=? c) && (c <=? 70) then Some (c - 55)
  else None.

Fixpoint int16_go (acc : N) (s : str) : option N :=
  match s with
  | [] => Some acc
  | c :: s' =>
      match hex_value c with
      | Some d => int16_go (16 * acc + d) s'
      | None => None
      end
  end.

(** [int(s, 16)] on a non-empty run of hexadecimal digits.  Python reads
    more spellings (a sign, a [0x] prefix, single underscores, blanks
    around, other decimal digits of Unicode); here they are a
    [ValueError] ([None]) like every other text, so a value in the model is
    the value Python computes. *)
Definition int16 (s : str) : option N :=
  match s with
  | [] => None
  | _ => int16_go 0 s
  end.

(** [l[i]] for [0 <= i]: [IndexError] ([None]) out of range. *)
Definition index {A : Type} (l : list A) (i : N) : option A :=
  nth_error l (N.to_nat i).

(** [str(n)] for a natural number, and [strftime]'s zero padding. *)
Fixpoint decimal_go (fuel : nat) (n : N) (acc : str) : str :=
  match fuel with
  | O => acc
  | S fuel' =>
      let acc' := (48 + n mod 10) :: acc in
      if n / 10 =? 0 then acc' else decimal_go fuel' (n / 10) acc'
  end.

Definition decimal (n : N) : str := decimal_go (S (N.size_nat n)) n [].

Definition zfill (width : nat) (s : str) : str :=
  repeat 48 (width - List.length s) ++ s.

End Py.

(* ================================================================== *)
(** ** [hashlib.md5] (RFC 1321) on octets *)
(* ================================================================== *)

Module Hashlib.

Local Open Scope N_scope.

(** 32-bit words as [N], the wrap-around written out. *)
Definition wrap32 (x : N) : N := x mod 2 ^ 32.
Definition add32 (a b : N) : N := wrap32 (a + b).
Definition not32 (x : N) : N := N.lxor (wrap32 x) 0xFFFFFFFF.
Definition rotl32 (x s : N) : N :=
  N.lor (wrap32 (N.shiftl x s)) (N.shiftr (wrap32 x) (32 - s)).

(** The per-round shift amounts and the sine table. *)
Definition S_table : list N :=
  [ 7; 12; 17; 22; 7; 12; 17; 22; 7; 12; 17; 22; 7; 12; 17; 22;
    5; 9; 14; 20; 5; 9; 14; 20; 5; 9; 14; 20; 5; 9; 14; 20;
    4; 11; 16; 23; 4; 11; 16; 23; 4; 11; 16; 23; 4; 11; 16; 23;
    6; 10; 15; 21; 6; 10; 15; 21; 6; 10; 15; 21; 6; 10; 15; 21 ].

Definition K_table : list N :=
  [
    0xD76AA478; 0xE8C7B756; 0x242070DB; 0xC1BDCEEE;
    0xF57C0FAF; 0x4787C62A; 0xA8304613; 0xFD469501;
    0x698098D8; 0x8B44F7AF; 0xFFFF5BB1; 0x895CD7BE;
    0x6B901122; 0xFD987193; 0xA679438E; 0x49B40821;
    0xF61E2562; 0xC040B340; 0x265E5A51; 0xE9B6C7AA;
    0xD62F105D; 0x02441453; 0xD8A1E681; 0xE7D3FBC8;
    0x21E1CDE6; 0xC33707D6; 0xF4D50D87; 0x455A14ED;
    0xA9E3E905; 0xFCEFA3F8; 0x676F02D9; 0x8D2A4C8A;
    0xFFFA3942; 0x8771F681; 0x6D9D6122; 0xFDE5380C;
    0xA4BEEA44; 0x4BDECFA9; 0xF6BB4B60; 0xBEBFBC70;
    0x289B7EC6; 0xEAA127FA; 0xD4EF3085; 0x04881D05;
    0xD9D4D039; 0xE6DB99E5; 0x1FA27CF8; 0xC4AC5665;
    0xF4292244; 0x432AFF97; 0xAB9423A7; 0xFC93A039;
    0x655B59C3; 0x8F0CCC92; 0xFFEFF47D; 0x85845DD1;
    0x6FA87E4F; 0xFE2CE6E0; 0xA3014314; 0x4E0811A1;
    0xF7537E82; 0xBD3AF235; 0x2AD7D2BB; 0xEB86D391
  ].

Record md5_state : Type := MkState { sA : N; sB : N; sC : N; sD : N }.

Definition md5_init : md5_state :=
  MkState 0x67452301 0xEFCDAB89 0x98BADCFE 0x10325476.

(** Little-endian words of a block and octets of a word. *)
Fixpoint words_of (bs : list N) : list N :=
  match bs with
  | b0 :: b1 :: b2 :: b3 :: bs' =>
      (b0 + 256 * b1 + 65536 * b2 + 16777216 * b3) :: words_of bs'
  | _ => []
  end.

Definition octets_of (n : nat) (w : N) : list N :=
  map (fun i => (w / 256 ^ N.of_nat i) mod 256) (seq 0 n).

(** One of the 64 operations on a block's words [m]. *)
Definition md5_step (m : list N) (st : md5_state) (i : nat) : md5_state :=
  let '(MkState a b c d) := st in
  let ni := N.of_nat i in
  let '(f, g) :=
    if ni <? 16 then (N.lor (N.land b c) (N.land (not32 b) d), ni)
    else if ni <? 32 then
      (N.lor (N.land d b) (N.land (not32 d) c), (5 * ni + 1) mod 16)
    else if ni <? 48 then (N.lxor b (N.lxor c d), (3 * ni + 5) mod 16)
    else (N.lxor c (N.lor b (not32 d)), (7 * ni) mod 16) in
  let f' := add32 (add32 (add32 f a) (nth i K_table 0))
                  (nth (N.to_nat g) m 0) in
  MkState d (add32 b (rotl32 f' (nth i S_table 0))) b c.

Definition md5_block (st : md5_state) (block : list N) : md5_state :=
  let '(MkState a b c d) := fold_left (md5_step (words_of block)) (seq 0 64) st in
  MkState (add32 (sA st) a) (add32 (sB st) b) (add32 (sC st) c) (add32 (sD st) d).

(** The message is consumed octet by octet; [buf] holds the octets of the
    block being filled, reversed, and [room] how many more it takes after
    the next one. *)
Fixpoint md5_blocks (st : md5_state) (buf : list N) (room : nat) (bs : list N)
  : md5_state :=
  match bs with
  | [] => st
  | b :: bs' =>
      match room with
      | O => md5_blocks (md5_block st (rev (b :: buf))) [] 63 bs'
      | S room' => md5_blocks st (b :: buf) room' bs'
      end
  end.

(** A one bit, zeros up to 56 modulo 64, and the length in bits on 64 bits. *)
Definition md5_pad (msg : list N) : list N :=
  let len := N.of_nat (List.length msg) in
  let zeros := N.to_nat ((119 - len mod 64) mod 64) in
  msg ++ [0x80] ++ repeat 0 zeros ++ octets_of 8 ((8 * len) mod 2 ^ 64).

(** [hashlib.md5(msg).digest()] *)
Definition md5 (msg : list N) : list N :=
  let '(MkState a b c d) := md5_blocks md5_init [] 63 (md5_pad msg) in
  octets_of 4 a ++ octets_of 4 b ++ octets_of 4 c ++ octets_of 4 d.

Definition hex_digit (n : N) : Py.char := if n <? 10 then 48 + n else 87 + n.

Definition hex_of_octet (b : N) : Py.str := [hex_digit (b / 16); hex_digit (b mod 16)].

(** [hashlib.md5(msg).hexdigest()] *)
Definition hexdigest (msg : list N) : Py.str := flat_map hex_of_octet (md5 msg).

End Hashlib.

(* ================================================================== *)
(** ** The interpreter around the handlers: exceptions, effects, floats *)
(* ================================================================== *)

Module Rt.

Import Py.

(** The exception classes that occur.  The first three are the openai
    client's: transport ([APIConnectionError]), credentials
    ([AuthenticationError]) and an error status of the service
    ([APIStatusError]).  The last three derive from [BaseException] only. *)
Inductive exn_class : Type :=
| APIConnectionError
| AuthenticationError
| APIStatusError
| IndexError
| AttributeError
| ValueError
| UnicodeEncodeError
| OverflowError
| KeyboardInterrupt
| SystemExit
| CancelledError.

(** [text] is [str(e)]. *)
Inductive exn : Type :=
| PyErr (cls : exn_class) (text : str)
| HTTPException (status_code : N) (detail : str).

(** [isinstance(e, Exception)] *)
Definition is_Exception (e : exn) : bool :=
  match e with
  | PyErr KeyboardInterrupt _ | PyErr SystemExit _ | PyErr CancelledError _ => false
  | _ => true
  end.

Definition exn_str (e : exn) : str :=
  match e with
  | PyErr _ text => text
  | HTTPException code detail => decimal code ++ lit ": " ++ detail
  end.

Inductive result (A : Type) : Type :=
| Ok (a : A)
| Raise (e : exn).
Arguments Ok {A} a.
Arguments Raise {A} e.

(** A reading of [datetime.now()].  [weekday] is 0 for Monday. *)
Record datetime : Type := MkDatetime {
  year : N; month : N; day : N; hour : N; weekday : N
}.

(** What [client.chat.completions.create] is called with. *)
Record api_request : Type := MkApiRequest {
  model : str;
  messages : list (str * str);
  max_tokens : Z;
  temperature : float;
  presence_penalty : float;
  frequency_penalty : float
}.

(** It returns a response, of which the handlers read the [message.content]
    of each of [choices] ([None] for a message without text), or raises. *)
Inductive api_outcome : Type :=
| Returns (choices : list (option str))
| Raises (cls : exn_class) (text : str).

(** What the module shares with its environment: the service behind
    [client], the clock ([clock k] is the [k]-th reading), the generator
    behind [random] ([randbelow n] is the draw below [n]), and what the
    process has done so far: clock readings, calls to the service, lines
    printed. *)
Record world : Type := MkWorld {
  client : api_request -> api_outcome;
  clock : nat -> datetime;
  randbelow : nat -> nat;
  reads : nat;
  api_log : list api_request;
  stdout : list str
}.

Definition M (A : Type) : Type := world -> result A * world.

Definition ret {A : Type} (a : A) : M A := fun w => (Ok a, w).

Definition raise {A : Type} (e : exn) : M A := fun w => (Raise e, w).

Definition bind {A B : Type} (m : M A) (k : A -> M B) : M B :=
  fun w =>
    match m w with
    | (Ok a, w') => k a w'
    | (Raise e, w') => (Raise e, w')
    end.

Definition lift {A : Type} (r : result A) : M A := fun w => (r, w).

(** [try: body / except Exception as e: handler e] *)
Definition try_except {A : Type} (body : M A) (handler : exn -> M A) : M A :=
  fun w =>
    match body w with
    | (Ok a, w') => (Ok a, w')
    | (Raise e, w') => if is_Exception e then handler e w' else (Raise e, w')
    end.

(** The pure fragment: [result] alone. *)
Definition rbind {A B : Type} (r : result A) (k : A -> result B) : result B :=
  match r with
  | Ok a => k a
  | Raise e => Raise e
  end.

(** [for x in l: s = body s x] *)
Fixpoint for_each {A S : Type} (l : list A) (body : S -> A -> result S) (s : S)
  : result S :=
  match l with
  | [] => Ok s
  | x :: l' => rbind (body s x) (for_each l' body)
  end.

Definition or_raise {A : Type} (cls : exn_class) (text : str) (o : option A)
  : result A :=
  match o with
  | Some a => Ok a
  | None => Raise (PyErr cls text)
  end.

(** [l[i]] *)
Definition getitem {A : Type} (l : list A) (i : N) : result A :=
  or_raise IndexError (lit "list index out of range") (index l i).

(** The updates of the world. *)
Definition tick (w : world) : world :=
  MkWorld (client w) (clock w) (randbelow w) (S (reads w)) (api_log w) (stdout w).

Definition log_call (req : api_request) (w : world) : world :=
  MkWorld (client w) (clock w) (randbelow w) (reads w) (api_log w ++ [req])
          (stdout w).

Definition log_line (line : str) (w : world) : world :=
  MkWorld (client w) (clock w) (randbelow w) (reads w) (api_log w)
          (stdout w ++ [line]).

(** [datetime.now()] *)
Definition now : M datetime := fun w => (Ok (clock w (reads w)), tick w).

(** [print(line)] *)
Definition print (line : str) : M unit := fun w => (Ok tt, log_line line w).

(** [client.chat.completions.create(...)] *)
Definition chat_completions_create (req : api_request) : M (list (option str)) :=
  fun w =>
    match client w req with
    | Returns choices => (Ok choices, log_call req w)
    | Raises cls text => (Raise (PyErr cls text), log_call req w)
    end.

(** [random.choice(l)] *)
Definition choice {A : Type} (l : list A) : M A :=
  fun w =>
    (or_raise IndexError (lit "Cannot choose from an empty sequence")
              (nth_error l (randbelow w (List.length l))), w).

(** [d.strftime("%Y-%m-%d")] *)
Definition strftime_Ymd (d : datetime) : str :=
  zfill 4 (decimal (year d)) ++ lit "-" ++ zfill 2 (decimal (month d))
  ++ lit "-" ++ zfill 2 (decimal (day d)).

(** [d.strftime("%A")] *)
Definition strftime_A (d : datetime) : str :=
  nth (N.to_nat (weekday d))
      [lit "Monday"; lit "Tuesday"; lit "Wednesday"; lit "Thursday";
       lit "Friday"; lit "Saturday"; lit "Sunday"] (lit "Sunday").

(** [f"{o}"] for an optional string *)
Definition format_opt (o : option str) : str :=
  match o with
  | Some s => s
  | None => lit "None"
  end.

(** [float(n)]: the nearest binary64, ties to even; [OverflowError] when
    that is beyond the largest finite one. *)
Definition int_to_float (n : N) : result float :=
  match binary_normalize prec emax (Z.of_N n) 0 false with
  | S754_infinity _ =>
      Raise (PyErr OverflowError (lit "int too large to convert to float"))
  | sf => Ok (SF2Prim sf)
  end.

(** [min(a, b)] on floats: [b] when [b < a], else [a]. *)
Definition min (a b : float) : float := if PrimFloat.ltb b a then b else a.

End Rt.

Declare Scope py_scope.
Delimit Scope py_scope with py.
Notation "x <- m ;; k" := (Rt.bind m (fun x => k))
  (at level 61, m at next level, right associativity) : py_scope.
Notation "m ;;; k" := (Rt.bind m (fun _ => k))
  (at level 61, right associativity) : py_scope.

(* ================================================================== *)
(** ** main.py *)
(* ================================================================== *)

Module Main.

Import Py Rt.
Local Open Scope py_scope.
Local Open Scope list_scope.

(** *** Models *)

Module AffirmationRequest.
Record t : Type := Mk { language : option str }.
End AffirmationRequest.

Module AffirmationResponse.
Record t : Type := Mk {
  affirmation : str; visual_element : str; date : str; mood_color : str
}.
End AffirmationResponse.

Module RandomFunRequest.
Record t : Type := Mk { language : option str }.
End RandomFunRequest.

Module RandomFunResponse.
Record t : Type := Mk { type : str; content : str; emoji : str }.
End RandomFunResponse.

Module PersonalityRequest.
Record t : Type := Mk {
  input : str; language : option str; context : option str
}.
End PersonalityRequest.

Module PersonalityResponse.
Record t : Type := Mk {
  insight : str;
  traits : list str;
  personality_type : str;
  share_text : str;
  confidence_score : float
}.
End PersonalityResponse.

(** The dictionaries the riddle and ASCII handlers return. *)
Module RiddleResponse.
Record t : Type := Mk { question : str; answer : str }.
End RiddleResponse.

Module AsciiResponse.
Record t : Type := Mk { ascii_art : str; answer : str }.
End AsciiResponse.

(** The default of every [language] field. *)
Definition default_language : option str := Some (lit "english").

(** *** Helpers *)

(** The hash of a date string: [hashlib.md5(today.encode()).hexdigest()[:8]]. *)
Definition date_hash_of (today : str) : result str :=
  rbind (or_raise UnicodeEncodeError (lit "surrogates not allowed") (encode today))
        (fun octets => Ok (firstn 8 (Hashlib.hexdigest octets))).

Definition get_date_hash : M str :=
  d <- now ;;
  lift (date_hash_of (strftime_Ymd d)).

Definition system_content : str :=
  lit "You are a creative, uplifting AI assistant that creates personalized, engaging content. Always be positive, inspiring, and add a touch of magic.".

Definition fallback : str :=
  lit "Something magical went wrong, but you are still amazing! ✨".

(** [response.choices[0].message.content.strip()]: a message without text
    has [content] [None], which has no [strip]. *)
Definition first_content (choices : list (option str)) : result str :=
  rbind (getitem choices 0)
        (fun c =>
           rbind (or_raise AttributeError
                           (lit "'NoneType' object has no attribute 'strip'") c)
                 (fun text => Ok (strip text))).

Definition call_openai_api (prompt : str) (max_tokens : Z) (temperature : float)
  : M str :=
  try_except
    (choices <- chat_completions_create
                  (MkApiRequest (lit "gpt-4o")
                                [(lit "system", system_content);
                                 (lit "user", prompt)]
                                max_tokens temperature 0.3%float 0.1%float) ;;
     lift (first_content choices))
    (fun e =>
       print (lit "OpenAI API Error: " ++ exn_str e) ;;;
       ret fallback).

(** *** /api/daily-affirmation *)

Definition visuals : list str :=
  [lit "✨"; lit "🌟"; lit "🌅"; lit "💫"; lit "🔥"; lit "🌈"; lit "🦋"; lit "🌸"].

Definition colors : list str :=
  [lit "#FF6B6B"; lit "#4ECDC4"; lit "#45B7D1"; lit "#96CEB4"; lit "#FFEAA7";
   lit "#DDA0DD"; lit "#98D8C8"].

Definition len {A : Type} (l : list A) : N := N.of_nat (List.length l).

(** [l[int(s, 16) % len(l)]] *)
Definition pick (l : list str) (s : str) : result str :=
  rbind (or_raise ValueError (lit "invalid literal for int() with base 16") (int16 s))
        (fun n => getitem l (n mod len l)%N).

Definition affirmation_prompt (time_context day_of_week : str)
           (language : option str) (date_hash : str) : str :=
  [nl] ++
  lit "    Create a deeply inspiring daily affirmation for a " ++ time_context
      ++ lit " on " ++ day_of_week ++ lit "." ++ [nl] ++
  lit "    Language: " ++ format_opt language ++ [nl] ++
  lit "    Requirements:" ++ [nl] ++
  lit "    - 2-3 sentences" ++ [nl] ++
  lit "    - Uplifting, poetic, encouraging" ++ [nl] ++
  lit "    - End with hope for the day ahead" ++ [nl] ++
  lit "    Seed: " ++ date_hash ++ [nl] ++
  lit "    ".

Definition get_daily_affirmation (req : AffirmationRequest.t)
  : M AffirmationResponse.t :=
  date_hash <- get_date_hash ;;
  d1 <- now ;;
  let today := strftime_Ymd d1 in
  d2 <- now ;;
  let day_of_week := strftime_A d2 in
  d3 <- now ;;
  let current_hour := hour d3 in
  let time_context :=
    if (current_hour <? 12)%N then lit "morning"
    else if (current_hour <? 17)%N then lit "afternoon"
    else lit "evening" in
  let prompt :=
    affirmation_prompt time_context day_of_week
                       (AffirmationRequest.language req) date_hash in
  text <- call_openai_api prompt 150 0.7%float ;;
  visual <- lift (pick visuals (firstn 2 date_hash)) ;;
  color <- lift (pick colors (firstn 2 (skipn 2 date_hash))) ;;
  ret (AffirmationResponse.Mk text visual today color).

(** *** /api/random-fun *)

Record fun_type : Type := MkFunType {
  ft_type : str; ft_emoji : str; ft_prompt : str
}.

Definition fun_types (lang_instruction : str) : list fun_type :=
  [ MkFunType (lit "joke") (lit "😄")
      (lang_instruction ++ lit " Give one short, funny, family-friendly joke that anyone can understand. Keep it under 20 words.");
    MkFunType (lit "compliment") (lit "💝")
      (lang_instruction ++ lit " Give one short, warm compliment about someone's character or kindness. Under 20 words.");
    MkFunType (lit "art") (lit "🎨")
      (lang_instruction ++ lit " Describe one small imaginary art scene in 1–2 short sentences that is easy to picture.") ].

Definition get_random_fun (req : RandomFunRequest.t) : M RandomFunResponse.t :=
  let lang_instruction :=
    lit "Write in " ++ format_opt (RandomFunRequest.language req)
        ++ lit " using simple, clear words." in
  picked <- choice (fun_types lang_instruction) ;;
  content <- call_openai_api (ft_prompt picked) 80 0.8%float ;;
  ret (RandomFunResponse.Mk (ft_type picked) content (ft_emoji picked)).

(** *** /api/riddle *)

Definition riddle_prompt (lang_instruction : str) : str :=
  lang_instruction ++ [nl] ++
  lit "    Give one short, fun riddle for 5 to 20 age kids. " ++ [nl] ++
  lit "    Output format:" ++ [nl] ++
  lit "    QUESTION: [riddle text]" ++ [nl] ++
  lit "    ANSWER: [answer text]" ++ [nl] ++
  lit "    Keep both under 20 words." ++ [nl] ++
  lit "    ".

(** [line.split(":", 1)[1].strip()] *)
Definition after_colon (line : str) : result str :=
  rbind (getitem (split1 colon line) 1) (fun rest => Ok (strip rest)).

(** The body of the loop over the lines: the state is [(question, answer)]. *)
Definition riddle_line (qa : str * str) (line : str) : result (str * str) :=
  let '(question, answer) := qa in
  if startswith (upper line) (lit "QUESTION:") then
    rbind (after_colon line) (fun q => Ok (q, answer))
  else if startswith (upper line) (lit "ANSWER:") then
    rbind (after_colon line) (fun a => Ok (question, a))
  else Ok (question, answer).

(** The parser of [get_riddle], from the completion text to the reply. *)
Definition parse_riddle (content : str) : result RiddleResponse.t :=
  rbind (for_each (split nl content) riddle_line (content, lit ""))
        (fun qa => Ok (RiddleResponse.Mk (fst qa) (snd qa))).

Definition get_riddle (req : RandomFunRequest.t) : M RiddleResponse.t :=
  let lang_instruction :=
    lit "Write in " ++ format_opt (RandomFunRequest.language req)
        ++ lit " using simple, clear words." in
  content <- call_openai_api (riddle_prompt lang_instruction) 60 0.7%float ;;
  lift (parse_riddle content).

(** *** /api/ascii-challenge *)

Definition ascii_prompt (language : option str) : str :=
  let lang_instruction :=
    lit "The answer must be in " ++ format_opt language ++ lit "." in
  lang_instruction ++ [nl] ++
  [nl] ++
  lit "Create a simple ASCII art puzzle for kids and young adults (ages 5–22)." ++ [nl] ++
  [nl] ++
  lit "Rules:" ++ [nl] ++
  lit "- Draw using only keyboard characters (|, _, /, \, (, ), *, etc.)." ++ [nl] ++
  lit "- Make it 3–6 lines tall and easy to recognize." ++ [nl] ++
  lit "- The ASCII art should represent an animal, object, or simple scene." ++ [nl] ++
  lit "- Keep it fun and not too detailed." ++ [nl] ++
  lit "- After the ASCII art, write the correct answer in " ++ format_opt language
      ++ lit "." ++ [nl] ++
  [nl] ++
  lit "Output format exactly:" ++ [nl] ++
  lit "ASCII:" ++ [nl] ++
  lit "[line1]" ++ [nl] ++
  lit "[line2]" ++ [nl] ++
  lit "[line3]" ++ [nl] ++
  lit "..." ++ [nl] ++
  lit "ANSWER: [short answer in " ++ format_opt language ++ lit "]" ++ [nl] ++
  [nl] ++
  lit "Example:" ++ [nl] ++
  lit "ASCII:" ++ [nl] ++
  lit " |\_/|" ++ [nl] ++
  lit " ( o.o )" ++ [nl] ++
  lit " > ^ <" ++ [nl] ++
  lit "ANSWER: Cat" ++ [nl].

(** The state of the loop: the art lines so far, the answer, and whether
    lines are being captured. *)
Record ascii_state : Type := MkAscii {
  st_ascii_art : list str; st_answer : str; capture_ascii : bool
}.

Definition ascii_line (st : ascii_state) (line : str) : result ascii_state :=
  if startswith (upper (strip line)) (lit "ASCII:") then
    Ok (MkAscii (st_ascii_art st) (st_answer st) true)
  else if startswith (upper (strip line)) (lit "ANSWER:") then
    rbind (after_colon line) (fun a => Ok (MkAscii (st_ascii_art st) a false))
  else if capture_ascii st then
    Ok (MkAscii (st_ascii_art st ++ [line]) (st_answer st) true)
  else Ok st.

(** The parser of [get_ascii_challenge]. *)
Definition parse_ascii (content : str) : result AsciiResponse.t :=
  rbind (for_each (split nl content) ascii_line (MkAscii [] (lit "") false))
        (fun st => Ok (AsciiResponse.Mk (join [nl] (st_ascii_art st)) (st_answer st))).

Definition get_ascii_challenge (req : RandomFunRequest.t) : M AsciiResponse.t :=
  content <- call_openai_api (ascii_prompt (RandomFunRequest.language req))
                             150 0.6%float ;;
  lift (parse_ascii content).

(** *** /api/personality-insight *)

Definition personality_prompt (input : str) (language : option str) : str :=
  [nl] ++
  lit "    Based on this: " ++ [dquote] ++ input ++ [dquote] ++ [nl] ++
  lit "    Give:" ++ [nl] ++
  lit "    - 3-4 sentence personality insight" ++ [nl] ++
  lit "    - A creative personality type name" ++ [nl] ++
  lit "    - 3-4 key traits" ++ [nl] ++
  lit "    Language: " ++ format_opt language ++ [nl] ++
  lit "    Format:" ++ [nl] ++
  lit "    INSIGHT: ..." ++ [nl] ++
  lit "    TYPE: ..." ++ [nl] ++
  lit "    TRAITS: ..." ++ [nl] ++
  lit "    ".

Definition default_type : str := lit "The Unique Soul".

Definition default_traits : list str :=
  [lit "Creative"; lit "Thoughtful"; lit "Inspiring"].

(** [bool(s)] for a string *)
Definition truthy (s : str) : bool :=
  match s with
  | [] => false
  | _ => true
  end.

(** The body of the loop: the state is [(insight, ptype, traits)]. *)
Definition personality_line (st : str * str * list str) (line : str)
  : str * str * list str :=
  let '(insight, ptype, traits) := st in
  if startswith line (lit "INSIGHT:") then
    (strip (replace line (lit "INSIGHT:") (lit "")), ptype, traits)
  else if startswith line (lit "TYPE:") then
    (insight, strip (replace line (lit "TYPE:") (lit "")), traits)
  else if startswith line (lit "TRAITS:") then
    (insight, ptype,
     map strip
         (filter (fun t => truthy (strip t))
                 (split comma (replace line (lit "TRAITS:") (lit "")))))
  else (insight, ptype, traits).

Definition parse_personality (text : str) : str * str * list str :=
  fold_left personality_line (split nl text) (text, default_type, default_traits).

(** [min(0.95, 0.6 + (n * 0.05))] for the integer [n] *)
Definition confidence (n : N) : result float :=
  rbind (int_to_float n)
        (fun x => Ok (Rt.min 0.95%float (0.6 + x * 0.05)%float)).

Definition get_personality_insight (req : PersonalityRequest.t)
  : M PersonalityResponse.t :=
  if negb (truthy (strip (PersonalityRequest.input req))) then
    raise (HTTPException 400 (lit "Input cannot be empty"))
  else
    text <- call_openai_api
              (personality_prompt (PersonalityRequest.input req)
                                  (PersonalityRequest.language req))
              300 0.7%float ;;
    let '(insight, ptype, traits) := parse_personality text in
    score <- lift (confidence (len (split_ws (PersonalityRequest.input req)))) ;;
    ret (PersonalityResponse.Mk
           insight (firstn 4 traits) ptype
           (lit "I just discovered I'm " ++ ptype
                ++ lit "! 🌟 What's your AI personality type?")
           score).

End Main.

(* ================================================================== *)
(** ** Vocabulary of the statements *)
(* ================================================================== *)

Module Spec.

Import Py Rt Main.
Local Open Scope N_scope.

(** The upper case of an ASCII character. *)
Definition ascii_upper (c : char) : char :=
  if (97 <=? c) && (c <=? 122) then c - 32 else c.

(** [x] is outside what a row of the case tables maps to. *)
Definition range_avoids (x : char) (r : N * N * N * N) : bool :=
  let '(lo, hi, _, to) := r in (x <? to) || (to + (hi - lo) <? x).

Definition special_avoids (x : char) (kv : N * list N) : bool :=
  negb (existsb (N.eqb x) (snd kv)).

(** [p] spells the lower-case word [kw] in some mix of letter cases. *)
Definition case_variant (p kw : str) : Prop :=
  Forall2 (fun x y => 97 <= y <= 122 /\ (x = y \/ x + 32 = y)) p kw.

Fixpoint case_variantb (p kw : str) : bool :=
  match p, kw with
  | [], [] => true
  | x :: p', y :: kw' =>
      (97 <=? y) && (y <=? 122) && ((x =? y) || (x + 32 =? y))
      && case_variantb p' kw'
  | _, _ => false
  end.

(** The tests of the riddle loop and of the ASCII loop on a line. *)
Definition question_line (line : str) : bool :=
  startswith (upper line) (lit "QUESTION:").

Definition answer_line (line : str) : bool :=
  startswith (upper line) (lit "ANSWER:").

Definition ascii_marker (line : str) : bool :=
  startswith (upper (strip line)) (lit "ASCII:").

Definition answer_marker (line : str) : bool :=
  startswith (upper (strip line)) (lit "ANSWER:").

(** A lower-case hexadecimal digit. *)
Definition lower_hex (c : char) : bool :=
  ((48 <=? c) && (c <=? 57)) || ((97 <=? c) && (c <=? 102)).

(** The service raises nothing outside [Exception]: whatever the openai
    client raises for transport, credentials or the service derives from
    it. *)
Definition raises_only_Exception (w : world) : Prop :=
  forall req cls text,
    client w req = Raises cls text -> is_Exception (PyErr cls text) = true.

(** The request [call_openai_api] sends. *)
Definition request_of (prompt : str) (max_tokens : Z) (temperature : float)
  : api_request :=
  MkApiRequest (lit "gpt-4o")
               [(lit "system", system_content); (lit "user", prompt)]
               max_tokens temperature 0.3%float 0.1%float.

(** What a call leaves of the world: the service, the clock, the generator
    and the count of clock readings are as before. *)
Definition same_environment (w1 w2 : world) : Prop :=
  client w2 = client w1 /\ clock w2 = clock w1
  /\ randbelow w2 = randbelow w1 /\ reads w2 = reads w1.

(** How many of the draws [0 .. n-1] of [random.choice] over the templates
    pick one of type [ty]. *)
Definition draws_picking (ty : str) : nat :=
  List.length
    (filter (fun k =>
               match nth_error (fun_types []) k with
               | Some t => str_eqb (ft_type t) ty
               | None => false
               end)
            (seq 0 (List.length (fun_types [])))).

(** Worlds to run the handlers in: a service with the one [outcome], on
    the morning of Wednesday 2026-11-04, the generator drawing [draw]. *)
Definition world_with (outcome : api_outcome) (draw : nat) : world :=
  MkWorld (fun _ => outcome) (fun _ => MkDatetime 2026 11 4 9 2)
          (fun _ => draw) 0 [] [].

(** The same day in the evening, the service out of order. *)
Definition evening_world : world :=
  MkWorld (fun _ => Raises APIStatusError (lit "Error code: 503"))
          (fun _ => MkDatetime 2026 11 4 22 2) (fun _ => 2%nat) 5 [] [].

End Spec.

(* ================================================================== *)
(** ** Facts about the string methods *)
(* ================================================================== *)

(* ================================================================== *)
(** ** Start-up of main.py and the script test_env.py *)
(* ================================================================== *)

Module Startup.

Import Py Rt.

(** The process environment, after [load_dotenv()]: [os.getenv(name)] is
    [None] for a variable that is not set. *)
Definition environ : Type := str -> option str.

(** [os.getenv(name, default)] *)
Definition getenv (env : environ) (name : str) (default : str) : str :=
  match env name with
  | Some v => v
  | None => default
  end.

(** [bool(v)] for the optional string [os.getenv] returns. *)
Definition key_truthy (v : option str) : bool :=
  match v with
  | Some (_ :: _) => true
  | _ => false
  end.

(** main.py, lines 20-23: the key the client is built with, or the
    [ValueError] that stops the import. *)
Definition init_client (env : environ) : result str :=
  let api_key := env (lit "OPENAI_API_KEY") in
  if negb (key_truthy api_key) then
    Raise (PyErr ValueError (lit "❌ OPENAI_API_KEY not set in .env file"))
  else
    match api_key with
    | Some key => Ok key
    | None => Ok []
    end.

(** test_env.py: the lines it prints. *)
Definition test_env (env : environ) : list str :=
  let api_key := env (lit "OPENAI_API_KEY") in
  (if key_truthy api_key then
     match api_key with
     | Some key =>
         [ lit "✅ API Key loaded successfully!";
           lit "Key starts with: " ++ firstn 10 key ++ lit "...";
           lit "Key length: " ++ decimal (N.of_nat (List.length key))
               ++ lit " characters" ]
     | None => []
     end
   else [ lit "❌ API Key not found!" ])
  ++ [ lit "Environment: " ++ getenv env (lit "ENVIRONMENT") (lit "Not found");
       lit "Debug: " ++ getenv env (lit "DEBUG") (lit "Not found") ].

End Startup.

(* ================================================================== *)
(** ** Further vocabulary *)
(* ================================================================== *)

Module Vocab.

Import Py Rt Main.

(** [kw] occurs in [s]. *)
Definition occurs (kw s : str) : Prop := exists a b, s = a ++ kw ++ b.

(** The service is out of order: every request raises [cls] with [text]. *)
Definition service_down (w : world) (cls : exn_class) (text : str) : Prop :=
  forall req, client w req = Raises cls text.

(** The language instruction of the random-fun and riddle prompts. *)
Definition write_in (language : option str) : str :=
  lit "Write in " ++ format_opt language ++ lit " using simple, clear words.".

(** A trait as the personality parser keeps them: not empty, no blanks
    around. *)
Definition clean_trait (t : str) : Prop := t <> [] /\ strip t = t.

(** An environment that sets [OPENAI_API_KEY] to [key] and nothing else. *)
Definition env_with_key (key : str) : Startup.environ :=
  fun name => if str_eqb name (lit "OPENAI_API_KEY") then Some key else None.

(** A world whose service answers without choices. *)
Definition silent_world : world :=
  MkWorld (fun _ => Returns []) (fun _ => MkDatetime 2026 11 4 9 2)
          (fun _ => 0%nat) 0 [] [].

(** A world read just before midnight: the first reading of the clock is
    on 2026-11-04, the later ones on 2026-11-05. *)
Definition midnight_world : world :=
  MkWorld (fun _ => Returns [Some (lit "Rise.")])
          (fun k => match k with
                    | O => MkDatetime 2026 11 4 23 2
                    | _ => MkDatetime 2026 11 5 0 3
                    end)
          (fun _ => 0%nat) 0 [] [].

End Vocab.

Import Py Rt Main Spec.

(* ================================================================== *)
(** ** The model run on values the interpreter gives *)
(* ================================================================== *)

Example lit_decodes : lit "a✨–😄" = [97; 0x2728; 0x2013; 0x1F604]%N.
Proof. vm_compute. reflexivity. Qed.

Example encode_utf8 :
  encode (lit "a✨–😄é") = Some (map Byte.to_N (list_byte_of_string "a✨–😄é")).
Proof. vm_compute. reflexivity. Qed.

Example upper_beyond_ascii : upper (lit "queſtion: ßﬅ é") = lit "QUESTION: SSST É".
Proof. vm_compute. reflexivity. Qed.

Example strip_blanks : strip (lit "  a b 	　") = lit "a b".
Proof. vm_compute. reflexivity. Qed.

Example split_blanks : split_ws (lit "  a b  c ") = [lit "a"; lit "b"; lit "c"].
Proof. vm_compute. reflexivity. Qed.

Example split_commas :
  split comma (lit "a,,b,") = [lit "a"; lit ""; lit "b"; lit ""].
Proof. vm_compute. reflexivity. Qed.

Example split1_colon :
  (split1 colon (lit "a: b: c"), split1 colon (lit "abc"))
  = ([lit "a"; lit " b: c"], [lit "abc"]).
Proof. vm_compute. reflexivity. Qed.

Example replace_all :
  (replace (lit "TYPE:aTYPE:TYPE:bTYP") (lit "TYPE:") (lit ""),
   replace (lit "aaa") (lit "aa") (lit "b"),
   replace (lit "abc") (lit "") (lit "-"))
  = (lit "abTYP", lit "ba", lit "-a-b-c-").
Proof. vm_compute. reflexivity. Qed.

Example int16_values :
  (int16 (lit "ff"), int16 (lit "0A"), int16 (lit ""), int16 (lit "g1"))
  = (Some 255, Some 10, None, None)%N.
Proof. vm_compute. reflexivity. Qed.

Example strftime_pads :
  strftime_Ymd (MkDatetime 2026 3 9 0 0) = lit "2026-03-09".
Proof. vm_compute. reflexivity. Qed.

Example md5_empty :
  Hashlib.hexdigest (map Byte.to_N (list_byte_of_string ""))
  = lit "d41d8cd98f00b204e9800998ecf8427e".
Proof. vm_compute. reflexivity. Qed.

Example md5_abc :
  Hashlib.hexdigest (map Byte.to_N (list_byte_of_string "abc"))
  = lit "900150983cd24fb0d6963f7d28e17f72".
Proof. vm_compute. reflexivity. Qed.

Example md5_date :
  Hashlib.hexdigest (map Byte.to_N (list_byte_of_string "2026-11-04"))
  = lit "82bab43b2c8839fdc6d7e7412433babc".
Proof. vm_compute. reflexivity. Qed.

Example md5_one_block_and_padding :
  Hashlib.hexdigest (map Byte.to_N (list_byte_of_string "aaaaaaaaaaaaaaaaaaaaaaaaaaaaaaaaaaaaaaaaaaaaaaaaaaaaaaaa"))
  = lit "3b0c8ac703f828b04c6c197006d17218".
Proof. vm_compute. reflexivity. Qed.

Example md5_three_blocks :
  Hashlib.hexdigest (map Byte.to_N (list_byte_of_string "The quick brown fox jumps over the lazy dogThe quick brown fox jumps over the lazy dogThe quick brown fox jumps over the lazy dog"))
  = lit "4e67db4a7a406b0cfdadd887cde7888e".
Proof. vm_compute. reflexivity. Qed.

Example float_of_int :
  (int_to_float 0, int_to_float 7, int_to_float (2 ^ 53 + 3))
  = (Ok 0%float, Ok 7%float, Ok 9007199254740996%float).
Proof. vm_compute. reflexivity. Qed.

Example float_of_int_overflow :
  (int_to_float (2 ^ 1024 - 2 ^ 970 - 1), int_to_float (2 ^ 1024 - 2 ^ 970))
  = (Ok 0x1.fffffffffffffp+1023%float,
     Raise (PyErr OverflowError (lit "int too large to convert to float"))).
Proof. vm_compute. reflexivity. Qed.

Example confidence_values :
  (confidence 1, confidence 3, confidence 6, confidence 7, confidence 40)
  = (Ok 0.65%float, Ok 0.75%float, Ok 0.9%float, Ok 0.95%float, Ok 0.95%float).
Proof. vm_compute. reflexivity. Qed.

Example riddle_handler_runs :
  fst (get_riddle
         (RandomFunRequest.Mk default_language)
         (world_with
            (Returns [Some (lit "Question: What has hands but cannot clap?"
                                ++ [nl] ++ lit "Answer: A clock ")])
            0))
  = Ok (RiddleResponse.Mk (lit "What has hands but cannot clap?") (lit "A clock")).
Proof. vm_compute. reflexivity. Qed.

Example personality_handler_runs :
  fst (get_personality_insight
         (PersonalityRequest.Mk (lit "I like quiet mornings") default_language None)
         (world_with
            (Returns [Some (lit "INSIGHT: You are calm." ++ [nl]
                                ++ lit "TYPE: The Quiet Owl" ++ [nl]
                                ++ lit "TRAITS: wise, kind, , patient, bold, extra")])
            0))
  = Ok (PersonalityResponse.Mk
          (lit "You are calm.")
          [lit "wise"; lit "kind"; lit "patient"; lit "bold"]
          (lit "The Quiet Owl")
          (lit "I just discovered I'm The Quiet Owl! 🌟 What's your AI personality type?")
          0.8%float).
Proof. vm_compute. reflexivity. Qed.

Section StrFacts.

Local Open Scope N_scope.

Lemma startswith_app (s p : str) :
  startswith s p = true -> exists r, s = p ++ r.
Proof.
  revert s; induction p as [|y p IH]; intros s H.
  - exists s; reflexivity.
  - destruct s as [|x s]; [discriminate|].
    simpl in H. apply andb_true_iff in H as [Hxy Hs].
    apply N.eqb_eq in Hxy; subst y.
    destruct (IH _ Hs) as [r ->]. exists r; reflexivity.
Qed.

Lemma startswith_prefix (p r : str) : startswith (p ++ r) p = true.
Proof.
  induction p as [|y p IH]; [reflexivity|].
  simpl. rewrite N.eqb_refl. exact IH.
Qed.

Lemma partition_In (sep : char) (s : str) :
  In sep s -> exists a b, partition sep s = Some (a, b).
Proof.
  induction s as [|c s IH]; intros Hin; [destruct Hin|].
  simpl. destruct (c =? sep) eqn:E.
  - eauto.
  - destruct Hin as [->|Hin]; [rewrite N.eqb_refl in E; discriminate|].
    destruct (IH Hin) as (a & b & ->). eauto.
Qed.

Lemma partition_app (sep : char) (p r : str) :
  ~ In sep p -> partition sep (p ++ sep :: r) = Some (p, r).
Proof.
  induction p as [|c p IH]; intros Hn; simpl.
  - rewrite N.eqb_refl. reflexivity.
  - destruct (c =? sep) eqn:E.
    + apply N.eqb_eq in E. exfalso; apply Hn; left; exact E.
    + rewrite IH; [reflexivity|]. intros H; apply Hn; right; exact H.
Qed.

Lemma lstrip_incl (s : str) (x : char) : In x (lstrip s) -> In x s.
Proof.
  induction s as [|c s IH]; simpl; [tauto|].
  destruct (isspace c); [intros H; right; auto | tauto].
Qed.

Lemma strip_incl (s : str) (x : char) : In x (strip s) -> In x s.
Proof.
  unfold strip, rstrip. intros H.
  apply in_rev in H. apply lstrip_incl in H. apply in_rev in H.
  apply lstrip_incl. exact H.
Qed.

Lemma lstrip_blank (s : str) :
  Forall (fun c => isspace c = true) s -> lstrip s = [].
Proof.
  induction 1 as [|c s Hc _ IH]; simpl; [reflexivity|].
  rewrite Hc. exact IH.
Qed.

Lemma strip_blank (s : str) :
  Forall (fun c => isspace c = true) s -> strip s = [].
Proof.
  intros H. unfold strip. rewrite (lstrip_blank s H). reflexivity.
Qed.

(** A text whose first and last characters are not blanks keeps them. *)
Lemma lstrip_app_keep (a b : str) (x : char) :
  isspace x = false -> exists a', lstrip (a ++ x :: b) = a' ++ x :: b.
Proof.
  intros Hx. induction a as [|c a IH]; simpl.
  - rewrite Hx. exists []; reflexivity.
  - destruct (isspace c); [exact IH|]. exists (c :: a); reflexivity.
Qed.

Lemma strip_keeps_prefix (x y : char) (p r : str) :
  isspace x = false -> isspace y = false ->
  exists r', strip (x :: p ++ y :: r) = x :: p ++ y :: r'.
Proof.
  intros Hx Hy. unfold strip, rstrip.
  simpl lstrip. rewrite Hx.
  assert (E : rev (x :: p ++ y :: r) = rev r ++ y :: rev (x :: p)).
  { change (x :: p ++ y :: r) with ((x :: p) ++ y :: r).
    rewrite rev_app_distr. simpl. rewrite <- !app_assoc. reflexivity. }
  rewrite E.
  destruct (lstrip_app_keep (rev r) (rev (x :: p)) y Hy) as [a' ->].
  exists (rev a').
  rewrite rev_app_distr.
  change (rev (y :: rev (x :: p))) with (rev (rev (x :: p)) ++ [y]).
  rewrite rev_involutive, <- app_assoc. reflexivity.
Qed.

(** Properties of the lines of a given text, checked by running them. *)
Lemma Forall_false_by_run {A : Type} (p : A -> bool) (l : list A) :
  forallb (fun x => negb (p x)) l = true -> Forall (fun x => p x = false) l.
Proof.
  intros H. apply Forall_forall. intros x Hx.
  rewrite forallb_forall in H. apply negb_true_iff, H, Hx.
Qed.

Lemma Forall_false2_by_run {A : Type} (p q : A -> bool) (l : list A) :
  forallb (fun x => negb (p x) && negb (q x)) l = true ->
  Forall (fun x => p x = false /\ q x = false) l.
Proof.
  intros H. apply Forall_forall. intros x Hx.
  rewrite forallb_forall in H. specialize (H x Hx).
  apply andb_true_iff in H as [H1 H2].
  split; apply negb_true_iff; assumption.
Qed.

End StrFacts.

Section UpperFacts.

Local Open Scope N_scope.

Lemma str_eqb_eq (a b : str) : str_eqb a b = true -> a = b.
Proof.
  revert b; induction a as [|x a IH]; destruct b as [|y b]; simpl;
    try discriminate; [reflexivity|].
  intros H. apply andb_true_iff in H as [Hxy Hab].
  apply N.eqb_eq in Hxy. f_equal; auto.
Qed.

(** A property of every code point below a bound, checked by running it. *)
Lemma forall_below (P : N -> bool) (n : nat) :
  forallb P (map N.of_nat (seq 0 n)) = true ->
  forall c, c < N.of_nat n -> P c = true.
Proof.
  intros H c Hc. rewrite forallb_forall in H. apply H.
  apply in_map_iff. exists (N.to_nat c). split; [lia|].
  apply in_seq. lia.
Qed.

(** On ASCII, [upper] is the ASCII upper case. *)
Lemma upper_char_ascii (c : char) : c < 128 -> upper_char c = [ascii_upper c].
Proof.
  intros H. apply str_eqb_eq.
  apply (forall_below (fun c => str_eqb (upper_char c) [ascii_upper c]) 128);
    [vm_compute; reflexivity | exact H].
Qed.

Lemma lookup_range_avoids (x c : char) (t : list (N * N * N * N)) :
  forallb (range_avoids x) t = true -> lookup_range c t <> Some x.
Proof.
  induction t as [|[[[lo hi] step] to] t IH]; simpl; [discriminate|].
  intros H. apply andb_true_iff in H as [Hr Ht].
  destruct ((lo <=? c) && (c <=? hi) && ((c - lo) mod step =? 0)) eqn:E;
    [|auto].
  apply andb_true_iff in E as [E _]. apply andb_true_iff in E as [E1 E2].
  apply N.leb_le in E1, E2.
  intros Heq. injection Heq as Heq.
  apply orb_true_iff in Hr as [Hr|Hr]; apply N.ltb_lt in Hr; lia.
Qed.

Lemma lookup_special_avoids (x c : char) (t : list (N * list N)) (v : str) :
  forallb (special_avoids x) t = true ->
  lookup_special c t = Some v -> ~ In x v.
Proof.
  induction t as [|[k u] t IH]; simpl; [discriminate|].
  intros H. apply andb_true_iff in H as [Hr Ht].
  destruct (k =? c); [|auto].
  intros Heq Hin. injection Heq as <-.
  unfold special_avoids in Hr. simpl in Hr.
  apply negb_true_iff in Hr.
  assert (existsb (N.eqb x) u = true); [|congruence].
  apply existsb_exists. exists x. split; [exact Hin | apply N.eqb_refl].
Qed.

(** Only the colon has a colon in its upper case. *)
Lemma upper_char_colon (c : char) : In colon (upper_char c) -> c = colon.
Proof.
  unfold upper_char.
  destruct (lookup_range c upper_ranges) as [u|] eqn:Er.
  - intros [Hu|[]]. subst u. exfalso.
    revert Er. apply lookup_range_avoids. vm_compute. reflexivity.
  - destruct (lookup_special c upper_special) as [v|] eqn:Es.
    + intros Hin. exfalso. revert Hin.
      apply (lookup_special_avoids colon c upper_special); [|exact Es].
      vm_compute. reflexivity.
    + intros [Hu|[]]. exact Hu.
Qed.

Lemma upper_colon (s : str) : In colon (upper s) -> In colon s.
Proof.
  unfold upper. intros H. apply in_flat_map in H as (c & Hc & Hin).
  apply upper_char_colon in Hin. subst c. exact Hc.
Qed.

Lemma upper_app (a b : str) : upper (a ++ b) = upper a ++ upper b.
Proof. unfold upper. apply flat_map_app. Qed.

(** A line whose upper case starts with a keyword that holds a colon has a
    colon itself, so [line.split(":", 1)[1]] is there. *)
Lemma after_colon_ok (line kw : str) :
  In colon kw -> startswith (upper line) kw = true ->
  exists a b, partition colon line = Some (a, b)
              /\ after_colon line = Ok (strip b).
Proof.
  intros Hkw Hs. apply startswith_app in Hs as [r Hr].
  assert (Hin : In colon line).
  { apply upper_colon. rewrite Hr. apply in_or_app. left. exact Hkw. }
  destruct (partition_In colon line Hin) as (a & b & Hp).
  exists a, b. split; [exact Hp|].
  unfold after_colon, split1. rewrite Hp. reflexivity.
Qed.

Lemma case_variant_upper (p kw : str) :
  case_variant p kw -> upper p = map ascii_upper kw.
Proof.
  induction 1 as [|x y p kw [Hy Hxy] _ IH]; [reflexivity|].
  change (upper (x :: p)) with (upper_char x ++ upper p).
  rewrite IH. rewrite upper_char_ascii by lia. simpl. f_equal.
  unfold ascii_upper.
  destruct Hxy as [->|Hxy].
  - reflexivity.
  - assert (E : (97 <=? x) && (x <=? 122) = false).
    { apply andb_false_iff. left. apply N.leb_gt. lia. }
    assert (E' : (97 <=? y) && (y <=? 122) = true).
    { apply andb_true_iff. split; apply N.leb_le; lia. }
    rewrite E, E'. lia.
Qed.

Lemma case_variant_letters (p kw : str) (c : char) :
  case_variant p kw -> In c p -> 65 <= c <= 122.
Proof.
  induction 1 as [|x y p kw [Hy Hxy] _ IH]; [intros []|].
  intros [->|Hin]; [lia | auto].
Qed.

End UpperFacts.

(* ================================================================== *)
(** ** The riddle parser *)
(* ================================================================== *)

Section Riddle.

Local Open Scope N_scope.

Lemma rbind_Ok {A B : Type} (a : A) (k : A -> result B) : rbind (Ok a) k = k a.
Proof. reflexivity. Qed.

Lemma for_each_cons {A S : Type} (x : A) (l : list A)
      (body : S -> A -> result S) (s : S) :
  for_each (x :: l) body s = rbind (body s x) (for_each l body).
Proof. reflexivity. Qed.

Lemma for_each_app {A S : Type} (l1 l2 : list A) (body : S -> A -> result S)
      (s : S) :
  for_each (l1 ++ l2) body s = rbind (for_each l1 body s) (for_each l2 body).
Proof.
  revert s; induction l1 as [|x l1 IH]; intros s; simpl; [reflexivity|].
  destruct (body s x) as [s'|e]; simpl; [apply IH | reflexivity].
Qed.

Lemma question_not_answer (line : str) :
  question_line line = true -> answer_line line = false.
Proof.
  unfold question_line, answer_line. intros H.
  apply startswith_app in H as [r ->]. reflexivity.
Qed.

Lemma riddle_line_question (q a line : str) :
  question_line line = true ->
  exists t, after_colon line = Ok t /\ riddle_line (q, a) line = Ok (t, a).
Proof.
  intros H. unfold riddle_line. fold (question_line line). rewrite H.
  destruct (after_colon_ok line (lit "QUESTION:")) as (x & y & _ & E);
    [vm_compute; tauto | exact H |].
  rewrite E. eauto.
Qed.

Lemma riddle_line_answer (q a line : str) :
  answer_line line = true ->
  exists t, after_colon line = Ok t /\ riddle_line (q, a) line = Ok (q, t).
Proof.
  intros H. unfold riddle_line. fold (question_line line) (answer_line line).
  destruct (question_line line) eqn:Q.
  - apply question_not_answer in Q. congruence.
  - rewrite H.
    destruct (after_colon_ok line (lit "ANSWER:")) as (x & y & _ & E);
      [vm_compute; tauto | exact H |].
    rewrite E. eauto.
Qed.

(** The loop body never raises, keeps the question on a line that is not a
    question line, and the answer on one that is not an answer line. *)
Lemma riddle_line_total (qa : str * str) (line : str) :
  exists qa', riddle_line qa line = Ok qa'
              /\ (question_line line = false -> fst qa' = fst qa)
              /\ (answer_line line = false -> snd qa' = snd qa).
Proof.
  destruct qa as [q a].
  destruct (question_line line) eqn:Q.
  - destruct (riddle_line_question q a line Q) as (t & _ & E).
    exists (t, a). rewrite E.
    split; [reflexivity|]. split; [discriminate | reflexivity].
  - destruct (answer_line line) eqn:An.
    + destruct (riddle_line_answer q a line An) as (t & _ & E).
      exists (q, t). rewrite E.
      split; [reflexivity|]. split; [reflexivity | discriminate].
    + exists (q, a). unfold riddle_line.
      fold (question_line line) (answer_line line). rewrite Q, An.
      split; [reflexivity|]. split; reflexivity.
Qed.

Lemma riddle_loop_total (lines : list str) (qa : str * str) :
  exists qa', for_each lines riddle_line qa = Ok qa'
              /\ (Forall (fun l => question_line l = false) lines ->
                  fst qa' = fst qa)
              /\ (Forall (fun l => answer_line l = false) lines ->
                  snd qa' = snd qa).
Proof.
  revert qa; induction lines as [|l lines IH]; intros qa.
  - exists qa. split; [reflexivity|]. split; reflexivity.
  - destruct (riddle_line_total qa l) as (qa1 & E1 & Hq1 & Ha1).
    destruct (IH qa1) as (qa2 & E2 & Hq2 & Ha2).
    exists qa2. simpl. rewrite E1. simpl. split; [exact E2|].
    split; intros HF; inversion HF; subst.
    + rewrite Hq2, Hq1; auto.
    + rewrite Ha2, Ha1; auto.
Qed.

Lemma parse_riddle_total (content : str) :
  exists r, parse_riddle content = Ok r.
Proof.
  unfold parse_riddle.
  destruct (riddle_loop_total (split nl content) (content, lit "")) as (qa & E & _).
  rewrite E. simpl. eauto.
Qed.

End Riddle.

(** C2 (as amended): when several lines of a completion text start, in upper
    case, with QUESTION: (or with ANSWER:), the riddle parser never raises and
    takes the question (the answer) from the LAST such line: every matching
    line overwrites what an earlier one set. *)
Theorem riddle_last_match_wins (content : str) (pre : list str) (l : str)
        (post : list str) :
  split nl content = pre ++ l :: post ->
  exists r,
    parse_riddle content = Ok r
    /\ (question_line l = true ->
        Forall (fun x => question_line x = false) post ->
        after_colon l = Ok (RiddleResponse.question r))
    /\ (answer_line l = true ->
        Forall (fun x => answer_line x = false) post ->
        after_colon l = Ok (RiddleResponse.answer r)).
Proof.
  intros Hs. unfold parse_riddle. rewrite Hs.
  rewrite for_each_app.
  destruct (riddle_loop_total pre (content, lit "")) as ([q0 a0] & E0 & _).
  rewrite E0, rbind_Ok, for_each_cons.
  destruct (riddle_line_total (q0, a0) l) as (qa1 & E1 & _).
  destruct (riddle_loop_total post qa1) as (qa2 & E2 & Hq & Ha).
  rewrite E1, rbind_Ok, E2, rbind_Ok.
  eexists; split; [reflexivity|].
  cbn [RiddleResponse.question RiddleResponse.answer].
  split; intros Hl Hpost.
  - destruct (riddle_line_question q0 a0 l Hl) as (t & Et & E).
    rewrite E in E1. injection E1 as <-. rewrite Hq by exact Hpost. exact Et.
  - destruct (riddle_line_answer q0 a0 l Hl) as (t & Et & E).
    rewrite E in E1. injection E1 as <-. rewrite Ha by exact Hpost. exact Et.
Qed.

Lemma riddle_last_match_wins_witness :
  exists r,
    parse_riddle (lit "QUESTION: first" ++ [nl] ++ lit "QUESTION: second"
                      ++ [nl] ++ lit "answer: a" ++ [nl] ++ lit "Answer: b")
    = Ok r
    /\ after_colon (lit "QUESTION: second") = Ok (RiddleResponse.question r)
    /\ after_colon (lit "Answer: b") = Ok (RiddleResponse.answer r).
Proof.
  destruct (riddle_last_match_wins
              (lit "QUESTION: first" ++ [nl] ++ lit "QUESTION: second"
                   ++ [nl] ++ lit "answer: a" ++ [nl] ++ lit "Answer: b")
              [lit "QUESTION: first"] (lit "QUESTION: second")
              [lit "answer: a"; lit "Answer: b"])
    as (r & E & Hq & _); [vm_compute; reflexivity|].
  destruct (riddle_last_match_wins
              (lit "QUESTION: first" ++ [nl] ++ lit "QUESTION: second"
                   ++ [nl] ++ lit "answer: a" ++ [nl] ++ lit "Answer: b")
              [lit "QUESTION: first"; lit "QUESTION: second"; lit "answer: a"]
              (lit "Answer: b") [])
    as (r' & E' & _ & Ha); [vm_compute; reflexivity|].
  assert (r' = r) by congruence. subst r'.
  exists r. split; [exact E|]. split.
  - apply Hq; [vm_compute; reflexivity|].
    apply Forall_false_by_run. vm_compute; reflexivity.
  - apply Ha; [vm_compute; reflexivity | constructor].
Defined.

(** C2 (as stated) fails: on two QUESTION: lines the parser returns the text
    of the second, not of the first. *)
Lemma riddle_first_match_does_not_win :
  ~ (forall (content : str) (pre : list str) (l : str) (post : list str),
        split nl content = pre ++ l :: post ->
        Forall (fun x => question_line x = false) pre ->
        question_line l = true ->
        Exists (fun x => question_line x = true) post ->
        exists r, parse_riddle content = Ok r
                  /\ after_colon l = Ok (RiddleResponse.question r)).
Proof.
  intros H.
  destruct (H (lit "QUESTION: first" ++ [nl] ++ lit "QUESTION: second")
              [] (lit "QUESTION: first") [lit "QUESTION: second"])
    as (r & E & Hq).
  - vm_compute; reflexivity.
  - constructor.
  - vm_compute; reflexivity.
  - apply Exists_cons_hd. vm_compute; reflexivity.
  - vm_compute in E. injection E as <-. vm_compute in Hq. discriminate.
Qed.

(** C3 (as amended): on the text "QUESTION: Why?\nANSWER: Because." the
    riddle parser returns the question "Why?" and the answer "Because.";
    and on every text it returns, with an empty answer when no line starts
    with ANSWER: (in any case), and with the full text as the question when
    no line starts with QUESTION: (in any case).  The two defaults are
    independent. *)
Theorem riddle_parser_defaults :
  parse_riddle (lit "QUESTION: Why?" ++ [nl] ++ lit "ANSWER: Because.")
  = Ok (RiddleResponse.Mk (lit "Why?") (lit "Because."))
  /\ forall content : str,
      exists r,
        parse_riddle content = Ok r
        /\ (Forall (fun l => answer_line l = false) (split nl content) ->
            RiddleResponse.answer r = lit "")
        /\ (Forall (fun l => question_line l = false) (split nl content) ->
            RiddleResponse.question r = content).
Proof.
  split; [vm_compute; reflexivity|].
  intros content. unfold parse_riddle.
  destruct (riddle_loop_total (split nl content) (content, lit ""))
    as (qa & E & Hq & Ha).
  rewrite E, rbind_Ok. eexists; split; [reflexivity|].
  cbn [RiddleResponse.question RiddleResponse.answer].
  split; [exact Ha | exact Hq].
Qed.

Lemma riddle_parser_defaults_witness :
  exists r,
    parse_riddle (lit "What has keys but no locks?") = Ok r
    /\ RiddleResponse.answer r = lit ""
    /\ RiddleResponse.question r = lit "What has keys but no locks?".
Proof.
  destruct (proj2 riddle_parser_defaults (lit "What has keys but no locks?"))
    as (r & E & Ha & Hq).
  exists r. split; [exact E|]. split.
  - apply Ha. apply Forall_false_by_run. vm_compute; reflexivity.
  - apply Hq. apply Forall_false_by_run. vm_compute; reflexivity.
Defined.

(** C3 (as stated) fails: a text with a QUESTION: line and no ANSWER: line
    gets the parsed question, not the full text. *)
Lemma riddle_question_without_answer :
  ~ (forall content : str,
        Forall (fun l => answer_line l = false) (split nl content) ->
        exists r, parse_riddle content = Ok r
                  /\ RiddleResponse.answer r = lit ""
                  /\ RiddleResponse.question r = content).
Proof.
  intros H.
  destruct (H (lit "QUESTION: Why?")) as (r & E & _ & Hq).
  - apply Forall_false_by_run. vm_compute; reflexivity.
  - vm_compute in E. injection E as <-. vm_compute in Hq. discriminate.
Qed.

(* ================================================================== *)
(** ** The ASCII-challenge parser *)
(* ================================================================== *)

Section Ascii.

Local Open Scope N_scope.

Lemma answer_marker_not_ascii (line : str) :
  answer_marker line = true -> ascii_marker line = false.
Proof.
  unfold answer_marker, ascii_marker. intros H.
  apply startswith_app in H as [r ->]. reflexivity.
Qed.

Lemma ascii_line_ascii (st : ascii_state) (line : str) :
  ascii_marker line = true ->
  ascii_line st line = Ok (MkAscii (st_ascii_art st) (st_answer st) true).
Proof.
  intros H. unfold ascii_line. fold (ascii_marker line). rewrite H. reflexivity.
Qed.

Lemma ascii_line_answer (st : ascii_state) (line : str) :
  answer_marker line = true ->
  exists t, after_colon line = Ok t
            /\ ascii_line st line = Ok (MkAscii (st_ascii_art st) t false).
Proof.
  intros H. unfold ascii_line.
  fold (ascii_marker line) (answer_marker line).
  rewrite (answer_marker_not_ascii line H), H.
  assert (Hin : In colon line).
  { unfold answer_marker in H. apply startswith_app in H as [r Hr].
    apply strip_incl, upper_colon. rewrite Hr. vm_compute. tauto. }
  destruct (partition_In colon line Hin) as (a & b & Hp).
  exists (strip b).
  assert (E : after_colon line = Ok (strip b)).
  { unfold after_colon, split1. rewrite Hp. reflexivity. }
  rewrite E. split; reflexivity.
Qed.

Lemma ascii_line_other (st : ascii_state) (line : str) :
  ascii_marker line = false -> answer_marker line = false ->
  ascii_line st line =
  Ok (if capture_ascii st
      then MkAscii (st_ascii_art st ++ [line]) (st_answer st) true
      else st).
Proof.
  intros H1 H2. unfold ascii_line.
  fold (ascii_marker line) (answer_marker line). rewrite H1, H2.
  destruct (capture_ascii st); reflexivity.
Qed.

(** While nothing is being captured and no ASCII: line comes, the art is
    left alone. *)
Lemma ascii_loop_idle (lines : list str) (art : list str) (ans : str) :
  Forall (fun l => ascii_marker l = false) lines ->
  exists ans',
    for_each lines ascii_line (MkAscii art ans false)
    = Ok (MkAscii art ans' false)
    /\ (Forall (fun l => answer_marker l = false) lines -> ans' = ans).
Proof.
  intros H; revert ans; induction H as [|l lines Hl _ IH]; intros ans.
  - exists ans. split; reflexivity.
  - rewrite for_each_cons. destruct (answer_marker l) eqn:An.
    + destruct (ascii_line_answer (MkAscii art ans false) l An) as (t & _ & E).
      rewrite E, rbind_Ok. cbn [st_ascii_art].
      destruct (IH t) as (ans' & E' & _).
      exists ans'. split; [exact E'|].
      intros HF. inversion HF; subst. congruence.
    + rewrite (ascii_line_other (MkAscii art ans false) l Hl An), rbind_Ok.
      cbn [capture_ascii].
      destruct (IH ans) as (ans' & E' & Hans).
      exists ans'. split; [exact E'|].
      intros HF. inversion HF; subst. auto.
Qed.

(** While capturing, every line that is neither marker is appended. *)
Lemma ascii_loop_capture (mid : list str) (art : list str) (ans : str) :
  Forall (fun l => ascii_marker l = false /\ answer_marker l = false) mid ->
  for_each mid ascii_line (MkAscii art ans true)
  = Ok (MkAscii (art ++ mid) ans true).
Proof.
  intros H; revert art; induction H as [|l mid [H1 H2] _ IH]; intros art.
  - simpl. rewrite app_nil_r. reflexivity.
  - rewrite for_each_cons, (ascii_line_other _ l H1 H2), rbind_Ok.
    cbn [capture_ascii st_ascii_art st_answer].
    rewrite IH, <- app_assoc. reflexivity.
Qed.

End Ascii.

(** C5: the ASCII-challenge parser returns, as the art, the lines strictly
    between a line matching ASCII: and the next line matching ANSWER:, joined
    by newlines, and takes the answer from that ANSWER: line; lines before the
    ASCII: line and lines after the ANSWER: line (no further ASCII: line
    coming) add nothing to the art.  On the text
    "ASCII:\n |\_/|\n( o.o )\nANSWER: Cat" the art is " |\_/|\n( o.o )" and
    the answer "Cat". *)
Theorem ascii_parser_captures_between_markers :
  parse_ascii (lit "ASCII:" ++ [nl] ++ lit " |\_/|" ++ [nl] ++ lit "( o.o )"
                   ++ [nl] ++ lit "ANSWER: Cat")
  = Ok (AsciiResponse.Mk (lit " |\_/|" ++ [nl] ++ lit "( o.o )") (lit "Cat"))
  /\ forall (content : str) (pre : list str) (a : str) (mid : list str)
            (b : str) (post : list str),
      split nl content = pre ++ a :: mid ++ b :: post ->
      Forall (fun l => ascii_marker l = false) pre ->
      ascii_marker a = true ->
      Forall (fun l => ascii_marker l = false /\ answer_marker l = false) mid ->
      answer_marker b = true ->
      Forall (fun l => ascii_marker l = false) post ->
      exists r,
        parse_ascii content = Ok r
        /\ AsciiResponse.ascii_art r = join [nl] mid
        /\ (Forall (fun l => answer_marker l = false) post ->
            after_colon b = Ok (AsciiResponse.answer r)).
Proof.
  split; [vm_compute; reflexivity|].
  intros content pre a mid b post Hs Hpre Ha Hmid Hb Hpost.
  unfold parse_ascii. rewrite Hs, for_each_app.
  destruct (ascii_loop_idle pre [] (lit "") Hpre) as (ans0 & E0 & _).
  rewrite E0, rbind_Ok, for_each_cons, (ascii_line_ascii _ a Ha), rbind_Ok.
  cbn [st_ascii_art st_answer].
  rewrite for_each_app, (ascii_loop_capture mid [] ans0 Hmid), rbind_Ok.
  rewrite for_each_cons.
  destruct (ascii_line_answer (MkAscii ([] ++ mid) ans0 true) b Hb)
    as (t & Et & E1).
  rewrite E1, rbind_Ok. cbn [st_ascii_art].
  destruct (ascii_loop_idle post ([] ++ mid) t Hpost) as (ans2 & E2 & Hans).
  rewrite E2, rbind_Ok.
  eexists; split; [reflexivity|].
  cbn [AsciiResponse.ascii_art AsciiResponse.answer st_ascii_art st_answer].
  split; [reflexivity|].
  intros HF. rewrite (Hans HF). exact Et.
Qed.

Lemma ascii_parser_captures_between_markers_witness :
  exists r,
    parse_ascii (lit "Here you go" ++ [nl] ++ lit "  ascii: a cat" ++ [nl]
                     ++ lit " /\_/\ " ++ [nl] ++ lit "( o.o )" ++ [nl]
                     ++ lit " Answer: Cat " ++ [nl] ++ lit "Bye")
    = Ok r
    /\ AsciiResponse.ascii_art r = lit " /\_/\ " ++ [nl] ++ lit "( o.o )"
    /\ Ok (lit "Cat") = Ok (AsciiResponse.answer r).
Proof.
  destruct (proj2 ascii_parser_captures_between_markers
              (lit "Here you go" ++ [nl] ++ lit "  ascii: a cat" ++ [nl]
                   ++ lit " /\_/\ " ++ [nl] ++ lit "( o.o )" ++ [nl]
                   ++ lit " Answer: Cat " ++ [nl] ++ lit "Bye")
              [lit "Here you go"] (lit "  ascii: a cat")
              [lit " /\_/\ "; lit "( o.o )"] (lit " Answer: Cat ")
              [lit "Bye"])
    as (r & E & Hart & Hans).
  - vm_compute; reflexivity.
  - apply Forall_false_by_run. vm_compute; reflexivity.
  - vm_compute; reflexivity.
  - apply Forall_false2_by_run. vm_compute; reflexivity.
  - vm_compute; reflexivity.
  - apply Forall_false_by_run. vm_compute; reflexivity.
  - exists r. split; [exact E|]. split; [exact Hart|].
    apply Hans. apply Forall_false_by_run. vm_compute; reflexivity.
Defined.

(* ================================================================== *)
(** ** Letter case of the keywords *)
(* ================================================================== *)

Section KeywordCase.

Local Open Scope N_scope.

Lemma letter_not_space (c : char) : 65 <= c <= 122 -> isspace c = false.
Proof.
  intros [Hlo Hhi].
  assert (H : (c <? 65) || negb (isspace c) = true).
  { apply (forall_below (fun c => (c <? 65) || negb (isspace c)) 123);
      [vm_compute; reflexivity | lia]. }
  apply orb_true_iff in H as [H|H].
  - apply N.ltb_lt in H. lia.
  - apply negb_true_iff. exact H.
Qed.

Lemma variant_no_colon (p kw : str) : case_variant p kw -> ~ In colon p.
Proof.
  intros H Hin. apply (case_variant_letters p kw colon H) in Hin.
  unfold colon in Hin. lia.
Qed.

Lemma variant_line_upper (p kw rest : str) :
  case_variant p kw ->
  upper (p ++ colon :: rest) = map ascii_upper kw ++ colon :: upper rest.
Proof.
  intros H. rewrite upper_app, (case_variant_upper p kw H). reflexivity.
Qed.

Lemma variant_after_colon (p kw rest : str) :
  case_variant p kw -> after_colon (p ++ colon :: rest) = Ok (strip rest).
Proof.
  intros H. unfold after_colon, split1.
  rewrite (partition_app colon p rest (variant_no_colon p kw H)). reflexivity.
Qed.

(** The text left of a stripped line that starts with a keyword and a
    colon still starts with them. *)
Lemma variant_strip (p kw rest : str) :
  case_variant p kw -> kw <> [] ->
  exists r', strip (p ++ colon :: rest) = p ++ colon :: r'.
Proof.
  intros H Hne.
  inversion H as [Hp Hk | x y p' kw' [Hy Hxy] Hcv Hp Hk]; subst;
    [exfalso; apply Hne; reflexivity|].
  apply (strip_keeps_prefix x colon p' rest).
  - apply letter_not_space. lia.
  - reflexivity.
Qed.

Lemma same_length_prefix (p k r1 r2 : str) :
  List.length p = List.length k -> p ++ r1 = k ++ r2 -> p = k.
Proof.
  revert k; induction p as [|x p IH]; destruct k as [|y k]; simpl;
    try discriminate; [reflexivity|].
  intros Hl He. injection Hl as Hl. injection He as -> He.
  f_equal. apply IH; assumption.
Qed.

Lemma case_variant_length (p kw : str) :
  case_variant p kw -> List.length p = List.length kw.
Proof. induction 1; simpl; congruence. Qed.

Lemma startswith_upper (s K : str) :
  upper K = K -> startswith s K = true -> startswith (upper s) K = true.
Proof.
  intros HK H. apply startswith_app in H as [r ->].
  rewrite upper_app, HK. apply startswith_prefix.
Qed.

(** A keyword of the personality format spelled in another letter case
    starts with none of the three exact prefixes. *)
Lemma variant_not_exact (p kw rest K : str) :
  In kw [lit "insight"; lit "type"; lit "traits"] ->
  In K [lit "INSIGHT:"; lit "TYPE:"; lit "TRAITS:"] ->
  case_variant p kw -> p <> map ascii_upper kw ->
  startswith (p ++ colon :: rest) K = false.
Proof.
  intros Hkw HK Hcv Hne.
  destruct (startswith (p ++ colon :: rest) K) eqn:E; [exfalso | reflexivity].
  assert (HU : upper K = K).
  { destruct HK as [<-|[<-|[<-|[]]]]; vm_compute; reflexivity. }
  pose proof (startswith_upper _ K HU E) as E'.
  rewrite (variant_line_upper p kw rest Hcv) in E'.
  assert (Hsame : K = map ascii_upper kw ++ [colon]).
  { revert E'. generalize (upper rest). intros u E'.
    destruct Hkw as [<-|[<-|[<-|[]]]]; destruct HK as [<-|[<-|[<-|[]]]];
      first [ reflexivity | vm_compute in E'; discriminate ]. }
  subst K. apply Hne.
  apply startswith_app in E as [r Hr].
  rewrite <- app_assoc in Hr. simpl in Hr.
  apply (same_length_prefix p (map ascii_upper kw) (colon :: rest) (colon :: r));
    [|exact Hr].
  rewrite length_map. apply case_variant_length. exact Hcv.
Qed.

Lemma personality_line_fields (st : str * str * list str) (line : str) :
  (startswith line (lit "INSIGHT:") = false ->
   fst (fst (personality_line st line)) = fst (fst st))
  /\ (startswith line (lit "TYPE:") = false ->
      snd (fst (personality_line st line)) = snd (fst st))
  /\ (startswith line (lit "TRAITS:") = false ->
      snd (personality_line st line) = snd st).
Proof.
  destruct st as [[i t] tr]. unfold personality_line.
  destruct (startswith line (lit "INSIGHT:"));
    destruct (startswith line (lit "TYPE:"));
    destruct (startswith line (lit "TRAITS:"));
    (split; [|split]); intros H; try discriminate H; reflexivity.
Qed.

Lemma personality_loop_fields (lines : list str) (st : str * str * list str) :
  (Forall (fun l => startswith l (lit "INSIGHT:") = false) lines ->
   fst (fst (fold_left personality_line lines st)) = fst (fst st))
  /\ (Forall (fun l => startswith l (lit "TYPE:") = false) lines ->
      snd (fst (fold_left personality_line lines st)) = snd (fst st))
  /\ (Forall (fun l => startswith l (lit "TRAITS:") = false) lines ->
      snd (fold_left personality_line lines st) = snd st).
Proof.
  revert st; induction lines as [|l lines IH]; intros st.
  - repeat split.
  - destruct (IH (personality_line st l)) as (H1 & H2 & H3).
    destruct (personality_line_fields st l) as (L1 & L2 & L3).
    simpl fold_left.
    split; [|split]; intros HF; inversion HF; subst.
    + rewrite H1, L1; auto.
    + rewrite H2, L2; auto.
    + rewrite H3, L3; auto.
Qed.

Lemma personality_line_none (st : str * str * list str) (line : str) :
  startswith line (lit "INSIGHT:") = false ->
  startswith line (lit "TYPE:") = false ->
  startswith line (lit "TRAITS:") = false ->
  personality_line st line = st.
Proof.
  intros H1 H2 H3. destruct st as [[i t] tr]. unfold personality_line.
  rewrite H1, H2, H3. reflexivity.
Qed.

Lemma case_variant_by_run (p kw : str) :
  case_variantb p kw = true -> case_variant p kw.
Proof.
  revert kw; induction p as [|x p IH]; destruct kw as [|y kw]; simpl;
    try discriminate; intros H; [constructor|].
  apply andb_true_iff in H as [H Hrest].
  apply andb_true_iff in H as [H Hxy].
  apply andb_true_iff in H as [Hlo Hhi].
  apply N.leb_le in Hlo, Hhi.
  constructor; [|apply IH; exact Hrest].
  split; [lia|].
  apply orb_true_iff in Hxy as [Hxy|Hxy]; apply N.eqb_eq in Hxy; auto.
Qed.

End KeywordCase.

(** C8: keyword detection ignores letter case in the riddle and ASCII
    parsers and is exact in the personality parser.  A line that starts with
    question: or answer: (riddle), ascii: or answer: (ASCII challenge) in any
    mix of letter cases is taken as that keyword's line; a line that starts
    with insight:, type: or traits: in any spelling but the upper-case one
    matches none of INSIGHT:, TYPE:, TRAITS: and leaves the parse as it was,
    so that a text with no exactly spelled line keeps the defaults: the full
    text as insight, "The Unique Soul" as type, Creative, Thoughtful,
    Inspiring as traits. *)
Theorem keyword_detection_case :
  (forall p rest q a : str,
      case_variant p (lit "question") ->
      riddle_line (q, a) (p ++ colon :: rest) = Ok (strip rest, a))
  /\ (forall p rest q a : str,
        case_variant p (lit "answer") ->
        riddle_line (q, a) (p ++ colon :: rest) = Ok (q, strip rest))
  /\ (forall (p rest : str) (st : ascii_state),
        case_variant p (lit "ascii") ->
        ascii_line st (p ++ colon :: rest)
        = Ok (MkAscii (st_ascii_art st) (st_answer st) true))
  /\ (forall (p rest : str) (st : ascii_state),
        case_variant p (lit "answer") ->
        ascii_line st (p ++ colon :: rest)
        = Ok (MkAscii (st_ascii_art st) (strip rest) false))
  /\ (forall (p kw rest : str) (st : str * str * list str),
        In kw [lit "insight"; lit "type"; lit "traits"] ->
        case_variant p kw -> p <> map ascii_upper kw ->
        personality_line st (p ++ colon :: rest) = st)
  /\ (forall text : str,
        (Forall (fun l => startswith l (lit "INSIGHT:") = false) (split nl text) ->
         fst (fst (parse_personality text)) = text)
        /\ (Forall (fun l => startswith l (lit "TYPE:") = false) (split nl text) ->
            snd (fst (parse_personality text)) = lit "The Unique Soul")
        /\ (Forall (fun l => startswith l (lit "TRAITS:") = false) (split nl text) ->
            snd (parse_personality text)
            = [lit "Creative"; lit "Thoughtful"; lit "Inspiring"])).
Proof.
  split; [|split; [|split; [|split; [|split]]]].
  - intros p rest q a Hcv.
    assert (Q : question_line (p ++ colon :: rest) = true).
    { unfold question_line. rewrite (variant_line_upper p _ rest Hcv).
      generalize (upper rest). intros u. vm_compute. reflexivity. }
    destruct (riddle_line_question q a _ Q) as (t & Et & E).
    rewrite (variant_after_colon p _ rest Hcv) in Et.
    injection Et as <-. exact E.
  - intros p rest q a Hcv.
    assert (Q : answer_line (p ++ colon :: rest) = true).
    { unfold answer_line. rewrite (variant_line_upper p _ rest Hcv).
      generalize (upper rest). intros u. vm_compute. reflexivity. }
    destruct (riddle_line_answer q a _ Q) as (t & Et & E).
    rewrite (variant_after_colon p _ rest Hcv) in Et.
    injection Et as <-. exact E.
  - intros p rest st Hcv.
    apply ascii_line_ascii. unfold ascii_marker.
    destruct (variant_strip p (lit "ascii") rest Hcv) as [r' ->];
      [intros H; vm_compute in H; discriminate H|].
    rewrite (variant_line_upper p _ r' Hcv).
    generalize (upper r'). intros u. vm_compute. reflexivity.
  - intros p rest st Hcv.
    assert (Q : answer_marker (p ++ colon :: rest) = true).
    { unfold answer_marker.
      destruct (variant_strip p (lit "answer") rest Hcv) as [r' ->];
        [intros H; vm_compute in H; discriminate H|].
      rewrite (variant_line_upper p _ r' Hcv).
      generalize (upper r'). intros u. vm_compute. reflexivity. }
    destruct (ascii_line_answer st _ Q) as (t & Et & E).
    rewrite (variant_after_colon p _ rest Hcv) in Et.
    injection Et as <-. exact E.
  - intros p kw rest st Hkw Hcv Hne.
    apply personality_line_none;
      apply (variant_not_exact p kw rest); try assumption; simpl; auto.
  - intros text. unfold parse_personality.
    exact (personality_loop_fields (split nl text)
                                   (text, default_type, default_traits)).
Qed.

Lemma keyword_detection_case_witness :
  riddle_line (lit "", lit "") (lit "qUeStIoN: Why?") = Ok (lit "Why?", lit "")
  /\ ascii_line (MkAscii [] (lit "") true) (lit "Answer: Cat")
     = Ok (MkAscii [] (lit "Cat") false)
  /\ personality_line (lit "raw", lit "The Unique Soul", []) (lit "Insight: calm")
     = (lit "raw", lit "The Unique Soul", [])
  /\ parse_personality (lit "insight: calm" ++ [nl] ++ lit "Type: Owl"
                            ++ [nl] ++ lit "traits: wise, kind")
     = (lit "insight: calm" ++ [nl] ++ lit "Type: Owl"
            ++ [nl] ++ lit "traits: wise, kind",
        lit "The Unique Soul",
        [lit "Creative"; lit "Thoughtful"; lit "Inspiring"]).
Proof.
  destruct keyword_detection_case as (R1 & _ & _ & A2 & P1 & P2).
  split; [|split; [|split]].
  - apply (R1 (lit "qUeStIoN") (lit " Why?") (lit "") (lit "")).
    apply case_variant_by_run. vm_compute. reflexivity.
  - apply (A2 (lit "Answer") (lit " Cat") (MkAscii [] (lit "") true)).
    apply case_variant_by_run. vm_compute. reflexivity.
  - apply (P1 (lit "Insight") (lit "insight") (lit " calm")).
    + simpl. auto.
    + apply case_variant_by_run. vm_compute. reflexivity.
    + intros H. vm_compute in H. discriminate H.
  - destruct (P2 (lit "insight: calm" ++ [nl] ++ lit "Type: Owl"
                      ++ [nl] ++ lit "traits: wise, kind")) as (I & T & Tr).
    destruct (parse_personality _) as [[i t] tr]. simpl in I, T, Tr.
    rewrite I, T, Tr; try (apply Forall_false_by_run; vm_compute; reflexivity).
    reflexivity.
Defined.


(* ================================================================== *)
(** ** The completion gateway *)
(* ================================================================== *)

Section Gateway.

Variables (prompt : str) (max_tokens : Z) (temperature : float) (w : world).

Local Notation "'req'" := (request_of prompt max_tokens temperature).

Ltac run_call H :=
  unfold call_openai_api, try_except, bind, chat_completions_create;
  unfold request_of in H; rewrite H.

Lemma call_returns (text : str) (others : list (option str)) :
  client w req = Returns (Some text :: others) ->
  call_openai_api prompt max_tokens temperature w
  = (Ok (strip text), log_call req w).
Proof.
  intros H. run_call H. reflexivity.
Qed.

Lemma call_raises (cls : exn_class) (text : str) :
  client w req = Raises cls text ->
  is_Exception (PyErr cls text) = true ->
  call_openai_api prompt max_tokens temperature w
  = (Ok fallback,
     log_line (lit "OpenAI API Error: " ++ text) (log_call req w)).
Proof.
  intros H He. run_call H. rewrite He. reflexivity.
Qed.

Lemma call_propagates (cls : exn_class) (text : str) :
  client w req = Raises cls text ->
  is_Exception (PyErr cls text) = false ->
  call_openai_api prompt max_tokens temperature w
  = (Raise (PyErr cls text), log_call req w).
Proof.
  intros H He. run_call H. rewrite He. reflexivity.
Qed.

(** A response without choices, or whose first message has no text, ends
    in the handler as well. *)
Lemma call_malformed (choices : list (option str)) :
  client w req = Returns choices ->
  (choices = [] \/ exists others, choices = None :: others) ->
  exists line,
    call_openai_api prompt max_tokens temperature w
    = (Ok fallback, log_line line (log_call req w)).
Proof.
  intros H Hc. run_call H.
  destruct Hc as [->|[others ->]]; eexists; reflexivity.
Qed.

Lemma call_total :
  raises_only_Exception w ->
  exists s w',
    call_openai_api prompt max_tokens temperature w = (Ok s, w')
    /\ same_environment w w'.
Proof.
  intros Hw. destruct (client w req) as [choices|cls text] eqn:E.
  - destruct choices as [|[text|] others].
    + destruct (call_malformed [] E) as [line ->]; [left; reflexivity|].
      eexists _, _. split; [reflexivity|]. repeat split.
    + rewrite (call_returns text others E).
      eexists _, _. split; [reflexivity|]. repeat split.
    + destruct (call_malformed (None :: others) E) as [line ->];
        [right; eexists; reflexivity|].
      eexists _, _. split; [reflexivity|]. repeat split.
  - rewrite (call_raises cls text E (Hw _ _ _ E)).
    eexists _, _. split; [reflexivity|]. repeat split.
Qed.

End Gateway.

(** C1 (as amended): whatever the prompt, when the completion call raises an
    error of the openai client (transport, credentials, an error status of
    the service) or any other [Exception], [call_openai_api] logs it and
    returns the fixed text "Something magical went wrong, but you are still
    amazing! ✨": the sentence, a space and the sparkles sign.  When the
    service raises nothing outside [Exception], the gateway never raises:
    the caller gets a string. *)
Theorem gateway_absorbs_errors :
  (forall (prompt : str) (max_tokens : Z) (temperature : float) (w : world)
          (cls : exn_class) (text : str),
      client w (request_of prompt max_tokens temperature) = Raises cls text ->
      In cls [APIConnectionError; AuthenticationError; APIStatusError]
      \/ is_Exception (PyErr cls text) = true ->
      call_openai_api prompt max_tokens temperature w
      = (Ok (lit "Something magical went wrong, but you are still amazing! ✨"),
         log_line (lit "OpenAI API Error: " ++ text)
                  (log_call (request_of prompt max_tokens temperature) w)))
  /\ (forall (prompt : str) (max_tokens : Z) (temperature : float) (w : world),
         raises_only_Exception w ->
         exists s w', call_openai_api prompt max_tokens temperature w = (Ok s, w')).
Proof.
  split.
  - intros prompt max_tokens temperature w cls text H Hcls.
    rewrite (call_raises prompt max_tokens temperature w cls text H);
      [unfold fallback; reflexivity|].
    destruct Hcls as [Hin|He]; [|exact He].
    destruct Hin as [<-|[<-|[<-|[]]]]; reflexivity.
  - intros prompt max_tokens temperature w Hw.
    destruct (call_total prompt max_tokens temperature w Hw) as (s & w' & E & _).
    exists s, w'. exact E.
Qed.

Lemma gateway_absorbs_errors_witness :
  call_openai_api (lit "Tell me a joke") 200 0.8%float
                  (world_with (Raises APIConnectionError (lit "Connection error.")) 0)
  = (Ok (lit "Something magical went wrong, but you are still amazing! ✨"),
     log_line (lit "OpenAI API Error: " ++ lit "Connection error.")
              (log_call (request_of (lit "Tell me a joke") 200 0.8%float)
                        (world_with (Raises APIConnectionError
                                            (lit "Connection error.")) 0))).
Proof.
  refine (proj1 gateway_absorbs_errors
                (lit "Tell me a joke") 200%Z 0.8%float
                (world_with (Raises APIConnectionError (lit "Connection error.")) 0)
                APIConnectionError (lit "Connection error.") _ _).
  - reflexivity.
  - left. left. reflexivity.
Defined.

(** C1 (as stated) fails: the text returned on a transport error is not the
    bare sentence "Something magical went wrong, but you are still
    amazing!". *)
Lemma gateway_fallback_is_not_the_bare_sentence :
  ~ (forall (prompt : str) (max_tokens : Z) (temperature : float) (w : world)
            (cls : exn_class) (text : str),
        client w (request_of prompt max_tokens temperature) = Raises cls text ->
        In cls [APIConnectionError; AuthenticationError; APIStatusError] ->
        fst (call_openai_api prompt max_tokens temperature w)
        = Ok (lit "Something magical went wrong, but you are still amazing!")).
Proof.
  intros H.
  specialize (H (lit "Tell me a joke") 200%Z 0.8%float
                (world_with (Raises APIConnectionError (lit "Connection error.")) 0)
                APIConnectionError (lit "Connection error.")
                eq_refl (or_introl eq_refl)).
  vm_compute in H. discriminate H.
Qed.

(* ================================================================== *)
(** ** The handlers *)
(* ================================================================== *)

(** C7: a personality request whose input is empty or all blanks is
    answered by the client error 400 "Input cannot be empty", and the world
    is left as it was: nothing was sent to the completion service. *)
Theorem personality_blank_input_rejected (req : PersonalityRequest.t) (w : world) :
  Forall (fun c => isspace c = true) (PersonalityRequest.input req) ->
  get_personality_insight req w
  = (Raise (HTTPException 400 (lit "Input cannot be empty")), w)
  /\ api_log (snd (get_personality_insight req w)) = api_log w.
Proof.
  intros H. unfold get_personality_insight.
  rewrite (strip_blank _ H). split; reflexivity.
Qed.

Lemma personality_blank_input_rejected_witness :
  get_personality_insight
    (PersonalityRequest.Mk (lit "  	　 ") default_language None)
    (world_with (Returns [Some (lit "INSIGHT: calm")]) 0)
  = (Raise (HTTPException 400 (lit "Input cannot be empty")),
     world_with (Returns [Some (lit "INSIGHT: calm")]) 0).
Proof.
  refine (proj1 (personality_blank_input_rejected
                   (PersonalityRequest.Mk (lit "  	　 ") default_language None)
                   (world_with (Returns [Some (lit "INSIGHT: calm")]) 0) _)).
  apply Forall_forall. intros c Hc.
  vm_compute in Hc. decompose [or] Hc; subst; try reflexivity; contradiction.
Defined.

(** C9: a random-fun reply is built from one of exactly three templates,
    joke with "😄", compliment with "💝", art with "🎨"; [random.choice]
    draws an index below three and each template is the pick of exactly one
    of the three draws, so equally likely draws give equally likely
    templates; type and emoji of the reply are those of the template drawn,
    and its content is the text the gateway returned for that template's
    prompt. *)
Theorem random_fun_template :
  (forall lang_instruction : str,
      map (fun t => (ft_type t, ft_emoji t)) (fun_types lang_instruction)
      = [(lit "joke", lit "😄"); (lit "compliment", lit "💝");
         (lit "art", lit "🎨")])
  /\ (draws_picking (lit "joke") = 1 /\ draws_picking (lit "compliment") = 1
      /\ draws_picking (lit "art") = 1)%nat
  /\ (forall (req : RandomFunRequest.t) (w : world),
         (randbelow w 3 < 3)%nat ->
         exists t,
           nth_error
             (fun_types (lit "Write in "
                             ++ format_opt (RandomFunRequest.language req)
                             ++ lit " using simple, clear words."))
             (randbelow w 3) = Some t
           /\ forall (content : str) (w' : world),
               call_openai_api (ft_prompt t) 80 0.8%float w = (Ok content, w') ->
               get_random_fun req w
               = (Ok (RandomFunResponse.Mk (ft_type t) content (ft_emoji t)), w')).
Proof.
  split; [intros; reflexivity|].
  split; [vm_compute; auto|].
  intros req w Hdraw.
  assert (Hsome : exists t,
             nth_error
               (fun_types (lit "Write in "
                               ++ format_opt (RandomFunRequest.language req)
                               ++ lit " using simple, clear words."))
               (randbelow w 3) = Some t).
  { destruct (randbelow w 3) as [|[|[|k]]]; [| | |lia];
      eexists; reflexivity. }
  destruct Hsome as [t Ht]. exists t. split; [exact Ht|].
  intros content w' Hcall.
  unfold get_random_fun, bind, choice.
  change (List.length (fun_types _)) with 3%nat.
  rewrite Ht. unfold or_raise. rewrite Hcall. reflexivity.
Qed.

Lemma random_fun_template_witness :
  get_random_fun (RandomFunRequest.Mk default_language)
                 (world_with (Returns [Some (lit " You shine. ")]) 1)
  = (Ok (RandomFunResponse.Mk (lit "compliment") (lit "You shine.") (lit "💝")),
     log_call
       (request_of
          (lit "Write in english using simple, clear words. Give one short, warm compliment about someone's character or kindness. Under 20 words.")
          80 0.8%float)
       (world_with (Returns [Some (lit " You shine. ")]) 1)).
Proof.
  destruct (proj2 (proj2 random_fun_template)
                  (RandomFunRequest.Mk default_language)
                  (world_with (Returns [Some (lit " You shine. ")]) 1))
    as (t & Ht & H); [vm_compute; lia|].
  vm_compute in Ht. injection Ht as <-.
  rewrite (H (lit "You shine.")
             (log_call
                (request_of
                   (lit "Write in english using simple, clear words. Give one short, warm compliment about someone's character or kindness. Under 20 words.")
                   80 0.8%float)
                (world_with (Returns [Some (lit " You shine. ")]) 1)));
    vm_compute; reflexivity.
Defined.

(** C6: for a personality request with a non-blank input of N
    blank-separated words, answered by the gateway, the reply's
    confidence_score is min(0.95, 0.6 + N * 0.05) in binary64 arithmetic,
    [x] being N as a float; for N = 7 it is exactly 0.95. *)
Theorem personality_confidence_score (req : PersonalityRequest.t) (w w' : world)
        (text : str) (x : float) :
  strip (PersonalityRequest.input req) <> [] ->
  call_openai_api
    (personality_prompt (PersonalityRequest.input req)
                        (PersonalityRequest.language req))
    300 0.7%float w = (Ok text, w') ->
  int_to_float (len (split_ws (PersonalityRequest.input req))) = Ok x ->
  exists resp,
    get_personality_insight req w = (Ok resp, w')
    /\ PersonalityResponse.confidence_score resp
       = Rt.min 0.95%float (0.6 + x * 0.05)%float
    /\ (len (split_ws (PersonalityRequest.input req)) = 7%N ->
        PersonalityResponse.confidence_score resp = 0.95%float).
Proof.
  intros Hin Hcall Hx. unfold get_personality_insight.
  destruct (strip (PersonalityRequest.input req)) as [|c s] eqn:Es;
    [congruence|].
  cbn [truthy negb]. unfold bind. rewrite Hcall.
  destruct (parse_personality text) as [[insight ptype] traits].
  unfold lift, confidence. rewrite Hx, rbind_Ok.
  eexists. split; [reflexivity|].
  cbn [PersonalityResponse.confidence_score]. split; [reflexivity|].
  intros H7. rewrite H7 in Hx. vm_compute in Hx. injection Hx as <-.
  vm_compute. reflexivity.
Qed.

Lemma personality_confidence_score_witness :
  exists resp,
    get_personality_insight
      (PersonalityRequest.Mk (lit "I love quiet mornings and long walks")
                             default_language None)
      (world_with (Returns [Some (lit "INSIGHT: You are calm.")]) 0)
    = (Ok resp,
       log_call
         (request_of
            (personality_prompt (lit "I love quiet mornings and long walks")
                                default_language)
            300 0.7%float)
         (world_with (Returns [Some (lit "INSIGHT: You are calm.")]) 0))
    /\ PersonalityResponse.confidence_score resp = 0.95%float.
Proof.
  destruct (personality_confidence_score
              (PersonalityRequest.Mk (lit "I love quiet mornings and long walks")
                                     default_language None)
              (world_with (Returns [Some (lit "INSIGHT: You are calm.")]) 0)
              (log_call
                 (request_of
                    (personality_prompt (lit "I love quiet mornings and long walks")
                                        default_language)
                    300 0.7%float)
                 (world_with (Returns [Some (lit "INSIGHT: You are calm.")]) 0))
              (lit "INSIGHT: You are calm.") 7%float)
    as (resp & E & _ & H7).
  - vm_compute. discriminate.
  - vm_compute. reflexivity.
  - vm_compute. reflexivity.
  - exists resp. split; [exact E|]. apply H7. vm_compute. reflexivity.
Defined.

(* ================================================================== *)
(** ** The daily seed *)
(* ================================================================== *)

Section DailySeed.

Local Open Scope N_scope.

Lemma octets_of_spec (n : nat) (x : N) :
  List.length (Hashlib.octets_of n x) = n
  /\ Forall (fun b => b < 256) (Hashlib.octets_of n x).
Proof.
  unfold Hashlib.octets_of. split.
  - rewrite length_map, length_seq. reflexivity.
  - apply Forall_forall. intros b Hb. apply in_map_iff in Hb as (i & <- & _).
    apply N.mod_lt. discriminate.
Qed.

(** A digest is sixteen octets. *)
Lemma md5_octets (msg : list N) :
  List.length (Hashlib.md5 msg) = 16%nat
  /\ Forall (fun b => b < 256) (Hashlib.md5 msg).
Proof.
  unfold Hashlib.md5.
  destruct (Hashlib.md5_blocks _ _ _ _) as [a b c d].
  destruct (octets_of_spec 4 a) as [La Fa], (octets_of_spec 4 b) as [Lb Fb],
    (octets_of_spec 4 c) as [Lc Fc], (octets_of_spec 4 d) as [Ld Fd].
  split.
  - rewrite !length_app, La, Lb, Lc, Ld. reflexivity.
  - repeat (apply Forall_app; split); assumption.
Qed.

Lemma hex_of_octet_spec (b : N) :
  b < 256 ->
  forallb lower_hex (Hashlib.hex_of_octet b) = true
  /\ int16 (Hashlib.hex_of_octet b) = Some b.
Proof.
  intros Hb.
  assert (H : forallb lower_hex (Hashlib.hex_of_octet b)
              && match int16 (Hashlib.hex_of_octet b) with
                 | Some v => v =? b
                 | None => false
                 end = true).
  { apply (forall_below
             (fun b => forallb lower_hex (Hashlib.hex_of_octet b)
                       && match int16 (Hashlib.hex_of_octet b) with
                          | Some v => v =? b
                          | None => false
                          end) 256);
      [vm_compute; reflexivity | exact Hb]. }
  apply andb_true_iff in H as [H1 H2]. split; [exact H1|].
  destruct (int16 (Hashlib.hex_of_octet b)) as [v|]; [|discriminate].
  apply N.eqb_eq in H2. congruence.
Qed.

(** The first eight characters of a hexdigest spell its first four octets. *)
Lemma hexdigest_head (msg : list N) :
  exists o0 o1 o2 o3,
    o0 < 256 /\ o1 < 256 /\ o2 < 256 /\ o3 < 256
    /\ firstn 8 (Hashlib.hexdigest msg)
       = Hashlib.hex_of_octet o0 ++ Hashlib.hex_of_octet o1
         ++ Hashlib.hex_of_octet o2 ++ Hashlib.hex_of_octet o3.
Proof.
  destruct (md5_octets msg) as [L F]. unfold Hashlib.hexdigest.
  destruct (Hashlib.md5 msg) as [|o0 [|o1 [|o2 [|o3 rest]]]];
    try discriminate L.
  inversion F as [|? ? H0 F1]; subst. inversion F1 as [|? ? H1 F2]; subst.
  inversion F2 as [|? ? H2 F3]; subst. inversion F3 as [|? ? H3 _]; subst.
  exists o0, o1, o2, o3. repeat (split; [assumption|]). reflexivity.
Qed.

Lemma getitem_in_range {A : Type} (l : list A) (i : N) :
  i < len l -> exists x, getitem l i = Ok x /\ index l i = Some x.
Proof.
  intros H. unfold getitem, index, len in *.
  destruct (nth_error l (N.to_nat i)) as [x|] eqn:E.
  - exists x. split; reflexivity.
  - apply nth_error_None in E. lia.
Qed.

(** The text of a date is ASCII, so it has an encoding: itself. *)
Lemma encode_ascii (s : str) :
  Forall (fun c => c < 128) s -> encode s = Some s.
Proof.
  induction 1 as [|c s Hc _ IH]; [reflexivity|].
  simpl. rewrite IH. unfold encode_char.
  assert (E : (c <? 128) = true) by (apply N.ltb_lt; exact Hc).
  rewrite E. reflexivity.
Qed.

Lemma decimal_go_ascii (fuel : nat) (n : N) (acc : str) :
  Forall (fun c => c < 128) acc ->
  Forall (fun c => c < 128) (decimal_go fuel n acc).
Proof.
  revert n acc; induction fuel as [|fuel IH]; intros n acc H; simpl;
    [exact H|].
  assert (Hd : Forall (fun c => c < 128) (48 + n mod 10 :: acc)).
  { constructor; [|exact H].
    pose proof (N.mod_lt n 10 ltac:(discriminate)). lia. }
  destruct (n / 10 =? 0); [exact Hd | apply IH; exact Hd].
Qed.

Lemma zfill_ascii (width : nat) (s : str) :
  Forall (fun c => c < 128) s -> Forall (fun c => c < 128) (zfill width s).
Proof.
  intros H. unfold zfill. apply Forall_app. split; [|exact H].
  apply Forall_forall. intros c Hc. apply repeat_spec in Hc. subst c. lia.
Qed.

Lemma zfill_decimal_ascii (width : nat) (n : N) :
  Forall (fun c => c < 128) (zfill width (decimal n)).
Proof. apply zfill_ascii, decimal_go_ascii. constructor. Qed.

Lemma dash_ascii : Forall (fun c => c < 128) (lit "-").
Proof.
  apply Forall_forall. intros c Hc. vm_compute in Hc.
  destruct Hc as [<-|[]]. reflexivity.
Qed.

Lemma strftime_Ymd_ascii (d : datetime) :
  Forall (fun c => c < 128) (strftime_Ymd d).
Proof.
  unfold strftime_Ymd.
  apply Forall_app; split; [apply zfill_decimal_ascii|].
  apply Forall_app; split; [apply dash_ascii|].
  apply Forall_app; split; [apply zfill_decimal_ascii|].
  apply Forall_app; split; [apply dash_ascii|].
  apply zfill_decimal_ascii.
Qed.

(** The hash of a date that has an encoding: eight lower-case hexadecimal
    digits, of which the first two pairs read back as octets. *)
Lemma date_hash_of_shape (today : str) (octets : list N) :
  encode today = Some octets ->
  exists h i j,
    date_hash_of today = Ok h
    /\ List.length h = 8%nat
    /\ forallb lower_hex h = true
    /\ i < 256 /\ j < 256
    /\ int16 (firstn 2 h) = Some i
    /\ int16 (firstn 2 (skipn 2 h)) = Some j.
Proof.
  intros He. unfold date_hash_of. rewrite He. unfold or_raise.
  rewrite rbind_Ok.
  destruct (hexdigest_head octets) as (o0 & o1 & o2 & o3 & H0 & H1 & H2 & H3 & E).
  rewrite E.
  destruct (hex_of_octet_spec o0 H0) as [L0 I0],
    (hex_of_octet_spec o1 H1) as [L1 I1],
    (hex_of_octet_spec o2 H2) as [L2 _],
    (hex_of_octet_spec o3 H3) as [L3 _].
  eexists _, o0, o1. split; [reflexivity|].
  split; [reflexivity|].
  split; [rewrite !forallb_app, L0, L1, L2, L3; reflexivity|].
  split; [exact H0|]. split; [exact H1|].
  split; [exact I0 | exact I1].
Qed.

End DailySeed.

Section Affirmation.

Local Open Scope N_scope.

Lemma pick_ok (l : list str) (s : str) (i : N) :
  int16 s = Some i -> 0 < len l ->
  exists x, pick l s = Ok x /\ index l (i mod len l) = Some x.
Proof.
  intros Hi Hl. unfold pick. rewrite Hi. unfold or_raise. rewrite rbind_Ok.
  apply getitem_in_range. apply N.mod_lt. lia.
Qed.

(** [get_date_hash] reads the clock once and hashes the date it shows. *)
Lemma get_date_hash_run (w : world) (h : str) :
  date_hash_of (strftime_Ymd (clock w (reads w))) = Ok h ->
  get_date_hash w = (Ok h, tick w).
Proof.
  intros H. unfold get_date_hash, bind, now, lift. rewrite H. reflexivity.
Qed.

Lemma raises_only_Exception_env (w w' : world) :
  client w' = client w -> raises_only_Exception w -> raises_only_Exception w'.
Proof.
  intros Hc Hw req cls text H. rewrite Hc in H. exact (Hw req cls text H).
Qed.

(** A run of the affirmation handler: the decoration comes from the date
    hash alone, the date field from the second reading of the clock. *)
Lemma daily_affirmation_run (req : AffirmationRequest.t) (w : world)
      (h visual color : str) :
  raises_only_Exception w ->
  date_hash_of (strftime_Ymd (clock w (reads w))) = Ok h ->
  pick visuals (firstn 2 h) = Ok visual ->
  pick colors (firstn 2 (skipn 2 h)) = Ok color ->
  exists text w',
    get_daily_affirmation req w
    = (Ok (AffirmationResponse.Mk
             text visual (strftime_Ymd (clock w (S (reads w)))) color), w').
Proof.
  intros Hw Hh Hv Hc. unfold get_daily_affirmation.
  unfold bind at 1. rewrite (get_date_hash_run w h Hh).
  unfold bind at 1. unfold now at 1.
  unfold bind at 1. unfold now at 1.
  unfold bind at 1. unfold now at 1.
  unfold bind at 1.
  match goal with
  | |- context [call_openai_api ?p ?m ?t ?w0] =>
      destruct (call_total p m t w0) as (text & w' & E & _);
        [apply (raises_only_Exception_env w); [reflexivity | exact Hw] |];
        rewrite E
  end.
  unfold bind, lift, ret. rewrite Hv, Hc.
  exists text, w'. reflexivity.
Qed.

(** The seed of the date the clock shows, and what it selects. *)
Lemma seed_and_picks (w : world) :
  exists h i j visual color,
    date_hash_of (strftime_Ymd (clock w (reads w))) = Ok h
    /\ List.length h = 8%nat
    /\ forallb lower_hex h = true
    /\ int16 (firstn 2 h) = Some i
    /\ int16 (firstn 2 (skipn 2 h)) = Some j
    /\ pick visuals (firstn 2 h) = Ok visual
    /\ index visuals (i mod 8) = Some visual
    /\ pick colors (firstn 2 (skipn 2 h)) = Ok color
    /\ index colors (j mod 7) = Some color.
Proof.
  destruct (date_hash_of_shape
              (strftime_Ymd (clock w (reads w)))
              (strftime_Ymd (clock w (reads w)))
              (encode_ascii _ (strftime_Ymd_ascii _)))
    as (h & i & j & Hh & Hlen & Hhex & _ & _ & Hi & Hj).
  destruct (pick_ok visuals (firstn 2 h) i Hi) as (visual & Pv & Iv);
    [reflexivity|].
  destruct (pick_ok colors (firstn 2 (skipn 2 h)) j Hj) as (color & Pc & Ic);
    [reflexivity|].
  exists h, i, j, visual, color.
  repeat (split; [assumption|]). assumption.
Qed.

End Affirmation.

(** C10: whatever the clock shows, [get_date_hash] returns, without
    raising, eight lower-case hexadecimal digits; their first and second
    pairs read as base-16 integers [i] and [j]; [i] modulo 8 and [j] modulo 7
    are within the 8 visuals and the 7 colors, and both selections of the
    affirmation handler return an entry. *)
Theorem daily_decoration_total (w : world) :
  exists h i j visual color,
    get_date_hash w = (Ok h, tick w)
    /\ List.length h = 8%nat
    /\ Forall (fun c => lower_hex c = true) h
    /\ int16 (firstn 2 h) = Some i
    /\ int16 (firstn 2 (skipn 2 h)) = Some j
    /\ len visuals = 8%N /\ len colors = 7%N
    /\ (i mod 8 < 8)%N /\ (j mod 7 < 7)%N
    /\ pick visuals (firstn 2 h) = Ok visual
    /\ index visuals (i mod 8) = Some visual
    /\ pick colors (firstn 2 (skipn 2 h)) = Ok color
    /\ index colors (j mod 7) = Some color.
Proof.
  destruct (seed_and_picks w)
    as (h & i & j & visual & color & Hh & Hlen & Hhex & Hi & Hj
        & Pv & Iv & Pc & Ic).
  exists h, i, j, visual, color.
  split; [exact (get_date_hash_run w h Hh)|].
  split; [exact Hlen|].
  split; [apply Forall_forall; apply forallb_forall; exact Hhex|].
  split; [exact Hi|]. split; [exact Hj|].
  split; [reflexivity|]. split; [reflexivity|].
  split; [apply N.mod_lt; discriminate|].
  split; [apply N.mod_lt; discriminate|].
  split; [exact Pv|]. split; [exact Iv|]. split; [exact Pc | exact Ic].
Qed.

(** C4: the daily seed depends on the world through the date string alone.
    Two calls, whatever the requests, the hour, the weekday, the service's
    answers, that read the same date YYYY-MM-DD get the same seed of eight
    lower-case hexadecimal digits, and the affirmation handler returns in
    both the same visual_element and mood_color: the entries of the eight
    visuals and seven colors at the seed's first and second pair of digits,
    read in base 16, modulo 8 and 7. *)
Theorem daily_seed_deterministic (req1 req2 : AffirmationRequest.t)
        (w1 w2 : world) :
  strftime_Ymd (clock w1 (reads w1)) = strftime_Ymd (clock w2 (reads w2)) ->
  raises_only_Exception w1 -> raises_only_Exception w2 ->
  exists h i j r1 r2 w1' w2',
    get_date_hash w1 = (Ok h, tick w1)
    /\ get_date_hash w2 = (Ok h, tick w2)
    /\ List.length h = 8%nat
    /\ Forall (fun c => lower_hex c = true) h
    /\ get_daily_affirmation req1 w1 = (Ok r1, w1')
    /\ get_daily_affirmation req2 w2 = (Ok r2, w2')
    /\ AffirmationResponse.visual_element r1 = AffirmationResponse.visual_element r2
    /\ AffirmationResponse.mood_color r1 = AffirmationResponse.mood_color r2
    /\ int16 (firstn 2 h) = Some i
    /\ int16 (firstn 2 (skipn 2 h)) = Some j
    /\ index visuals (i mod 8) = Some (AffirmationResponse.visual_element r1)
    /\ index colors (j mod 7) = Some (AffirmationResponse.mood_color r1).
Proof.
  intros Hdate Hw1 Hw2.
  destruct (seed_and_picks w1)
    as (h & i & j & visual & color & Hh & Hlen & Hhex & Hi & Hj
        & Pv & Iv & Pc & Ic).
  destruct (daily_affirmation_run req1 w1 h visual color Hw1 Hh Pv Pc)
    as (t1 & w1' & E1).
  pose proof (get_date_hash_run w1 h Hh) as G1.
  rewrite Hdate in Hh.
  destruct (daily_affirmation_run req2 w2 h visual color Hw2 Hh Pv Pc)
    as (t2 & w2' & E2).
  eexists h, i, j, _, _, w1', w2'.
  split; [exact G1|].
  split; [exact (get_date_hash_run w2 h Hh)|].
  split; [exact Hlen|].
  split; [apply Forall_forall; apply forallb_forall; exact Hhex|].
  split; [exact E1|]. split; [exact E2|].
  split; [reflexivity|]. split; [reflexivity|].
  split; [exact Hi|]. split; [exact Hj|].
  split; [exact Iv | exact Ic].
Qed.

Lemma daily_seed_deterministic_witness :
  exists r1 r2 w1' w2',
    get_date_hash (world_with (Returns [Some (lit "Today you rise.")]) 0)
    = (Ok (lit "82bab43b"),
       tick (world_with (Returns [Some (lit "Today you rise.")]) 0))
    /\ get_date_hash evening_world = (Ok (lit "82bab43b"), tick evening_world)
    /\ get_daily_affirmation
         (AffirmationRequest.Mk default_language)
         (world_with (Returns [Some (lit "Today you rise.")]) 0)
       = (Ok r1, w1')
    /\ get_daily_affirmation (AffirmationRequest.Mk (Some (lit "hindi")))
                             evening_world
       = (Ok r2, w2')
    /\ AffirmationResponse.visual_element r1 = lit "🌅"
    /\ AffirmationResponse.visual_element r2 = lit "🌅"
    /\ AffirmationResponse.mood_color r1 = lit "#FFEAA7"
    /\ AffirmationResponse.mood_color r2 = lit "#FFEAA7".
Proof.
  destruct (daily_seed_deterministic
              (AffirmationRequest.Mk default_language)
              (AffirmationRequest.Mk (Some (lit "hindi")))
              (world_with (Returns [Some (lit "Today you rise.")]) 0)
              evening_world)
    as (h & i & j & r1 & r2 & w1' & w2' & G1 & G2 & _ & _ & E1 & E2 & Hv & Hc
        & Hi & Hj & Iv & Ic).
  - vm_compute. reflexivity.
  - intros req cls text H. discriminate H.
  - intros req cls text H. injection H as <- <-. reflexivity.
  - assert (Hh : h = lit "82bab43b").
    { vm_compute in G1. injection G1 as <-. vm_compute. reflexivity. }
    subst h. vm_compute in Hi, Hj.
    injection Hi as <-. injection Hj as <-.
    assert (Kv : index visuals (130 mod 8) = Some (lit "🌅"))
      by (vm_compute; reflexivity).
    assert (Kc : index colors (186 mod 7) = Some (lit "#FFEAA7"))
      by (vm_compute; reflexivity).
    rewrite Kv in Iv. rewrite Kc in Ic.
    injection Iv as Iv. injection Ic as Ic.
    exists r1, r2, w1', w2'.
    split; [exact G1|]. split; [exact G2|].
    split; [exact E1|]. split; [exact E2|].
    rewrite <- Hv, <- Hc, <- Iv, <- Ic.
    repeat split; reflexivity.
Defined.

(* ================================================================== *)
(** ** More on the gateway *)
(* ================================================================== *)

Import Startup Vocab.

Section StripFacts.

Local Open Scope N_scope.

Lemma lstrip_suffix (s : str) : exists p, s = p ++ lstrip s.
Proof.
  induction s as [|c s [p IH]]; [exists []; reflexivity|].
  simpl. destruct (isspace c).
  - exists (c :: p). simpl. f_equal. exact IH.
  - exists []. reflexivity.
Qed.

Lemma lstrip_head (s t : str) (c : char) :
  lstrip s = c :: t -> isspace c = false.
Proof.
  induction s as [|x s IH]; simpl; [discriminate|].
  destruct (isspace x) eqn:E; [exact IH|].
  intros H. injection H as <- _. exact E.
Qed.

Lemma lstrip_keep (c : char) (s : str) :
  isspace c = false -> lstrip (c :: s) = c :: s.
Proof. intros H. simpl. rewrite H. reflexivity. Qed.

Lemma lstrip_idem (s : str) : lstrip (lstrip s) = lstrip s.
Proof.
  destruct (lstrip s) as [|c t] eqn:E; [reflexivity|].
  apply lstrip_keep. exact (lstrip_head s t c E).
Qed.

Lemma lstrip_nil (s : str) :
  lstrip s = [] -> Forall (fun c => isspace c = true) s.
Proof.
  induction s as [|c s IH]; simpl; [constructor|].
  destruct (isspace c) eqn:E; [|discriminate].
  intros H. constructor; [exact E | exact (IH H)].
Qed.

(** Stripping twice is stripping once. *)
Lemma strip_idem (s : str) : strip (strip s) = strip s.
Proof.
  unfold strip, rstrip.
  set (a := lstrip s). set (b := lstrip (rev a)).
  assert (Hb : lstrip b = b) by apply lstrip_idem.
  assert (Hr : lstrip (rev b) = rev b).
  { destruct (rev b) as [|x r] eqn:Er; [reflexivity|].
    destruct (lstrip_suffix (rev a)) as [p Hp]. fold b in Hp.
    assert (Ha : a = (x :: r) ++ rev p).
    { rewrite <- Er, <- rev_app_distr, <- Hp, rev_involutive. reflexivity. }
    apply lstrip_keep. apply (lstrip_head s (r ++ rev p)). exact Ha. }
  rewrite Hr, rev_involutive, Hb. reflexivity.
Qed.

Lemma strip_nil (s : str) :
  strip s = [] -> Forall (fun c => isspace c = true) s.
Proof.
  unfold strip, rstrip. intros H.
  assert (H1 : lstrip (rev (lstrip s)) = []).
  { rewrite <- (rev_involutive (lstrip (rev (lstrip s)))), H. reflexivity. }
  apply lstrip_nil in H1.
  destruct (lstrip s) as [|c t] eqn:E; [exact (lstrip_nil s E)|].
  pose proof (lstrip_head s t c E) as Hc.
  rewrite Forall_forall in H1.
  rewrite (H1 c) in Hc; [discriminate|].
  apply in_rev. rewrite rev_involutive. left. reflexivity.
Qed.

Lemma lstrip_app_blank (ws s : str) :
  Forall (fun c => isspace c = true) ws -> lstrip (ws ++ s) = lstrip s.
Proof.
  induction 1 as [|c ws Hc _ IH]; [reflexivity|].
  simpl. rewrite Hc. exact IH.
Qed.

End StripFacts.

Section GatewayMore.

Variables (prompt : str) (max_tokens : Z) (temperature : float) (w : world).

(** The four ways a call can go. *)
Lemma call_cases :
  (exists text others,
      client w (request_of prompt max_tokens temperature)
      = Returns (Some text :: others)
      /\ call_openai_api prompt max_tokens temperature w
         = (Ok (strip text), log_call (request_of prompt max_tokens temperature) w))
  \/ (exists line,
         call_openai_api prompt max_tokens temperature w
         = (Ok fallback,
            log_line line (log_call (request_of prompt max_tokens temperature) w)))
  \/ (exists cls text,
         is_Exception (PyErr cls text) = false
         /\ call_openai_api prompt max_tokens temperature w
            = (Raise (PyErr cls text),
               log_call (request_of prompt max_tokens temperature) w)).
Proof.
  destruct (client w (request_of prompt max_tokens temperature))
    as [choices|cls text] eqn:E.
  - destruct choices as [|[text|] others].
    + right; left.
      exact (call_malformed prompt max_tokens temperature w [] E
                            (or_introl eq_refl)).
    + left. exists text, others. split; [reflexivity|].
      exact (call_returns prompt max_tokens temperature w text others E).
    + right; left.
      exact (call_malformed prompt max_tokens temperature w (None :: others) E
                            (or_intror (ex_intro _ others eq_refl))).
  - destruct (is_Exception (PyErr cls text)) eqn:Ex.
    + right; left. eexists.
      exact (call_raises prompt max_tokens temperature w cls text E Ex).
    + right; right. exists cls, text. split; [exact Ex|].
      exact (call_propagates prompt max_tokens temperature w cls text E Ex).
Qed.

End GatewayMore.

(** X1: a call of the gateway sends exactly one request to the service,
    whatever the outcome (text, an absorbed error, an error passed on): the
    model gpt-4o, the system message and the prompt as user message, the
    given max_tokens and temperature, penalties 0.3 and 0.1.  There is no
    retry; the clock is not read; at most one line is printed. *)
Theorem gateway_sends_one_request (prompt : str) (max_tokens : Z)
        (temperature : float) (w : world) :
  let w' := snd (call_openai_api prompt max_tokens temperature w) in
  api_log w'
  = api_log w
    ++ [MkApiRequest (lit "gpt-4o")
                     [(lit "system", system_content); (lit "user", prompt)]
                     max_tokens temperature 0.3%float 0.1%float]
  /\ reads w' = reads w
  /\ (stdout w' = stdout w \/ exists line, stdout w' = stdout w ++ [line]).
Proof.
  destruct (call_cases prompt max_tokens temperature w)
    as [(text & others & _ & E)|[(line & E)|(cls & text & _ & E)]];
    rewrite E; cbn [snd].
  - split; [reflexivity|]. split; [reflexivity|]. left. reflexivity.
  - split; [reflexivity|]. split; [reflexivity|]. right. exists line. reflexivity.
  - split; [reflexivity|]. split; [reflexivity|]. left. reflexivity.
Qed.

(** X2: the string the gateway returns has no blanks around it: it is the
    stripped text of the first choice or the fallback, so stripping it
    again changes nothing. *)
Theorem gateway_text_is_stripped (prompt : str) (max_tokens : Z)
        (temperature : float) (w w' : world) (s : str) :
  call_openai_api prompt max_tokens temperature w = (Ok s, w') ->
  strip s = s.
Proof.
  intros H.
  destruct (call_cases prompt max_tokens temperature w)
    as [(text & others & _ & E)|[(line & E)|(cls & text & _ & E)]];
    rewrite E in H.
  - injection H as <- _. apply strip_idem.
  - injection H as <- _. vm_compute. reflexivity.
  - discriminate H.
Qed.

Lemma gateway_text_is_stripped_witness :
  strip (strip (lit "  Hello there.  ")) = strip (lit "  Hello there.  ").
Proof.
  refine (gateway_text_is_stripped
            (lit "Say hello") 200%Z 0.8%float
            (world_with (Returns [Some (lit "  Hello there.  ")]) 0)
            (log_call (request_of (lit "Say hello") 200%Z 0.8%float)
                      (world_with (Returns [Some (lit "  Hello there.  ")]) 0))
            (strip (lit "  Hello there.  ")) _).
  reflexivity.
Defined.

(** X3: a response of the service without choices, or whose first message
    has no text, does not crash the gateway: the [IndexError] or
    [AttributeError] of [response.choices[0].message.content.strip()] is
    caught like an error of the service, printed, and the fallback text is
    returned. *)
Theorem gateway_absorbs_malformed_response (prompt : str) (max_tokens : Z)
        (temperature : float) (w : world) (choices : list (option str)) :
  client w (request_of prompt max_tokens temperature) = Returns choices ->
  choices = [] \/ (exists others, choices = None :: others) ->
  exists line,
    call_openai_api prompt max_tokens temperature w
    = (Ok fallback,
       log_line (lit "OpenAI API Error: " ++ line)
                (log_call (request_of prompt max_tokens temperature) w))
    /\ (choices = [] -> line = lit "list index out of range")
    /\ (choices <> [] -> line = lit "'NoneType' object has no attribute 'strip'").
Proof.
  intros H Hc.
  unfold call_openai_api, try_except, bind, chat_completions_create.
  unfold request_of in H. rewrite H.
  destruct Hc as [->|[others ->]]; eexists; (split; [reflexivity|]).
  - split; [reflexivity | congruence].
  - split; [discriminate | reflexivity].
Qed.

Lemma gateway_absorbs_malformed_response_witness :
  exists line,
    call_openai_api (lit "Say hello") 200%Z 0.8%float silent_world
    = (Ok fallback,
       log_line (lit "OpenAI API Error: " ++ line)
                (log_call (request_of (lit "Say hello") 200%Z 0.8%float)
                          silent_world))
    /\ line = lit "list index out of range".
Proof.
  destruct (gateway_absorbs_malformed_response
              (lit "Say hello") 200%Z 0.8%float silent_world []
              eq_refl (or_introl eq_refl)) as (line & E & H & _).
  exists line. split; [exact E | exact (H eq_refl)].
Defined.

(** X4: the gateway absorbs [Exception] only.  When the service call raises
    [KeyboardInterrupt], [SystemExit] or [CancelledError], the error leaves
    [call_openai_api] as it is, after the one request, and nothing is
    printed. *)
Theorem gateway_passes_on_non_Exception (prompt : str) (max_tokens : Z)
        (temperature : float) (w : world) (cls : exn_class) (text : str) :
  client w (request_of prompt max_tokens temperature) = Raises cls text ->
  In cls [KeyboardInterrupt; SystemExit; CancelledError] ->
  call_openai_api prompt max_tokens temperature w
  = (Raise (PyErr cls text),
     log_call (request_of prompt max_tokens temperature) w)
  /\ stdout (snd (call_openai_api prompt max_tokens temperature w)) = stdout w.
Proof.
  intros H Hin.
  assert (E : call_openai_api prompt max_tokens temperature w
              = (Raise (PyErr cls text),
                 log_call (request_of prompt max_tokens temperature) w)).
  { apply (call_propagates prompt max_tokens temperature w cls text H).
    destruct Hin as [<-|[<-|[<-|[]]]]; reflexivity. }
  rewrite E. split; reflexivity.
Qed.

Lemma gateway_passes_on_non_Exception_witness :
  call_openai_api (lit "Say hello") 200%Z 0.8%float
                  (world_with (Raises KeyboardInterrupt (lit "")) 0)
  = (Raise (PyErr KeyboardInterrupt (lit "")),
     log_call (request_of (lit "Say hello") 200%Z 0.8%float)
              (world_with (Raises KeyboardInterrupt (lit "")) 0)).
Proof.
  refine (proj1 (gateway_passes_on_non_Exception
                   (lit "Say hello") 200%Z 0.8%float
                   (world_with (Raises KeyboardInterrupt (lit "")) 0)
                   KeyboardInterrupt (lit "") _ _)).
  - reflexivity.
  - left. reflexivity.
Defined.

(* ================================================================== *)
(** ** More on the riddle and ASCII handlers *)
(* ================================================================== *)

Section ParsersMore.

Local Open Scope N_scope.

Lemma ascii_line_total (st : ascii_state) (line : str) :
  exists st',
    ascii_line st line = Ok st'
    /\ (st_ascii_art st' = st_ascii_art st
        \/ (st_ascii_art st' = st_ascii_art st ++ [line]
            /\ capture_ascii st = true
            /\ ascii_marker line = false /\ answer_marker line = false))
    /\ (answer_marker line = false -> st_answer st' = st_answer st)
    /\ (ascii_marker line = false -> capture_ascii st = false ->
        capture_ascii st' = false).
Proof.
  destruct (ascii_marker line) eqn:As.
  - rewrite (ascii_line_ascii st line As). eexists. split; [reflexivity|].
    cbn [st_ascii_art st_answer capture_ascii].
    split; [left; reflexivity|]. split; [reflexivity | discriminate].
  - destruct (answer_marker line) eqn:An.
    + destruct (ascii_line_answer st line An) as (t & _ & E). rewrite E.
      eexists. split; [reflexivity|].
      cbn [st_ascii_art st_answer capture_ascii].
      split; [left; reflexivity|]. split; [discriminate | reflexivity].
    + rewrite (ascii_line_other st line As An).
      destruct st as [art ans [|]]; cbn [capture_ascii st_ascii_art st_answer];
        eexists; (split; [reflexivity|]);
        cbn [st_ascii_art st_answer capture_ascii].
      * split; [right; repeat split; reflexivity|].
        split; [reflexivity | discriminate].
      * split; [left; reflexivity|]. split; reflexivity.
Qed.

(** The loop never raises; what it adds to the art are lines of the text
    that match neither marker. *)
Lemma ascii_loop_total (lines : list str) (st : ascii_state) :
  exists st' extra,
    for_each lines ascii_line st = Ok st'
    /\ st_ascii_art st' = st_ascii_art st ++ extra
    /\ Forall (fun l => In l lines /\ ascii_marker l = false
                        /\ answer_marker l = false) extra
    /\ (Forall (fun l => answer_marker l = false) lines ->
        st_answer st' = st_answer st)
    /\ (Forall (fun l => ascii_marker l = false) lines ->
        capture_ascii st = false -> extra = []).
Proof.
  revert st; induction lines as [|l lines IH]; intros st.
  - exists st, []. split; [reflexivity|]. rewrite app_nil_r.
    split; [reflexivity|]. split; [constructor|]. split; reflexivity.
  - destruct (ascii_line_total st l) as (st1 & E1 & Hart & Hans & Hcap).
    destruct (IH st1) as (st2 & extra & E2 & Hart2 & Hex & Hans2 & Hidle).
    rewrite for_each_cons, E1, rbind_Ok.
    assert (Hex' : Forall (fun x => In x (l :: lines) /\ ascii_marker x = false
                                     /\ answer_marker x = false) extra).
    { apply Forall_forall. intros x Hx. rewrite Forall_forall in Hex.
      destruct (Hex x Hx) as (Hin & H1 & H2). split; [right; exact Hin|].
      split; assumption. }
    destruct Hart as [Hsame|(Happ & Hc & H1 & H2)].
    + exists st2, extra. split; [exact E2|].
      split; [rewrite Hart2, Hsame; reflexivity|].
      split; [exact Hex'|]. split.
      * intros HF. inversion HF; subst. rewrite Hans2, Hans; auto.
      * intros HF Hc. inversion HF; subst. apply Hidle; auto.
    + exists st2, (l :: extra). split; [exact E2|].
      split; [rewrite Hart2, Happ, <- app_assoc; reflexivity|].
      split; [constructor; [|exact Hex']; split; [left; reflexivity|];
              split; assumption|].
      split.
      * intros HF. inversion HF; subst. rewrite Hans2, Hans; auto.
      * intros _ Hc'. congruence.
Qed.

End ParsersMore.

(** X5: the two parsers never raise.  [line.split(":", 1)[1]] is reached
    only on a line whose upper-cased text starts with a keyword and its
    colon, and the upper case of a character holds a colon only when the
    character is one: the line has a colon and the index 1 is there.  So
    the riddle and ASCII handlers answer whenever the gateway does. *)
Theorem parsers_never_raise :
  (forall content : str, exists r, parse_riddle content = Ok r)
  /\ (forall content : str, exists r, parse_ascii content = Ok r)
  /\ (forall (req : RandomFunRequest.t) (w : world),
         raises_only_Exception w ->
         (exists r w', get_riddle req w = (Ok r, w'))
         /\ (exists r w', get_ascii_challenge req w = (Ok r, w'))).
Proof.
  assert (HA : forall content : str, exists r, parse_ascii content = Ok r).
  { intros content. unfold parse_ascii.
    destruct (ascii_loop_total (split nl content) (MkAscii [] (lit "") false))
      as (st & extra & E & _). rewrite E, rbind_Ok. eexists; reflexivity. }
  split; [exact parse_riddle_total|]. split; [exact HA|].
  intros req w Hw. split.
  - unfold get_riddle, bind.
    match goal with
    | |- context [call_openai_api ?p ?m ?t w] =>
        destruct (call_total p m t w Hw) as (s & w' & E & _); rewrite E
    end.
    destruct (parse_riddle_total s) as [r Hr].
    exists r, w'. unfold lift. rewrite Hr. reflexivity.
  - unfold get_ascii_challenge, bind.
    match goal with
    | |- context [call_openai_api ?p ?m ?t w] =>
        destruct (call_total p m t w Hw) as (s & w' & E & _); rewrite E
    end.
    destruct (HA s) as [r Hr].
    exists r, w'. unfold lift. rewrite Hr. reflexivity.
Qed.

Lemma parsers_never_raise_witness :
  (exists r w',
      get_riddle (RandomFunRequest.Mk default_language)
                 (world_with (Returns [Some (lit "queſtion: ﬅ")]) 0)
      = (Ok r, w'))
  /\ (exists r w',
         get_ascii_challenge (RandomFunRequest.Mk default_language) evening_world
         = (Ok r, w')).
Proof.
  split.
  - refine (proj1 (proj2 (proj2 parsers_never_raise)
                         (RandomFunRequest.Mk default_language)
                         (world_with (Returns [Some (lit "queſtion: ﬅ")]) 0) _)).
    intros req cls text H. discriminate H.
  - refine (proj2 (proj2 (proj2 parsers_never_raise)
                         (RandomFunRequest.Mk default_language)
                         evening_world _)).
    intros req cls text H. injection H as <- <-. reflexivity.
Defined.

(** X6: the art the ASCII parser returns is made of lines of the text that
    match neither ASCII: nor ANSWER:, joined by newlines; a text without an
    ASCII: line gets the empty art, a text without an ANSWER: line the empty
    answer. *)
Theorem ascii_art_is_made_of_plain_lines (content : str) :
  exists r art,
    parse_ascii content = Ok r
    /\ AsciiResponse.ascii_art r = join [nl] art
    /\ Forall (fun l => In l (split nl content)
                        /\ ascii_marker l = false /\ answer_marker l = false) art
    /\ (Forall (fun l => ascii_marker l = false) (split nl content) ->
        AsciiResponse.ascii_art r = lit "")
    /\ (Forall (fun l => answer_marker l = false) (split nl content) ->
        AsciiResponse.answer r = lit "").
Proof.
  unfold parse_ascii.
  destruct (ascii_loop_total (split nl content) (MkAscii [] (lit "") false))
    as (st & extra & E & Hart & Hex & Hans & Hidle).
  rewrite E, rbind_Ok. cbn [st_ascii_art st_answer capture_ascii] in *.
  exists (AsciiResponse.Mk (join [nl] (st_ascii_art st)) (st_answer st)), extra.
  cbn [AsciiResponse.ascii_art AsciiResponse.answer].
  simpl app in Hart. rewrite Hart.
  split; [reflexivity|]. split; [reflexivity|]. split; [exact Hex|].
  split.
  - intros HF. rewrite (Hidle HF eq_refl). reflexivity.
  - exact Hans.
Qed.

Lemma ascii_art_is_made_of_plain_lines_witness :
  exists r,
    parse_ascii (lit " /\_/\ " ++ [nl] ++ lit "( o.o )") = Ok r
    /\ AsciiResponse.ascii_art r = lit ""
    /\ AsciiResponse.answer r = lit "".
Proof.
  destruct (ascii_art_is_made_of_plain_lines
              (lit " /\_/\ " ++ [nl] ++ lit "( o.o )"))
    as (r & art & E & _ & _ & Hart & Hans).
  exists r. split; [exact E|]. split.
  - apply Hart. apply Forall_false_by_run. vm_compute; reflexivity.
  - apply Hans. apply Forall_false_by_run. vm_compute; reflexivity.
Defined.

(* ================================================================== *)
(** ** The handlers, step by step *)
(* ================================================================== *)

Section HandlerSteps.

Local Open Scope N_scope.

(** The affirmation handler after its four readings of the clock. *)
Lemma daily_affirmation_steps (req : AffirmationRequest.t) (w : world)
      (h visual color : str) :
  date_hash_of (strftime_Ymd (clock w (reads w))) = Ok h ->
  pick visuals (firstn 2 h) = Ok visual ->
  pick colors (firstn 2 (skipn 2 h)) = Ok color ->
  get_daily_affirmation req w
  = match
      call_openai_api
        (affirmation_prompt
           (if hour (clock w (S (S (S (reads w))))) <? 12 then lit "morning"
            else if hour (clock w (S (S (S (reads w))))) <? 17
                 then lit "afternoon" else lit "evening")
           (strftime_A (clock w (S (S (reads w)))))
           (AffirmationRequest.language req) h)
        150 0.7%float (tick (tick (tick (tick w))))
    with
    | (Ok text, w') =>
        (Ok (AffirmationResponse.Mk
               text visual (strftime_Ymd (clock w (S (reads w)))) color), w')
    | (Raise e, w') => (Raise e, w')
    end.
Proof.
  intros Hh Hv Hc. unfold get_daily_affirmation.
  unfold bind at 1. rewrite (get_date_hash_run w h Hh).
  unfold bind at 1. unfold now at 1.
  unfold bind at 1. unfold now at 1.
  unfold bind at 1. unfold now at 1.
  unfold bind at 1.
  cbn [tick reads clock].
  destruct (call_openai_api _ _ _ _) as [[text|e] w']; [|reflexivity].
  unfold bind, lift, ret. rewrite Hv, Hc. reflexivity.
Qed.

Lemma riddle_steps (req : RandomFunRequest.t) (w : world) :
  get_riddle req w
  = match
      call_openai_api (riddle_prompt (write_in (RandomFunRequest.language req)))
                      60 0.7%float w
    with
    | (Ok content, w') => (parse_riddle content, w')
    | (Raise e, w') => (Raise e, w')
    end.
Proof.
  unfold get_riddle, bind, lift, write_in.
  destruct (call_openai_api _ _ _ _) as [[content|e] w']; reflexivity.
Qed.

Lemma ascii_steps (req : RandomFunRequest.t) (w : world) :
  get_ascii_challenge req w
  = match
      call_openai_api (ascii_prompt (RandomFunRequest.language req))
                      150 0.6%float w
    with
    | (Ok content, w') => (parse_ascii content, w')
    | (Raise e, w') => (Raise e, w')
    end.
Proof.
  unfold get_ascii_challenge, bind, lift.
  destruct (call_openai_api _ _ _ _) as [[content|e] w']; reflexivity.
Qed.

Lemma random_fun_steps (req : RandomFunRequest.t) (w : world) (t : fun_type) :
  nth_error (fun_types (write_in (RandomFunRequest.language req)))
            (randbelow w 3) = Some t ->
  get_random_fun req w
  = match call_openai_api (ft_prompt t) 80 0.8%float w with
    | (Ok content, w') =>
        (Ok (RandomFunResponse.Mk (ft_type t) content (ft_emoji t)), w')
    | (Raise e, w') => (Raise e, w')
    end.
Proof.
  intros Ht. unfold get_random_fun, bind, choice. unfold write_in in Ht.
  change (List.length (fun_types _)) with 3%nat.
  rewrite Ht. unfold or_raise.
  destruct (call_openai_api _ _ _ _) as [[content|e] w']; reflexivity.
Qed.

Lemma random_fun_draw (lang_instruction : str) (k : nat) :
  (k < 3)%nat ->
  exists t, nth_error (fun_types lang_instruction) k = Some t
            /\ In (ft_type t, ft_emoji t)
                  [(lit "joke", lit "😄"); (lit "compliment", lit "💝");
                   (lit "art", lit "🎨")].
Proof.
  intros Hk. destruct k as [|[|[|k]]]; [| | |lia];
    (eexists; split; [reflexivity|]); simpl; auto.
Qed.

Lemma personality_steps (req : PersonalityRequest.t) (w : world) :
  strip (PersonalityRequest.input req) <> [] ->
  get_personality_insight req w
  = match
      call_openai_api
        (personality_prompt (PersonalityRequest.input req)
                            (PersonalityRequest.language req))
        300 0.7%float w
    with
    | (Ok text, w') =>
        match confidence (len (split_ws (PersonalityRequest.input req))) with
        | Ok score =>
            (Ok (PersonalityResponse.Mk
                   (fst (fst (parse_personality text)))
                   (firstn 4 (snd (parse_personality text)))
                   (snd (fst (parse_personality text)))
                   (lit "I just discovered I'm "
                        ++ snd (fst (parse_personality text))
                        ++ lit "! 🌟 What's your AI personality type?")
                   score), w')
        | Raise e => (Raise e, w')
        end
    | (Raise e, w') => (Raise e, w')
    end.
Proof.
  intros Hin. unfold get_personality_insight.
  destruct (strip (PersonalityRequest.input req)) as [|c s] eqn:Es;
    [congruence|].
  cbn [truthy negb]. unfold bind.
  destruct (call_openai_api _ _ _ _) as [[text|e] w']; [|reflexivity].
  destruct (parse_personality text) as [[insight ptype] traits].
  unfold lift, ret.
  destruct (confidence _) as [score|e]; reflexivity.
Qed.

Lemma call_when_down (prompt : str) (max_tokens : Z) (temperature : float)
      (w : world) (cls : exn_class) (text : str) :
  service_down w cls text -> is_Exception (PyErr cls text) = true ->
  call_openai_api prompt max_tokens temperature w
  = (Ok fallback,
     log_line (lit "OpenAI API Error: " ++ text)
              (log_call (request_of prompt max_tokens temperature) w)).
Proof.
  intros Hd He.
  exact (call_raises prompt max_tokens temperature w cls text (Hd _) He).
Qed.

End HandlerSteps.

Section Footprint.

Lemma call_log (prompt : str) (max_tokens : Z) (temperature : float) (w : world) :
  api_log (snd (call_openai_api prompt max_tokens temperature w))
  = api_log w ++ [request_of prompt max_tokens temperature]
  /\ reads (snd (call_openai_api prompt max_tokens temperature w)) = reads w.
Proof.
  destruct (call_cases prompt max_tokens temperature w)
    as [(text & others & _ & E)|[(line & E)|(cls & text & _ & E)]];
    rewrite E; split; reflexivity.
Qed.

Lemma snd_match_call {A B : Type} (r : result A * world)
      (k : A -> result B) :
  snd (match r with
       | (Ok a, w') => (k a, w')
       | (Raise e, w') => (Raise e, w')
       end) = snd r.
Proof. destruct r as [[a|e] w']; reflexivity. Qed.

End Footprint.

(** X7: when the service is out of order (every request raises an
    [Exception]), the riddle handler still answers: the question is the
    fallback text and the answer is empty; and the ASCII handler answers
    with an empty art and an empty answer, the fallback text being lost. *)
Theorem parsing_handlers_when_service_is_down (req : RandomFunRequest.t)
        (w : world) (cls : exn_class) (text : str) :
  service_down w cls text -> is_Exception (PyErr cls text) = true ->
  fst (get_riddle req w) = Ok (RiddleResponse.Mk fallback (lit ""))
  /\ fst (get_ascii_challenge req w) = Ok (AsciiResponse.Mk (lit "") (lit "")).
Proof.
  intros Hd He. split.
  - rewrite riddle_steps, (call_when_down _ _ _ w cls text Hd He).
    vm_compute. reflexivity.
  - rewrite ascii_steps, (call_when_down _ _ _ w cls text Hd He).
    vm_compute. reflexivity.
Qed.

Lemma parsing_handlers_when_service_is_down_witness :
  fst (get_riddle (RandomFunRequest.Mk default_language) evening_world)
  = Ok (RiddleResponse.Mk fallback (lit ""))
  /\ fst (get_ascii_challenge (RandomFunRequest.Mk default_language) evening_world)
     = Ok (AsciiResponse.Mk (lit "") (lit "")).
Proof.
  refine (parsing_handlers_when_service_is_down
            (RandomFunRequest.Mk default_language) evening_world
            APIStatusError (lit "Error code: 503") _ _).
  - intros req. reflexivity.
  - reflexivity.
Defined.

(** X8: when the service is out of order, the affirmation handler answers
    with the fallback text as affirmation, and the random-fun handler with
    the fallback text as content under the type and emoji of the template
    drawn: a failure looks like a success to the client. *)
Theorem content_handlers_when_service_is_down (w : world) (cls : exn_class)
        (text : str) :
  service_down w cls text -> is_Exception (PyErr cls text) = true ->
  (forall req : AffirmationRequest.t,
      exists r, fst (get_daily_affirmation req w) = Ok r
                /\ AffirmationResponse.affirmation r = fallback)
  /\ (forall req : RandomFunRequest.t,
         (randbelow w 3 < 3)%nat ->
         exists r, fst (get_random_fun req w) = Ok r
                   /\ RandomFunResponse.content r = fallback
                   /\ In (RandomFunResponse.type r, RandomFunResponse.emoji r)
                         [(lit "joke", lit "😄"); (lit "compliment", lit "💝");
                          (lit "art", lit "🎨")]).
Proof.
  intros Hd He. split.
  - intros req.
    destruct (seed_and_picks w)
      as (h & i & j & visual & color & Hh & _ & _ & _ & _ & Pv & _ & Pc & _).
    rewrite (daily_affirmation_steps req w h visual color Hh Pv Pc).
    rewrite (call_when_down _ _ _ (tick (tick (tick (tick w)))) cls text);
      [|intros r; exact (Hd r) | exact He].
    eexists. split; reflexivity.
  - intros req Hdraw.
    destruct (random_fun_draw (write_in (RandomFunRequest.language req))
                              (randbelow w 3) Hdraw) as (t & Ht & Hin).
    rewrite (random_fun_steps req w t Ht).
    rewrite (call_when_down _ _ _ w cls text Hd He).
    eexists. split; [reflexivity|]. split; [reflexivity | exact Hin].
Qed.

Lemma content_handlers_when_service_is_down_witness :
  exists r,
    fst (get_daily_affirmation (AffirmationRequest.Mk default_language)
                               evening_world) = Ok r
    /\ AffirmationResponse.affirmation r = fallback.
Proof.
  refine (proj1 (content_handlers_when_service_is_down
                   evening_world APIStatusError (lit "Error code: 503") _ _)
                (AffirmationRequest.Mk default_language)).
  - intros req. reflexivity.
  - reflexivity.
Defined.

(** X9: when the service is out of order, the personality handler answers
    a non-blank input with the fallback text as insight, the default type
    "The Unique Soul", the three default traits and the share text built on
    the default type. *)
Theorem personality_when_service_is_down (req : PersonalityRequest.t)
        (w : world) (cls : exn_class) (text : str) (x : float) :
  service_down w cls text -> is_Exception (PyErr cls text) = true ->
  strip (PersonalityRequest.input req) <> [] ->
  int_to_float (len (split_ws (PersonalityRequest.input req))) = Ok x ->
  fst (get_personality_insight req w)
  = Ok (PersonalityResponse.Mk
          fallback
          [lit "Creative"; lit "Thoughtful"; lit "Inspiring"]
          (lit "The Unique Soul")
          (lit "I just discovered I'm The Unique Soul! 🌟 What's your AI personality type?")
          (Rt.min 0.95%float (0.6 + x * 0.05)%float)).
Proof.
  intros Hd He Hin Hx.
  rewrite (personality_steps req w Hin).
  rewrite (call_when_down _ _ _ w cls text Hd He).
  unfold confidence. rewrite Hx, rbind_Ok.
  assert (P : parse_personality fallback
              = (fallback, lit "The Unique Soul",
                 [lit "Creative"; lit "Thoughtful"; lit "Inspiring"]))
    by (vm_compute; reflexivity).
  rewrite P. cbn [fst snd firstn].
  assert (S : lit "I just discovered I'm " ++ lit "The Unique Soul"
                  ++ lit "! 🌟 What's your AI personality type?"
              = lit "I just discovered I'm The Unique Soul! 🌟 What's your AI personality type?")
    by (vm_compute; reflexivity).
  rewrite S. reflexivity.
Qed.

Lemma personality_when_service_is_down_witness :
  fst (get_personality_insight
         (PersonalityRequest.Mk (lit "I like tea") default_language None)
         evening_world)
  = Ok (PersonalityResponse.Mk
          fallback
          [lit "Creative"; lit "Thoughtful"; lit "Inspiring"]
          (lit "The Unique Soul")
          (lit "I just discovered I'm The Unique Soul! 🌟 What's your AI personality type?")
          (Rt.min 0.95%float (0.6 + 3 * 0.05)%float)).
Proof.
  refine (personality_when_service_is_down
            (PersonalityRequest.Mk (lit "I like tea") default_language None)
            evening_world APIStatusError (lit "Error code: 503") 3%float
            _ _ _ _).
  - intros req. reflexivity.
  - reflexivity.
  - vm_compute. discriminate.
  - vm_compute. reflexivity.
Defined.

(** X10: the riddle, ASCII, random-fun and personality handlers call the
    service exactly once, with their own prompt, max_tokens and temperature
    (60 and 0.7, 150 and 0.6, 80 and 0.8, 300 and 0.7), and never read the
    clock, whether the call succeeds or not. *)
Theorem handlers_call_the_service_once (w : world) :
  (forall req : RandomFunRequest.t,
      api_log (snd (get_riddle req w))
      = api_log w
        ++ [request_of (riddle_prompt (write_in (RandomFunRequest.language req)))
                       60 0.7%float]
      /\ reads (snd (get_riddle req w)) = reads w)
  /\ (forall req : RandomFunRequest.t,
         api_log (snd (get_ascii_challenge req w))
         = api_log w
           ++ [request_of (ascii_prompt (RandomFunRequest.language req))
                          150 0.6%float]
         /\ reads (snd (get_ascii_challenge req w)) = reads w)
  /\ (forall (req : RandomFunRequest.t) (t : fun_type),
         nth_error (fun_types (write_in (RandomFunRequest.language req)))
                   (randbelow w 3) = Some t ->
         api_log (snd (get_random_fun req w))
         = api_log w ++ [request_of (ft_prompt t) 80 0.8%float]
         /\ reads (snd (get_random_fun req w)) = reads w)
  /\ (forall req : PersonalityRequest.t,
         strip (PersonalityRequest.input req) <> [] ->
         api_log (snd (get_personality_insight req w))
         = api_log w
           ++ [request_of (personality_prompt (PersonalityRequest.input req)
                                              (PersonalityRequest.language req))
                          300 0.7%float]
         /\ reads (snd (get_personality_insight req w)) = reads w).
Proof.
  split; [|split; [|split]].
  - intros req. rewrite riddle_steps, snd_match_call. apply call_log.
  - intros req. rewrite ascii_steps, snd_match_call. apply call_log.
  - intros req t Ht. rewrite (random_fun_steps req w t Ht).
    rewrite (snd_match_call _ (fun content =>
               Ok (RandomFunResponse.Mk (ft_type t) content (ft_emoji t)))).
    apply call_log.
  - intros req Hin. rewrite (personality_steps req w Hin).
    match goal with
    | |- context [call_openai_api ?p ?m ?t w] =>
        pose proof (call_log p m t w) as H;
          destruct (call_openai_api p m t w) as [[text|e] w']
    end; [|exact H].
    destruct (confidence _); exact H.
Qed.

Lemma handlers_call_the_service_once_witness :
  api_log (snd (get_personality_insight
                  (PersonalityRequest.Mk (lit "I like tea") default_language None)
                  evening_world))
  = api_log evening_world
    ++ [request_of (personality_prompt (lit "I like tea") default_language)
                   300 0.7%float].
Proof.
  refine (proj1 (proj2 (proj2 (proj2 (handlers_call_the_service_once evening_world)))
                       (PersonalityRequest.Mk (lit "I like tea") default_language None)
                       _)).
  vm_compute. discriminate.
Defined.

(** X11: the affirmation handler reads the clock four times and calls the
    service once.  The seed comes from the first reading, the [date] of the
    reply from the second, the weekday of the prompt from the third and its
    time of day from the fourth (morning before 12, afternoon before 17,
    evening after); so around midnight the reply can carry the date of one
    day and the decoration of the day before. *)
Theorem affirmation_reads_the_clock_four_times (req : AffirmationRequest.t)
        (w : world) :
  exists h,
    date_hash_of (strftime_Ymd (clock w (reads w))) = Ok h
    /\ reads (snd (get_daily_affirmation req w)) = S (S (S (S (reads w))))
    /\ api_log (snd (get_daily_affirmation req w))
       = api_log w
         ++ [request_of
               (affirmation_prompt
                  (if (hour (clock w (S (S (S (reads w))))) <? 12)%N
                   then lit "morning"
                   else if (hour (clock w (S (S (S (reads w))))) <? 17)%N
                        then lit "afternoon" else lit "evening")
                  (strftime_A (clock w (S (S (reads w)))))
                  (AffirmationRequest.language req) h)
               150 0.7%float]
    /\ (forall r, fst (get_daily_affirmation req w) = Ok r ->
                  AffirmationResponse.date r = strftime_Ymd (clock w (S (reads w)))).
Proof.
  destruct (seed_and_picks w)
    as (h & i & j & visual & color & Hh & _ & _ & _ & _ & Pv & _ & Pc & _).
  exists h. split; [exact Hh|].
  rewrite (daily_affirmation_steps req w h visual color Hh Pv Pc).
  match goal with
  | |- context [call_openai_api ?p ?m ?t ?w0] =>
      destruct (call_log p m t w0) as [Hlog Hreads];
        destruct (call_openai_api p m t w0) as [[text|e] w']
  end; cbn [fst snd] in *.
  - split; [exact Hreads|]. split; [exact Hlog|].
    intros r Hr. injection Hr as <-. reflexivity.
  - split; [exact Hreads|]. split; [exact Hlog|].
    intros r Hr. discriminate Hr.
Qed.

Lemma affirmation_reads_the_clock_four_times_witness :
  exists r,
    fst (get_daily_affirmation (AffirmationRequest.Mk default_language)
                               midnight_world) = Ok r
    /\ date_hash_of (lit "2026-11-04") = Ok (lit "82bab43b")
    /\ AffirmationResponse.visual_element r = lit "🌅"
    /\ AffirmationResponse.date r = lit "2026-11-05".
Proof.
  destruct (affirmation_reads_the_clock_four_times
              (AffirmationRequest.Mk default_language) midnight_world)
    as (h & Hh & _ & _ & Hdate).
  assert (E : exists r,
             fst (get_daily_affirmation (AffirmationRequest.Mk default_language)
                                        midnight_world) = Ok r
             /\ AffirmationResponse.visual_element r = lit "🌅").
  { vm_compute. eexists. split; reflexivity. }
  destruct E as (r & Er & Hv).
  exists r. split; [exact Er|]. split; [vm_compute; reflexivity|].
  split; [exact Hv|].
  rewrite (Hdate r Er). vm_compute. reflexivity.
Defined.

(** X12: the personality handler answers 400 exactly when the input is
    empty or all blanks; every other error it passes on is an error of the
    interpreter or of the service, never an [HTTPException]. *)
Theorem personality_400_only_for_blank_input (req : PersonalityRequest.t)
        (w : world) :
  (exists code detail,
      fst (get_personality_insight req w) = Raise (HTTPException code detail))
  <-> Forall (fun c => isspace c = true) (PersonalityRequest.input req).
Proof.
  split.
  - intros (code & detail & H).
    destruct (strip (PersonalityRequest.input req)) as [|c s] eqn:Es;
      [exact (strip_nil _ Es)|].
    exfalso. rewrite personality_steps in H by (rewrite Es; discriminate).
    match type of H with
    | context [call_openai_api ?p ?m ?t w] =>
        destruct (call_cases p m t w)
          as [(text & others & _ & E)|[(line & E)|(cls & text & _ & E)]];
          rewrite E in H
    end; cbn [fst] in H; try discriminate H.
    + unfold confidence, int_to_float in H.
      destruct (binary_normalize _ _ _ _ _); discriminate H.
    + unfold confidence, int_to_float in H.
      destruct (binary_normalize _ _ _ _ _); discriminate H.
  - intros H. exists 400%N, (lit "Input cannot be empty").
    unfold get_personality_insight. rewrite (strip_blank _ H). reflexivity.
Qed.

(** X13: the traits of a personality reply are at most four, and none is
    empty or has blanks around it, whatever the service wrote after
    TRAITS:. *)
Theorem personality_traits_are_clean (req : PersonalityRequest.t)
        (w w' : world) (resp : PersonalityResponse.t) :
  get_personality_insight req w = (Ok resp, w') ->
  (List.length (PersonalityResponse.traits resp) <= 4)%nat
  /\ Forall clean_trait (PersonalityResponse.traits resp).
Proof.
  intros H.
  assert (Hin : strip (PersonalityRequest.input req) <> []).
  { intros Hs. unfold get_personality_insight in H. rewrite Hs in H.
    discriminate H. }
  rewrite (personality_steps req w Hin) in H.
  destruct (call_openai_api _ _ _ _) as [[text|e] w1]; [|discriminate H].
  destruct (confidence _) as [score|e]; [|discriminate H].
  assert (Hr : PersonalityResponse.traits resp
               = firstn 4 (snd (parse_personality text)))
    by (injection H as <- _; reflexivity).
  rewrite Hr. clear H Hr.
  split; [apply firstn_le_length|].
  cut (Forall clean_trait (snd (parse_personality text))).
  { intros HF. rewrite <- (firstn_skipn 4 (snd (parse_personality text))) in HF.
    apply Forall_app in HF. exact (proj1 HF). }
  unfold parse_personality.
  assert (Hline : forall st line,
             Forall clean_trait (snd st) ->
             Forall clean_trait (snd (personality_line st line))).
  { intros [[i t] tr] line Htr. unfold personality_line.
    destruct (startswith line (lit "INSIGHT:")); [exact Htr|].
    destruct (startswith line (lit "TYPE:")); [exact Htr|].
    destruct (startswith line (lit "TRAITS:")); [|exact Htr].
    cbn [snd]. apply Forall_forall. intros y Hy.
    apply in_map_iff in Hy as (x & <- & Hx).
    apply filter_In in Hx as [_ Hx]. split.
    - destruct (strip x); [discriminate Hx | discriminate].
    - apply strip_idem. }
  assert (Hloop : forall lines st,
             Forall clean_trait (snd st) ->
             Forall clean_trait (snd (fold_left personality_line lines st))).
  { induction lines as [|l lines IH]; intros st Hst; [exact Hst|].
    simpl. apply IH, Hline, Hst. }
  apply Hloop. cbn [snd]. unfold default_traits.
  repeat (constructor;
          [split; [intros E; vm_compute in E; discriminate E
                  | vm_compute; reflexivity]|]).
  constructor.
Qed.

Lemma personality_traits_are_clean_witness :
  exists resp w',
    get_personality_insight
      (PersonalityRequest.Mk (lit "I like tea") default_language None)
      (world_with
         (Returns [Some (lit "TRAITS:  wise ,, kind,  , bold, calm , extra,")])
         0)
    = (Ok resp, w')
    /\ PersonalityResponse.traits resp
       = [lit "wise"; lit "kind"; lit "bold"; lit "calm"]
    /\ Forall clean_trait (PersonalityResponse.traits resp).
Proof.
  assert (E : exists resp w',
             get_personality_insight
               (PersonalityRequest.Mk (lit "I like tea") default_language None)
               (world_with
                  (Returns [Some (lit "TRAITS:  wise ,, kind,  , bold, calm , extra,")])
                  0)
             = (Ok resp, w')
             /\ PersonalityResponse.traits resp
                = [lit "wise"; lit "kind"; lit "bold"; lit "calm"]).
  { vm_compute. eexists _, _. split; reflexivity. }
  destruct E as (resp & w' & E & Ht).
  exists resp, w'. split; [exact E|]. split; [exact Ht|].
  exact (proj2 (personality_traits_are_clean _ _ _ _ E)).
Defined.

(** X14: the confidence of a personality reply never exceeds 0.95: it is
    0.95 or a float below it. *)
Theorem personality_confidence_is_capped (req : PersonalityRequest.t)
        (w w' : world) (resp : PersonalityResponse.t) :
  get_personality_insight req w = (Ok resp, w') ->
  PersonalityResponse.confidence_score resp = 0.95%float
  \/ PrimFloat.ltb (PersonalityResponse.confidence_score resp) 0.95%float = true.
Proof.
  intros H.
  assert (Hin : strip (PersonalityRequest.input req) <> []).
  { intros Hs. unfold get_personality_insight in H. rewrite Hs in H.
    discriminate H. }
  rewrite (personality_steps req w Hin) in H.
  destruct (call_openai_api _ _ _ _) as [[text|e] w1]; [|discriminate H].
  unfold confidence in H.
  destruct (int_to_float _) as [x|e]; [|discriminate H].
  rewrite rbind_Ok in H. injection H as <- _.
  cbn [PersonalityResponse.confidence_score]. unfold Rt.min.
  destruct (PrimFloat.ltb (0.6 + x * 0.05) 0.95) eqn:E;
    [right; exact E | left; reflexivity].
Qed.

Lemma personality_confidence_is_capped_witness :
  exists resp w',
    get_personality_insight
      (PersonalityRequest.Mk (lit "I like tea") default_language None)
      (world_with (Returns [Some (lit "INSIGHT: calm")]) 0)
    = (Ok resp, w')
    /\ PrimFloat.ltb (PersonalityResponse.confidence_score resp) 0.95%float = true.
Proof.
  assert (E : exists resp w',
             get_personality_insight
               (PersonalityRequest.Mk (lit "I like tea") default_language None)
               (world_with (Returns [Some (lit "INSIGHT: calm")]) 0)
             = (Ok resp, w')
             /\ PersonalityResponse.confidence_score resp = 0.75%float).
  { vm_compute. eexists _, _. split; reflexivity. }
  destruct E as (resp & w' & E & Hs).
  exists resp, w'. split; [exact E|].
  destruct (personality_confidence_is_capped _ _ _ _ E) as [H|H]; [|exact H].
  rewrite Hs in H. vm_compute in H. discriminate H.
Defined.

(** X15: the optional [context] of a personality request is never read:
    two requests that differ in it alone are answered alike, and the same
    request goes to the service. *)
Theorem personality_ignores_context (input : str) (language c1 c2 : option str)
        (w : world) :
  get_personality_insight (PersonalityRequest.Mk input language c1) w
  = get_personality_insight (PersonalityRequest.Mk input language c2) w.
Proof. reflexivity. Qed.

(* ================================================================== *)
(** ** Indented lines, and the lines of the personality format *)
(* ================================================================== *)

Section Indentation.

Local Open Scope N_scope.

Lemma isspace_cases (c : char) :
  isspace c = true ->
  c < 256 \/ In c [0x1680; 0x2000; 0x2001; 0x2002; 0x2003; 0x2004; 0x2005;
                   0x2006; 0x2007; 0x2008; 0x2009; 0x200A; 0x2028; 0x2029;
                   0x202F; 0x205F; 0x3000].
Proof.
  unfold isspace.
  rewrite !orb_true_iff, !andb_true_iff, !N.leb_le, !N.eqb_eq.
  intros H. simpl In. lia.
Qed.

(** A blank is its own upper case. *)
Lemma space_upper (c : char) : isspace c = true -> upper_char c = [c].
Proof.
  intros H. destruct (isspace_cases c H) as [Hb|Hin].
  - assert (P : negb (isspace c) || str_eqb (upper_char c) [c] = true).
    { apply (forall_below
               (fun c => negb (isspace c) || str_eqb (upper_char c) [c]) 256);
        [vm_compute; reflexivity | exact Hb]. }
    rewrite H in P. simpl in P. apply str_eqb_eq. exact P.
  - simpl in Hin. decompose [or] Hin; subst; try contradiction;
      vm_compute; reflexivity.
Qed.

Lemma blank_start_no_keyword (c : char) (rest kw : str) (k : char) (kw' : str) :
  isspace c = true -> kw = k :: kw' -> isspace k = false ->
  startswith (upper (c :: rest)) kw = false.
Proof.
  intros Hc -> Hk.
  change (upper (c :: rest)) with (upper_char c ++ upper rest).
  rewrite (space_upper c Hc). simpl.
  destruct (c =? k) eqn:E; [|reflexivity].
  apply N.eqb_eq in E. subst k. congruence.
Qed.

Lemma partition_app_l (sep : char) (p s a b : str) :
  ~ In sep p -> partition sep s = Some (a, b) ->
  partition sep (p ++ s) = Some (p ++ a, b).
Proof.
  intros Hn Hs. induction p as [|c p IH]; [exact Hs|].
  simpl. destruct (c =? sep) eqn:E.
  - apply N.eqb_eq in E. exfalso. apply Hn. left. exact E.
  - rewrite IH; [reflexivity|]. intros H. apply Hn. right. exact H.
Qed.

Lemma blanks_no_colon (ws : str) :
  Forall (fun c => isspace c = true) ws -> ~ In colon ws.
Proof.
  intros H Hin. rewrite Forall_forall in H. specialize (H colon Hin).
  vm_compute in H. discriminate H.
Qed.

Lemma strip_app_blank (ws s : str) :
  Forall (fun c => isspace c = true) ws -> strip (ws ++ s) = strip s.
Proof.
  intros H. unfold strip. rewrite (lstrip_app_blank ws s H). reflexivity.
Qed.

End Indentation.

(** X16: the riddle parser tests the line as it is, the ASCII parser the
    stripped line.  So a line that starts with a blank is never a QUESTION:
    or ANSWER: line of the riddle parser, which leaves question and answer
    as they were; while blanks before ASCII: or ANSWER: change nothing for
    the ASCII parser, which treats the indented line as the plain one. *)
Theorem indented_keyword_lines :
  (forall (c : char) (rest : str) (qa : str * str),
      isspace c = true -> riddle_line qa (c :: rest) = Ok qa)
  /\ (forall (ws line : str) (st : ascii_state),
         Forall (fun c => isspace c = true) ws ->
         ascii_marker line = true \/ answer_marker line = true ->
         ascii_line st (ws ++ line) = ascii_line st line).
Proof.
  split.
  - intros c rest [q a] Hc. unfold riddle_line.
    rewrite (blank_start_no_keyword c rest (lit "QUESTION:") 81%N
                                    (lit "UESTION:") Hc eq_refl eq_refl).
    rewrite (blank_start_no_keyword c rest (lit "ANSWER:") 65%N
                                    (lit "NSWER:") Hc eq_refl eq_refl).
    reflexivity.
  - intros ws line st Hws Hm. unfold ascii_line.
    rewrite (strip_app_blank ws line Hws).
    fold (ascii_marker line) (answer_marker line).
    destruct (ascii_marker line) eqn:As; [reflexivity|].
    destruct Hm as [Hm|Hm]; [discriminate Hm|]. rewrite Hm.
    assert (Hin : In colon line).
    { unfold answer_marker in Hm. apply startswith_app in Hm as [r Hr].
      apply strip_incl, upper_colon. rewrite Hr. vm_compute. tauto. }
    destruct (partition_In colon line Hin) as (x & y & Hp).
    unfold after_colon, split1.
    rewrite (partition_app_l colon ws line x y (blanks_no_colon ws Hws) Hp), Hp.
    reflexivity.
Qed.

Lemma indented_keyword_lines_witness :
  riddle_line (lit "raw", lit "") (lit " QUESTION: Why?") = Ok (lit "raw", lit "")
  /\ ascii_line (MkAscii [] (lit "") true) (lit "  " ++ lit "ANSWER: Cat")
     = ascii_line (MkAscii [] (lit "") true) (lit "ANSWER: Cat").
Proof.
  split.
  - refine (proj1 indented_keyword_lines 32%N (lit "QUESTION: Why?")
                  (lit "raw", lit "") _).
    reflexivity.
  - refine (proj2 indented_keyword_lines (lit "  ") (lit "ANSWER: Cat")
                  (MkAscii [] (lit "") true) _ _).
    + apply Forall_forall. intros c Hc. vm_compute in Hc.
      decompose [or] Hc; subst; try reflexivity; contradiction.
    + right. vm_compute. reflexivity.
Defined.

Section ReplaceFacts.

Lemma replace_go_absent (old new s : str) :
  ~ occurs old s -> replace_go old new 0 s = s.
Proof.
  induction s as [|c s IH]; intros Hn; [reflexivity|].
  simpl replace_go.
  destruct (startswith (c :: s) old) eqn:E.
  - exfalso. apply Hn. apply startswith_app in E as [r Hr].
    exists [], r. exact Hr.
  - f_equal. apply IH. intros (a & b & Hab). apply Hn.
    exists (c :: a), b. rewrite Hab. reflexivity.
Qed.

Lemma replace_go_skip (old new p rest : str) :
  replace_go old new (List.length p) (p ++ rest) = replace_go old new 0 rest.
Proof. induction p as [|c p IH]; [reflexivity | exact IH]. Qed.

(** Removing a keyword from a line that starts with it and does not hold
    it again leaves the rest of the line. *)
Lemma replace_prefix (old rest : str) :
  old <> [] -> ~ occurs old rest -> replace (old ++ rest) old [] = rest.
Proof.
  intros Hne Hn. destruct old as [|c old']; [congruence|].
  unfold replace. cbn [app]. cbn [replace_go].
  change (c :: old' ++ rest) with ((c :: old') ++ rest).
  rewrite startswith_prefix. cbn [app List.length].
  replace (S (List.length old') - 1)%nat with (List.length old') by lia.
  rewrite replace_go_skip. apply replace_go_absent. exact Hn.
Qed.

End ReplaceFacts.

(** X17: what a well-formed line of the personality format gives.  A line
    INSIGHT: followed by a text that does not hold INSIGHT: again sets the
    insight to that text, stripped, and nothing else; likewise TYPE: sets
    the type; and TRAITS: sets the traits to the comma-separated pieces of
    the text, each stripped, the empty ones dropped. *)
Theorem personality_keyword_lines (i t : str) (tr : list str) (rest : str) :
  (~ occurs (lit "INSIGHT:") rest ->
   personality_line (i, t, tr) (lit "INSIGHT:" ++ rest) = (strip rest, t, tr))
  /\ (~ occurs (lit "TYPE:") rest ->
      personality_line (i, t, tr) (lit "TYPE:" ++ rest) = (i, strip rest, tr))
  /\ (~ occurs (lit "TRAITS:") rest ->
      personality_line (i, t, tr) (lit "TRAITS:" ++ rest)
      = (i, t, map strip (filter (fun x => truthy (strip x)) (split comma rest)))).
Proof.
  split; [|split]; intros Hn; unfold personality_line.
  - rewrite startswith_prefix, replace_prefix;
      [reflexivity | intros E; vm_compute in E; discriminate E | exact Hn].
  - assert (E1 : startswith (lit "TYPE:" ++ rest) (lit "INSIGHT:") = false)
      by (vm_compute; reflexivity).
    rewrite E1, startswith_prefix, replace_prefix;
      [reflexivity | intros E; vm_compute in E; discriminate E | exact Hn].
  - assert (E1 : startswith (lit "TRAITS:" ++ rest) (lit "INSIGHT:") = false)
      by (vm_compute; reflexivity).
    assert (E2 : startswith (lit "TRAITS:" ++ rest) (lit "TYPE:") = false)
      by (vm_compute; reflexivity).
    rewrite E1, E2, startswith_prefix, replace_prefix;
      [reflexivity | intros E; vm_compute in E; discriminate E | exact Hn].
Qed.

Lemma personality_keyword_lines_witness :
  personality_line (lit "raw", lit "The Unique Soul", [])
                   (lit "TRAITS:" ++ lit " wise, ,kind ")
  = (lit "raw", lit "The Unique Soul",
     map strip (filter (fun x => truthy (strip x)) (split comma (lit " wise, ,kind ")))).
Proof.
  refine (proj2 (proj2 (personality_keyword_lines
                          (lit "raw") (lit "The Unique Soul") []
                          (lit " wise, ,kind "))) _).
  intros (a & b & E).
  assert (H : In colon (lit " wise, ,kind ")).
  { rewrite E. apply in_or_app. right. apply in_or_app. left.
    vm_compute. tauto. }
  vm_compute in H. decompose [or] H; try discriminate; contradiction.
Defined.

(* ================================================================== *)
(** ** Start-up and test_env.py *)
(* ================================================================== *)

(** X18: main.py starts exactly when [OPENAI_API_KEY] is set to a
    non-empty string, and stops with the [ValueError] otherwise: an empty
    key counts as a missing one.  test_env.py agrees: it prints the
    "loaded" line, the first ten characters and the length of the key when
    main.py would start, and "not found" when it would not. *)
Theorem startup_needs_a_non_empty_key (env : environ) :
  (forall key,
      init_client env = Ok key ->
      key <> [] /\ env (lit "OPENAI_API_KEY") = Some key
      /\ firstn 3 (test_env env)
         = [ lit "✅ API Key loaded successfully!";
             lit "Key starts with: " ++ firstn 10 key ++ lit "...";
             lit "Key length: " ++ decimal (N.of_nat (List.length key))
                 ++ lit " characters" ]
      /\ List.length (test_env env) = 5%nat)
  /\ (forall e,
         init_client env = Raise e ->
         e = PyErr ValueError (lit "❌ OPENAI_API_KEY not set in .env file")
         /\ (env (lit "OPENAI_API_KEY") = None
             \/ env (lit "OPENAI_API_KEY") = Some [])
         /\ firstn 1 (test_env env) = [lit "❌ API Key not found!"]
         /\ List.length (test_env env) = 3%nat).
Proof.
  unfold init_client, test_env.
  destruct (env (lit "OPENAI_API_KEY")) as [[|c key]|]; cbn [key_truthy negb];
    split; intros x H; try discriminate H.
  - injection H as <-. split; [reflexivity|]. split; [right; reflexivity|].
    split; reflexivity.
  - injection H as <-. split; [discriminate|]. split; [reflexivity|].
    split; reflexivity.
  - injection H as <-. split; [reflexivity|]. split; [left; reflexivity|].
    split; reflexivity.
Qed.

Lemma startup_needs_a_non_empty_key_witness :
  init_client (env_with_key (lit "")) 
  = Raise (PyErr ValueError (lit "❌ OPENAI_API_KEY not set in .env file"))
  /\ firstn 1 (test_env (env_with_key (lit ""))) = [lit "❌ API Key not found!"].
Proof.
  destruct (proj2 (startup_needs_a_non_empty_key (env_with_key (lit "")))
                  (PyErr ValueError (lit "❌ OPENAI_API_KEY not set in .env file")))
    as (_ & _ & H & _); [vm_compute; reflexivity|].
  split; [vm_compute; reflexivity | exact H].
Defined.

(** X19: test_env.py shows of the key its first ten characters and its
    length, nothing more: two environments whose keys agree on these, and
    which agree on ENVIRONMENT and DEBUG, print the same lines. *)
Theorem test_env_shows_ten_characters (env1 env2 : environ) (k1 k2 : str) :
  env1 (lit "OPENAI_API_KEY") = Some k1 ->
  env2 (lit "OPENAI_API_KEY") = Some k2 ->
  firstn 10 k1 = firstn 10 k2 ->
  List.length k1 = List.length k2 ->
  env1 (lit "ENVIRONMENT") = env2 (lit "ENVIRONMENT") ->
  env1 (lit "DEBUG") = env2 (lit "DEBUG") ->
  test_env env1 = test_env env2.
Proof.
  intros H1 H2 Hp Hl He Hd. unfold test_env, getenv.
  rewrite H1, H2, He, Hd, Hp, Hl.
  destruct k1 as [|c1 r1], k2 as [|c2 r2]; try discriminate Hl; reflexivity.
Qed.

Lemma test_env_shows_ten_characters_witness :
  test_env (env_with_key (lit "sk-proj-AAAAAAAAAAAA"))
  = test_env (env_with_key (lit "sk-proj-AABBBBBBBBBB")).
Proof.
  refine (test_env_shows_ten_characters
            (env_with_key (lit "sk-proj-AAAAAAAAAAAA"))
            (env_with_key (lit "sk-proj-AABBBBBBBBBB"))
            (lit "sk-proj-AAAAAAAAAAAA") (lit "sk-proj-AABBBBBBBBBB")
            _ _ _ _ _ _); vm_compute; reflexivity.
Defined.

(* ================================================================== *)
(** ** Blanks around the fields of a reply *)
(* ================================================================== *)

Section StrippedFields.

Lemma call_text_stripped (prompt : str) (max_tokens : Z) (temperature : float)
      (w w' : world) (s : str) :
  call_openai_api prompt max_tokens temperature w = (Ok s, w') -> strip s = s.
Proof.
  intros H.
  destruct (call_cases prompt max_tokens temperature w)
    as [(text & others & _ & E)|[(line & E)|(cls & text & _ & E)]];
    rewrite E in H.
  - injection H as <- _. apply strip_idem.
  - injection H as <- _. vm_compute. reflexivity.
  - discriminate H.
Qed.

Lemma after_colon_stripped (line t : str) :
  after_colon line = Ok t -> strip t = t.
Proof.
  unfold after_colon. destruct (getitem _ _) as [rest|e]; [|discriminate].
  rewrite rbind_Ok. intros H. injection H as <-. apply strip_idem.
Qed.

Lemma riddle_line_stripped (qa qa' : str * str) (line : str) :
  riddle_line qa line = Ok qa' ->
  strip (fst qa) = fst qa /\ strip (snd qa) = snd qa ->
  strip (fst qa') = fst qa' /\ strip (snd qa') = snd qa'.
Proof.
  destruct qa as [q a]. unfold riddle_line. intros H [Hq Ha].
  destruct (startswith (upper line) (lit "QUESTION:")).
  - destruct (after_colon line) as [t|e] eqn:E; [|discriminate H].
    rewrite rbind_Ok in H. injection H as <-.
    split; [exact (after_colon_stripped line t E) | exact Ha].
  - destruct (startswith (upper line) (lit "ANSWER:")).
    + destruct (after_colon line) as [t|e] eqn:E; [|discriminate H].
      rewrite rbind_Ok in H. injection H as <-.
      split; [exact Hq | exact (after_colon_stripped line t E)].
    + injection H as <-. split; assumption.
Qed.

Lemma riddle_loop_stripped (lines : list str) (qa qa' : str * str) :
  for_each lines riddle_line qa = Ok qa' ->
  strip (fst qa) = fst qa /\ strip (snd qa) = snd qa ->
  strip (fst qa') = fst qa' /\ strip (snd qa') = snd qa'.
Proof.
  revert qa; induction lines as [|l lines IH]; intros qa H Hqa.
  - injection H as <-. exact Hqa.
  - rewrite for_each_cons in H.
    destruct (riddle_line qa l) as [qa1|e] eqn:E; [|discriminate H].
    rewrite rbind_Ok in H.
    exact (IH qa1 H (riddle_line_stripped qa qa1 l E Hqa)).
Qed.

Lemma ascii_loop_answer_stripped (lines : list str) (st st' : ascii_state) :
  for_each lines ascii_line st = Ok st' ->
  strip (st_answer st) = st_answer st -> strip (st_answer st') = st_answer st'.
Proof.
  revert st; induction lines as [|l lines IH]; intros st H Hst.
  - injection H as <-. exact Hst.
  - rewrite for_each_cons in H.
    destruct (ascii_line st l) as [st1|e] eqn:E; [|discriminate H].
    rewrite rbind_Ok in H. apply (IH st1 H).
    unfold ascii_line in E.
    destruct (startswith (upper (strip l)) (lit "ASCII:")).
    + injection E as <-. exact Hst.
    + destruct (startswith (upper (strip l)) (lit "ANSWER:")).
      * destruct (after_colon l) as [t|e] eqn:Et; [|discriminate E].
        rewrite rbind_Ok in E. injection E as <-.
        exact (after_colon_stripped l t Et).
      * destruct (capture_ascii st); injection E as <-; exact Hst.
Qed.

Lemma personality_loop_stripped (lines : list str) (st : str * str * list str) :
  strip (fst (fst st)) = fst (fst st) /\ strip (snd (fst st)) = snd (fst st) ->
  strip (fst (fst (fold_left personality_line lines st)))
  = fst (fst (fold_left personality_line lines st))
  /\ strip (snd (fst (fold_left personality_line lines st)))
     = snd (fst (fold_left personality_line lines st)).
Proof.
  revert st; induction lines as [|l lines IH]; intros st Hst; [exact Hst|].
  simpl fold_left. apply IH.
  destruct st as [[i t] tr]. destruct Hst as [Hi Ht]. unfold personality_line.
  destruct (startswith l (lit "INSIGHT:")); [split; [apply strip_idem | exact Ht]|].
  destruct (startswith l (lit "TYPE:")); [split; [exact Hi | apply strip_idem]|].
  destruct (startswith l (lit "TRAITS:")); split; assumption.
Qed.

End StrippedFields.

(** X20: the text fields the handlers take from the completion never have
    blanks around them: the question and answer of a riddle reply, the
    answer of an ASCII reply, the insight and the type of a personality
    reply are each equal to their stripped form, whether they come from a
    keyword line, from the whole text or from a default. *)
Theorem reply_fields_are_stripped (w w' : world) :
  (forall (req : RandomFunRequest.t) (r : RiddleResponse.t),
      get_riddle req w = (Ok r, w') ->
      strip (RiddleResponse.question r) = RiddleResponse.question r
      /\ strip (RiddleResponse.answer r) = RiddleResponse.answer r)
  /\ (forall (req : RandomFunRequest.t) (r : AsciiResponse.t),
         get_ascii_challenge req w = (Ok r, w') ->
         strip (AsciiResponse.answer r) = AsciiResponse.answer r)
  /\ (forall (req : PersonalityRequest.t) (r : PersonalityResponse.t),
         get_personality_insight req w = (Ok r, w') ->
         strip (PersonalityResponse.insight r) = PersonalityResponse.insight r
         /\ strip (PersonalityResponse.personality_type r)
            = PersonalityResponse.personality_type r).
Proof.
  split; [|split].
  - intros req r H. rewrite riddle_steps in H.
    destruct (call_openai_api _ _ _ _) as [[content|e] w1] eqn:E;
      [|discriminate H].
    pose proof (call_text_stripped _ _ _ _ _ _ E) as Hc.
    injection H as H _. unfold parse_riddle in H.
    destruct (for_each _ _ _) as [qa|e] eqn:El; [|discriminate H].
    rewrite rbind_Ok in H. injection H as <-.
    cbn [RiddleResponse.question RiddleResponse.answer].
    apply (riddle_loop_stripped _ _ _ El). split; [exact Hc|].
    vm_compute. reflexivity.
  - intros req r H. rewrite ascii_steps in H.
    destruct (call_openai_api _ _ _ _) as [[content|e] w1] eqn:E;
      [|discriminate H].
    injection H as H _. unfold parse_ascii in H.
    destruct (for_each _ _ _) as [st|e] eqn:El; [|discriminate H].
    rewrite rbind_Ok in H. injection H as <-.
    cbn [AsciiResponse.answer].
    apply (ascii_loop_answer_stripped _ _ _ El). vm_compute. reflexivity.
  - intros req r H.
    assert (Hin : strip (PersonalityRequest.input req) <> []).
    { intros Hs. unfold get_personality_insight in H. rewrite Hs in H.
      discriminate H. }
    rewrite (personality_steps req w Hin) in H.
    destruct (call_openai_api _ _ _ _) as [[text|e] w1] eqn:E;
      [|discriminate H].
    pose proof (call_text_stripped _ _ _ _ _ _ E) as Hc.
    destruct (confidence _) as [score|e]; [|discriminate H].
    assert (Hr : PersonalityResponse.insight r = fst (fst (parse_personality text))
                 /\ PersonalityResponse.personality_type r
                    = snd (fst (parse_personality text)))
      by (injection H as <- _; split; reflexivity).
    destruct Hr as [-> ->]. unfold parse_personality.
    apply personality_loop_stripped. cbn [fst snd].
    split; [exact Hc | vm_compute; reflexivity].
Qed.

Lemma reply_fields_are_stripped_witness :
  exists r w',
    get_riddle (RandomFunRequest.Mk default_language)
               (world_with (Returns [Some (lit "  QUESTION:   Why?  ")]) 0)
    = (Ok r, w')
    /\ RiddleResponse.question r = lit "Why?"
    /\ strip (RiddleResponse.question r) = RiddleResponse.question r.
Proof.
  assert (E : exists r w',
             get_riddle (RandomFunRequest.Mk default_language)
                        (world_with (Returns [Some (lit "  QUESTION:   Why?  ")]) 0)
             = (Ok r, w')
             /\ RiddleResponse.question r = lit "Why?").
  { vm_compute. eexists _, _. split; reflexivity. }
  destruct E as (r & w' & E & Hq).
  exists r, w'. split; [exact E|]. split; [exact Hq|].
  exact (proj1 (proj1 (reply_fields_are_stripped _ w') _ r E)).
Defined.
